(** * GLiNER: batch collation and entity reconstruction

    A shallow embedding of [gliner/data_processing/collator.py] and of the
    inference path of [gliner/model.py], with the properties of the padding
    engine, the processing-strategy dispatcher, the inference input builder
    and the entity reconstruction loop. *)

From Stdlib Require Import ZArith String Ascii QArith.
From stdpp Require Import base tactics option list list_numbers gmap strings.

Set Warnings "-register-all".

Local Open Scope string_scope.
Local Open Scope list_scope.

(** ** Python exceptions and the result monad *)

Module Py.

(** The exception classes the embedded code can raise.  [ValueError],
    [TypeError] and [KeyError] carry the message or the key. *)
Inductive exn : Type :=
  | ValueError (msg : string)
  | TypeError (msg : string)
  | KeyError (key : string)
  | IndexError
  | AttributeError
  | RuntimeError.

Inductive result (T : Type) : Type :=
  | Ok (v : T)
  | Raise (e : exn).
Arguments Ok {T} v.
Arguments Raise {T} e.

#[global] Instance result_ret : MRet result := fun _ v => Ok v.
#[global] Instance result_bind : MBind result := fun _ _ f m =>
  match m with
  | Ok v => f v
  | Raise e => Raise e
  end.
#[global] Instance result_fmap : FMap result := fun _ _ f m =>
  match m with
  | Ok v => Ok (f v)
  | Raise e => Raise e
  end.

Definition is_Ok {T} (m : result T) : Prop := exists v, m = Ok v.
Definition raises {T} (m : result T) : Prop := exists e, m = Raise e.

(** [l[i]] for a non-negative position, as produced by [enumerate] or a
    literal index. *)
Definition getitem_nat {T} (l : list T) (i : nat) : result T :=
  match l !! i with
  | Some x => Ok x
  | None => Raise IndexError
  end.

(** [l[i]] for an arbitrary Python integer: a negative [i] counts from the
    end, anything outside [[-len, len)] raises [IndexError]. *)
Definition getitem {T} (l : list T) (i : Z) : result T :=
  let n := Z.of_nat (length l) in
  if (0 <=? i)%Z then getitem_nat l (Z.to_nat i)
  else if (0 <=? i + n)%Z then getitem_nat l (Z.to_nat (i + n))
  else Raise IndexError.

(** The bound of a slice, clamped the way [str.__getitem__] does for a
    slice with the default step. *)
Definition slice_bound (len : nat) (i : Z) : nat :=
  let n := Z.of_nat len in
  if (i <? 0)%Z then Z.to_nat (Z.max 0 (i + n)) else Z.to_nat (Z.min i n).

(** [s[a:b]]. *)
Definition slice (s : string) (a b : Z) : string :=
  let lo := slice_bound (String.length s) a in
  let hi := slice_bound (String.length s) b in
  substring lo (hi - lo) s.

(** An ordered dictionary with string keys, in insertion order. *)
Definition dict (V : Type) : Type := list (string * V).

Definition keys {V} (d : dict V) : list string := d.*1.

Fixpoint dict_find {V} (d : dict V) (k : string) : option V :=
  match d with
  | [] => None
  | (k', v) :: d' => if String.eqb k' k then Some v else dict_find d' k
  end.

(** [d[k]] *)
Definition dict_getitem {V} (d : dict V) (k : string) : result V :=
  match dict_find d k with
  | Some v => Ok v
  | None => Raise (KeyError k)
  end.

End Py.

Import Py.

(** ** Tensors and the torch operations the collator calls *)

Module Torch.

(** A tensor is a nest of sequences over scalars.  Every sequence records
    the shape of its items, so that a dimension of size 0 keeps its trailing
    dimensions, as [torch.Size] does.  The element type is abstract: the
    collator never inspects an element, it only injects the fill value. *)
Inductive tensor (A : Type) : Type :=
  | Scalar (x : A)
  | Seq (inner : list nat) (items : list (tensor A)).
Arguments Scalar {A} x.
Arguments Seq {A} inner items.

Section Ops.
Context {A : Type} (zero : A).

(** [t.shape] *)
Definition shape (t : tensor A) : list nat :=
  match t with
  | Scalar _ => []
  | Seq inner items => length items :: inner
  end.

(** [t.dim()] *)
Definition dim (t : tensor A) : nat := length (shape t).

(** [t.shape[i]]: [torch.Size] is a tuple, an index past its end raises
    [IndexError]. *)
Definition shape_at (i : nat) (t : tensor A) : result nat :=
  getitem_nat (shape t) i.

(** [t.size(i)] for an axis the tensor has. *)
Definition size (i : nat) (t : tensor A) : nat := default 0 (shape t !! i).

Definition items (t : tensor A) : list (tensor A) :=
  match t with
  | Scalar _ => []
  | Seq _ l => l
  end.

(** [t[i0, i1, ...]] on a full index: the element at that position. *)
Fixpoint tget (idx : list nat) (t : tensor A) : option A :=
  match idx, t with
  | [], Scalar x => Some x
  | i :: idx', Seq _ l => t' ← l !! i; tget idx' t'
  | _, _ => None
  end.

(** The tensors torch can build: every item of a sequence has the recorded
    shape. *)
Fixpoint has_shape (s : list nat) (t : tensor A) : bool :=
  match s, t with
  | [], Scalar _ => true
  | n :: s', Seq inner l =>
      bool_decide (length l = n) && bool_decide (inner = s')
      && forallb (has_shape s') l
  | _, _ => false
  end.

Definition wf (t : tensor A) : Prop := has_shape (shape t) t = true.

(** A rank-4 tensor of shape [[k, batch_sub, seq_len, num_classes]]. *)
Definition labels_like (k : nat) (t : tensor A) : Prop :=
  exists b s c, has_shape [k; b; s; c] t = true.

(** [torch.zeros(s)], with the fill value of the padding calls. *)
Fixpoint full (s : list nat) : tensor A :=
  match s with
  | [] => Scalar zero
  | n :: s' => Seq s' (replicate n (full s'))
  end.

(** [t.squeeze(0)]: drops the leading dimension when its size is 1 and
    returns the tensor unchanged otherwise (also for a 0-d tensor). *)
Definition squeeze0 (t : tensor A) : tensor A :=
  match t with
  | Seq _ [x] => x
  | _ => t
  end.

(** [t.unsqueeze(0)] *)
Definition unsqueeze0 (t : tensor A) : tensor A := Seq (shape t) [t].

(** [torch.stack(ts)]: a new leading axis; the tensors must agree in
    shape. *)
Definition stack (ts : list (tensor A)) : result (tensor A) :=
  match ts with
  | [] => Raise RuntimeError
  | t0 :: _ =>
      if forallb (fun t => bool_decide (shape t = shape t0)) ts
      then Ok (Seq (shape t0) ts)
      else Raise RuntimeError
  end.

(** [pad_sequence(ts, batch_first=True)]: the trailing dimensions are those
    of the first sequence, every sequence is extended on the right with the
    fill value up to the longest one, and the rows are laid along a new
    leading axis.  A 0-d entry has no [size(0)]; an entry whose trailing
    dimensions differ cannot be copied into its row. *)
Definition pad_row (max_len : nat) (trailing : list nat) (t : tensor A)
  : result (tensor A) :=
  match t with
  | Scalar _ => Raise IndexError
  | Seq inner l =>
      if bool_decide (inner = trailing)
      then Ok (Seq trailing (l ++ replicate (max_len - length l) (full trailing)))
      else Raise RuntimeError
  end.

Definition pad_sequence (ts : list (tensor A)) : result (tensor A) :=
  t0 ← getitem_nat ts 0;
  lens ← mapM (shape_at 0) ts;
  let trailing := tail (shape t0) in
  let max_len := max_list lens in
  rows ← mapM (pad_row max_len trailing) ts;
  Ok (Seq (max_len :: trailing) rows).

(** [F.pad(t, (0, right), mode='constant', value=0)] on the last axis. *)
Definition pad_last (right : nat) (t : tensor A) : tensor A :=
  match t with
  | Seq [] l => Seq [] (l ++ replicate right (Scalar zero))
  | _ => t
  end.

Definition pad_shape2 (right bottom : nat) (s : list nat) : list nat :=
  match reverse s with
  | c :: r :: pre => reverse pre ++ [r + bottom; c + right]
  | _ => s
  end.

(** The last two axes of [t], padded on the right and at the bottom. *)
Fixpoint pad_last2 (right bottom : nat) (t : tensor A) : tensor A :=
  match t with
  | Scalar _ => t
  | Seq [c] rows =>
      Seq [c + right]
        (map (pad_last right) rows ++ replicate bottom (full [c + right]))
  | Seq inner l =>
      Seq (pad_shape2 right bottom inner) (map (pad_last2 right bottom) l)
  end.

(** [F.pad(t, (0, right, 0, bottom), mode='constant', value=0)]: four pad
    widths address the last two axes, so the tensor needs at least two. *)
Definition F_pad (t : tensor A) (right bottom : nat) : result (tensor A) :=
  if decide (2 <= dim t) then Ok (pad_last2 right bottom t)
  else Raise RuntimeError.

(** [torch.cat(ts, dim=1)]: every tensor needs an axis 1 and the tensors
    must agree on every other axis; slice [a] of the result is the
    concatenation of the slices [a] of the arguments. *)
Definition cat1_slice (rest : list nat) (ts : list (tensor A)) (a : nat)
  : tensor A :=
  Seq rest (flat_map (fun t => items (default (Scalar zero) (items t !! a))) ts).

Definition cat1 (ts : list (tensor A)) : result (tensor A) :=
  match ts with
  | [] => Raise RuntimeError
  | t0 :: _ =>
      match shape t0 with
      | k :: _ :: rest =>
          widths ← mapM (shape_at 1) ts;
          if forallb (fun t => bool_decide
                        (head (shape t) = Some k /\ drop 2 (shape t) = rest)) ts
          then Ok (Seq (sum_list widths :: rest)
                     (map (cat1_slice rest ts) (seq 0 k)))
          else Raise RuntimeError
      | _ => Raise IndexError
      end
  end.

(** The tensors [ts] have the sizes [bs] on axis 1 and agree on every other
    axis. *)
Definition cat1_compatible (k : nat) (rest : list nat) (ts : list (tensor A))
    (bs : list nat) : Prop :=
  Forall2 (fun t b => has_shape (k :: b :: rest) t = true) ts bs.

End Ops.
End Torch.

(** The one field of [GLiNERConfig] the embedded code reads. *)
Record GLiNERConfig : Type := { span_mode : string }.

(** ** The padding engine: [DataCollatorWithPadding] *)

Module Padding.
Import Torch.

(** The values a feature dictionary can hold, and the values of the padded
    dictionary (whose entries start as the empty list). *)
Inductive value (A : Type) : Type :=
  | VTensor (t : tensor A)
  | VList (l : list A)
  | VNum (x : A)
  | VStr (s : string)
  | VNone.
Arguments VTensor {A} t.
Arguments VList {A} l.
Arguments VNum {A} x.
Arguments VStr {A} s.
Arguments VNone {A}.

(** [__init__] stores the configuration and nothing else. *)
Record DataCollatorWithPadding : Type := { config : option GLiNERConfig }.

Definition init (cfg : option GLiNERConfig) : DataCollatorWithPadding :=
  {| config := cfg |}.

(** The two [TypeError]s of [__call__]. *)
Definition unsupported_dims (key : string) : exn :=
  TypeError ("Unsuported amount of dimension for key '" +:+ key +:+ "'").

Definition type_name {A} (v : value A) : string :=
  match v with
  | VTensor _ => "<class 'torch.Tensor'>"
  | VList _ => "<class 'list'>"
  | VNum _ => "<class 'float'>"
  | VStr _ => "<class 'str'>"
  | VNone => "<class 'NoneType'>"
  end.

Definition unsupported_type {A} (key : string) (v : value A) : exn :=
  TypeError ("Unsupported data type for key '" +:+ key +:+ "': " +:+ type_name v).

(** [for k in ks: st = body(k, st)], stopping at the first exception. *)
Fixpoint for_each {K S : Type} (body : K -> S -> result S) (ks : list K) (st : S)
  : result S :=
  match ks with
  | [] => Ok st
  | k :: ks' => st' ← body k st; for_each body ks' st'
  end.

Section Collator.
Context {A : Type} (zero : A).

#[local] Abbreviation tensor := (tensor A).
#[local] Abbreviation value := (value A).

(** [v.squeeze(0)]: only tensors have the method. *)
Definition squeeze_method (v : value) : result value :=
  match v with
  | VTensor t => Ok (VTensor (squeeze0 t))
  | _ => Raise AttributeError
  end.

(** The example [item] stores a tensor under [key] that [squeeze(0)] turns
    into [t]. *)
Definition holds_squeezed (key : string) (item : dict value) (t : tensor) : Prop :=
  exists t', dict_find item key = Some (VTensor t') /\ squeeze0 t' = t.

(** The torch functions take tensors. *)
Definition expect_tensor (v : value) : result tensor :=
  match v with
  | VTensor t => Ok t
  | _ => Raise (TypeError "expected Tensor")
  end.

(** [self.config.span_mode]; the default configuration is [None]. *)
Definition config_span_mode (self : DataCollatorWithPadding) : result string :=
  match config self with
  | Some cfg => Ok (span_mode cfg)
  | None => Raise AttributeError
  end.

(** [self.device]: no such attribute is ever assigned. *)
Definition self_device (self : DataCollatorWithPadding) : result unit :=
  Raise AttributeError.

(** [rows, cols = t.shape] *)
Definition unpack2 (s : list nat) : result (nat * nat) :=
  match s with
  | [rows; cols] => Ok (rows, cols)
  | [] | [_] => Raise (ValueError "not enough values to unpack (expected 2)")
  | _ => Raise (ValueError "too many values to unpack (expected 2)")
  end.

Definition pad_2d_tensor (key_data : list tensor) : result tensor :=
  match key_data with
  | [] => Raise (ValueError "The input list 'key_data' should not be empty.")
  | _ =>
      all_rows ← mapM (shape_at 0) key_data;
      let max_rows := max_list all_rows in
      all_cols ← mapM (shape_at 1) key_data;
      let max_cols := max_list all_cols in
      tensors ← mapM (fun t =>
                   '(rows, cols) ← unpack2 (shape t);
                   let row_padding := max_rows - rows in
                   let col_padding := max_cols - cols in
                   F_pad zero t col_padding row_padding) key_data;
      stack tensors
  end.

Definition pad_token_labels (key_data : list tensor) : result tensor :=
  match key_data with
  | [] => Raise (ValueError "The input list 'key_data' should not be empty.")
  | _ =>
      seq_lens ← mapM (shape_at 2) key_data;
      let max_seq_len := max_list seq_lens in
      nums_classes ← mapM (shape_at 3) key_data;
      let max_num_classes := max_list nums_classes in
      padded_tensors ← mapM (fun t =>
                   current_seq_len ← shape_at 2 t;
                   current_num_classes ← shape_at 3 t;
                   let seq_padding := max_seq_len - current_seq_len in
                   let class_padding := max_num_classes - current_num_classes in
                   F_pad zero t class_padding seq_padding) key_data;
      cat1 zero padded_tensors
  end.

(** [len(seq)] and [seq + [0] * n] in the list branch. *)
Definition expect_list (v : value) : result (list A) :=
  match v with
  | VList l => Ok l
  | _ => Raise (TypeError "expected list")
  end.

Definition expect_num (v : value) : result A :=
  match v with
  | VNum x => Ok x
  | _ => Raise (TypeError "expected number")
  end.

(** [torch.tensor(x, dtype=torch.float32)] of a list of numbers and of a
    list of equally long lists. *)
Definition tensor_1d (xs : list A) : tensor := Seq [] (Scalar <$> xs).
Definition tensor_2d (width : nat) (rows : list (list A)) : tensor :=
  Seq [width] (tensor_1d <$> rows).

(** The body of the loop over the keys, after [key_data] is collected. *)
Definition pad_key_data (self : DataCollatorWithPadding) (key : string)
    (key_data : list value) : result value :=
  first ← getitem_nat key_data 0;
  match first with
  | VTensor t0 =>
      if decide (dim t0 = 1) then
        ts ← mapM expect_tensor key_data;
        VTensor <$> pad_sequence zero ts
      else if decide (dim t0 = 2) then
        ts ← mapM expect_tensor key_data;
        VTensor <$> pad_2d_tensor ts
      else if String.eqb key "labels" then
        mode ← config_span_mode self;
        if String.eqb mode "token_level" then
          ts ← mapM expect_tensor key_data;
          VTensor <$> pad_token_labels ts
        else Raise (unsupported_dims key)
      else Raise (unsupported_dims key)
  | VList _ =>
      seqs ← mapM expect_list key_data;
      let max_length := max_list (map length seqs) in
      let padded :=
        map (fun seq => seq ++ replicate (max_length - length seq) zero) seqs in
      _ ← self_device self;
      Ok (VTensor (tensor_2d max_length padded))
  | VNum _ =>
      xs ← mapM expect_num key_data;
      _ ← self_device self;
      Ok (VTensor (tensor_1d xs))
  | _ => Raise (unsupported_type key first)
  end.

(** [key_data = [item[key].squeeze(0) for item in batch]] *)
Definition collect_key (key : string) (batch : list (dict value))
  : result (list value) :=
  mapM (fun item => v ← dict_getitem item key; squeeze_method v) batch.

Definition pad_key (self : DataCollatorWithPadding) (batch : list (dict value))
    (key : string) : result value :=
  key_data ← collect_key key batch;
  pad_key_data self key key_data.

(** [DataCollatorWithPadding.__call__] *)
Definition call (self : DataCollatorWithPadding) (batch : list (dict value))
  : result (gmap string value) :=
  match batch with
  | [] => Raise (ValueError "Batch cannot be empty")
  | first :: _ =>
      let ks := keys first in
      let padded_batch : gmap string value :=
        list_to_map ((fun key => (key, VList [])) <$> ks) in
      for_each (fun key padded_batch =>
                  v ← pad_key self batch key;
                  Ok (<[key := v]> padded_batch))
               ks padded_batch
  end.

End Collator.
End Padding.

(** ** Batches, processing strategies and the dispatcher: [DataCollator] *)

Module Batch.

Inductive device : Type :=
  | CPU
  | CUDA (index : nat).

(** A tensor seen from the pipeline: its contents and where it lives. *)
Record dtensor : Type := { payload : Torch.tensor Z; on : device }.

(** [t.to(device)] *)
Definition to (d : device) (t : dtensor) : dtensor :=
  {| payload := payload t; on := d |}.

(** The entries of the raw batch and of the model-input dictionary. *)
Inductive obj : Type :=
  | ONone
  | OTensor (t : dtensor)
  | OTokens (tokens : list (list string))
  | OOffsets (offsets : list (list Z))
  | OClasses (id_to_classes : list (Z * string)).

Definition WordsSplitter : Type := string -> list (string * Z * Z).

(** A [RawExample] of the inference path: [{"tokenized_text": tk, "ner": None}]. *)
Record RawExample : Type := { tokenized_text : list string }.

(** The interface of [SpanProcessor] and [TokenProcessor]
    ([gliner/data_processing/processor.py]): both collation routines are
    taken as functions of their arguments that build a fresh dictionary. *)
Record Processor : Type := {
  words_splitter : WordsSplitter;
  collate_raw_batch : list RawExample -> option (list string) -> result (gmap string obj);
  collate_fn : gmap string obj -> bool -> result (gmap string obj)
}.

(** [d.update(entries)] *)
Definition update (d : gmap string obj) (entries : list (string * obj))
  : gmap string obj :=
  foldl (fun d kv => <[kv.1 := kv.2]> d) d entries.

(** [d[k]] on a dictionary *)
Definition getitem_key (d : gmap string obj) (k : string) : result obj :=
  match d !! k with
  | Some v => Ok v
  | None => Raise (KeyError k)
  end.

(** [d[k] if k in d else None] *)
Definition get_or_None (d : gmap string obj) (k : string) : obj :=
  match d !! k with
  | Some v => v
  | None => ONone
  end.

(** The merge both [DataCollator.__call__] and [prepare_model_inputs]
    perform on the strategy's collated output. *)
Definition merge_batch_keys (model_input raw_batch : gmap string obj)
  : result (gmap string obj) :=
  let span_idx := get_or_None raw_batch "span_idx" in
  let span_mask := get_or_None raw_batch "span_mask" in
  text_lengths ← getitem_key raw_batch "seq_length";
  Ok (update model_input [("span_idx", span_idx);
                          ("span_mask", span_mask);
                          ("text_lengths", text_lengths)]).

Section Dispatcher.
Context {Tokenizer : Type}.
Context (TokenProcessor SpanProcessor :
           GLiNERConfig -> Tokenizer -> WordsSplitter -> Processor).

Record DataCollator : Type := {
  dc_config : GLiNERConfig;
  dc_data_processor : Processor
}.

(** [DataCollator.__init__] *)
Definition DataCollator_init (config : GLiNERConfig) (tokenizer : Tokenizer)
    (splitter : WordsSplitter) : DataCollator :=
  {| dc_config := config;
     dc_data_processor :=
       if String.eqb (span_mode config) "token_level"
       then TokenProcessor config tokenizer splitter
       else SpanProcessor config tokenizer splitter |}.

(** [DataCollator.__call__] *)
Definition DataCollator_call (self : DataCollator) (input_x : list RawExample)
  : result (gmap string obj) :=
  raw_batch ← collate_raw_batch (dc_data_processor self) input_x None;
  model_input ← collate_fn (dc_data_processor self) raw_batch false;
  merge_batch_keys model_input raw_batch.

End Dispatcher.
End Batch.

(** ** The inference path of [GLiNER] *)

Module Model.
Import Batch.

(** A torch module, as far as the pipeline looks at it:
    [next(m.parameters()).device]. *)
Record nn_module : Type := { parameters_device : device }.

(** [self.model] is a [BaseModel] (a torch module) or a [BaseORTModel]
    (an ONNX runtime session, which has no parameters). *)
Inductive model_t : Type :=
  | BaseModel (m : nn_module)
  | BaseORTModel (session : nat).

Definition is_BaseORTModel (m : model_t) : bool :=
  match m with
  | BaseORTModel _ => true
  | BaseModel _ => false
  end.

(** [next(self.model.parameters()).device] *)
Definition model_device (m : model_t) : result device :=
  match m with
  | BaseModel m => Ok (parameters_device m)
  | BaseORTModel _ => Raise AttributeError
  end.

Definition start_key : string := "all_start_token_idx_to_text_idx".
Definition end_key : string := "all_end_token_idx_to_text_idx".

(** [raw_batch[key][i]] for one of the two offset collections. *)
Definition offsets_at (raw_batch : gmap string obj) (key : string) (i : nat)
  : result (list Z) :=
  v ← getitem_key raw_batch key;
  match v with
  | OOffsets all => getitem_nat all i
  | _ => Raise (TypeError "not subscriptable")
  end.

Section GLiNER.
Context {Tokenizer Score : Type}.
Context (TokenProcessor SpanProcessor :
           GLiNERConfig -> Tokenizer -> WordsSplitter -> Processor).
Context (TokenModel SpanModel : GLiNERConfig -> bool -> nn_module).

(** A [SpanHypothesis] of the decoder: token indices, label and score. *)
Record SpanHypothesis : Type := {
  start_token_idx : Z;
  end_token_idx : Z;
  ent_type : string;
  ent_score : Score
}.

Record DecodeOptions : Type := {
  flat_ner : bool;
  threshold : Score;
  multi_label : bool
}.

(** Lines 131 to 137 of [batch_predict_entities]: the forward pass of the
    encoder and [self.decoder.decode], both outside this core. *)
Context (decode_output :
           model_t -> gmap string obj -> gmap string obj -> DecodeOptions ->
           result (list (list SpanHypothesis))).

Record Entity : Type := {
  e_start : Z;
  e_end : Z;
  e_text : string;
  e_label : string;
  e_score : Score
}.

Record GLiNER : Type := {
  config : GLiNERConfig;
  model : model_t;
  data_processor : Processor;
  onnx_model : bool
}.

(** [GLiNER.__init__], with the tokenizer and the words splitter already
    resolved. *)
Definition GLiNER_init (config : GLiNERConfig) (model : option model_t)
    (tokenizer : Tokenizer) (splitter : WordsSplitter)
    (encoder_from_pretrained : bool) : GLiNER :=
  let token_level := String.eqb (span_mode config) "token_level" in
  let the_model :=
    match model with
    | Some m => m
    | None =>
        if token_level then BaseModel (TokenModel config encoder_from_pretrained)
        else BaseModel (SpanModel config encoder_from_pretrained)
    end in
  {| config := config;
     model := the_model;
     data_processor :=
       if token_level then TokenProcessor config tokenizer splitter
       else SpanProcessor config tokenizer splitter;
     onnx_model := if is_BaseORTModel the_model then true else true |}.

(** The transfer step at the end of [prepare_model_inputs]. *)
Definition move_entry (d : device) (v : obj) : obj :=
  match v with
  | OTensor t => OTensor (to d t)
  | _ => v
  end.

Definition transfer (self : GLiNER) (model_input : gmap string obj)
  : result (gmap string obj) :=
  if negb (onnx_model self) then
    device ← model_device (model self);
    Ok (move_entry device <$> model_input)
  else Ok model_input.

(** [GLiNER.prepare_model_inputs] *)
Definition prepare_model_inputs (self : GLiNER) (texts : list string)
    (labels : list string) : result (gmap string obj * gmap string obj) :=
  let split := map (words_splitter (data_processor self)) texts in
  let all_tokens := map (map (fun tse => tse.1.1)) split in
  let all_start_token_idx_to_text_idx := map (map (fun tse => tse.1.2)) split in
  let all_end_token_idx_to_text_idx := map (map (fun tse => tse.2)) split in
  let input_x := map (fun tk => {| tokenized_text := tk |}) all_tokens in
  raw_batch ← collate_raw_batch (data_processor self) input_x (Some labels);
  let raw_batch :=
    <[start_key := OOffsets all_start_token_idx_to_text_idx]> raw_batch in
  let raw_batch :=
    <[end_key := OOffsets all_end_token_idx_to_text_idx]> raw_batch in
  model_input ← collate_fn (data_processor self) raw_batch false;
  model_input ← merge_batch_keys model_input raw_batch;
  model_input ← transfer self model_input;
  Ok (model_input, raw_batch).

(** The body of the inner loop of [batch_predict_entities]. *)
Definition reconstruct_entity (texts : list string) (i : nat)
    (start_token_idx_to_text_idx end_token_idx_to_text_idx : list Z)
    (h : SpanHypothesis) : result Entity :=
  start_text_idx ← getitem start_token_idx_to_text_idx (start_token_idx h);
  end_text_idx ← getitem end_token_idx_to_text_idx (end_token_idx h);
  start ← getitem start_token_idx_to_text_idx (start_token_idx h);
  end_ ← getitem end_token_idx_to_text_idx (end_token_idx h);
  text ← getitem_nat texts i;
  Ok {| e_start := start;
        e_end := end_;
        e_text := slice text start_text_idx end_text_idx;
        e_label := ent_type h;
        e_score := ent_score h |}.

(** The loop over [enumerate(outputs)]. *)
Definition reconstruct_entities (texts : list string)
    (raw_batch : gmap string obj) (outputs : list (list SpanHypothesis))
  : result (list (list Entity)) :=
  mapM (fun '(i, output) =>
          starts ← offsets_at raw_batch start_key i;
          ends ← offsets_at raw_batch end_key i;
          mapM (reconstruct_entity texts i starts ends) output)
       (imap pair outputs).

(** [GLiNER.batch_predict_entities] *)
Definition batch_predict_entities (self : GLiNER) (texts : list string)
    (labels : list string) (opts : DecodeOptions)
  : result (list (list Entity)) :=
  '(model_input, raw_batch) ← prepare_model_inputs self texts labels;
  outputs ← decode_output (model self) model_input raw_batch opts;
  reconstruct_entities texts raw_batch outputs.

(** [GLiNER.predict_entities] *)
Definition predict_entities (self : GLiNER) (text : string)
    (labels : list string) (opts : DecodeOptions) : result (list Entity) :=
  all ← batch_predict_entities self [text] labels opts;
  getitem_nat all 0.

End GLiNER.
End Model.

(** ** A concrete pipeline, for the examples *)

Module Scenario.
Import Batch Model.

(** The words splitter on the text of the specification's scenario. *)
Definition splitter : WordsSplitter := fun text =>
  if String.eqb text "Alice met Bob"
  then [("Alice", 0, 5); ("met", 6, 9); ("Bob", 10, 13)]%Z
  else [].

Definition cpu_tensor (xs : list Z) : dtensor :=
  {| payload := Padding.tensor_1d xs; on := CPU |}.

(** A strategy whose raw batch has no span tensors and whose collated
    output names [span_idx] itself. *)
Definition processor (config : GLiNERConfig) (tokenizer : unit)
    (splitter : WordsSplitter) : Processor :=
  {| words_splitter := splitter;
     collate_raw_batch := fun input_x labels =>
       Ok {[ "tokens" := OTokens (tokenized_text <$> input_x);
             "seq_length" :=
               OTensor (cpu_tensor ((fun x => Z.of_nat (length (tokenized_text x)))
                                      <$> input_x)) ]};
     collate_fn := fun raw_batch prepare_labels =>
       Ok {[ "input_ids" := OTensor (cpu_tensor [101; 7; 8; 9; 102]%Z);
             "span_idx" := OTensor (cpu_tensor [0; 0]%Z) ]} |}.

(** An encoder whose parameters live on the first accelerator. *)
Definition encoder (config : GLiNERConfig) (from_pretrained : bool) : nn_module :=
  {| parameters_device := CUDA 0 |}.

Definition span_config : GLiNERConfig := {| span_mode := "markerV0" |}.

Definition gliner : GLiNER :=
  GLiNER_init processor processor encoder encoder span_config None tt splitter true.

Definition collator : DataCollator :=
  DataCollator_init processor processor span_config tt splitter.

Definition hyp (s e : Z) (label : string) (score : Q) : @SpanHypothesis Q :=
  {| start_token_idx := s; end_token_idx := e; ent_type := label; ent_score := score |}.

(** A decoder that returns the given hypotheses. *)
Definition decoder (outputs : list (list (@SpanHypothesis Q)))
  : model_t -> gmap string obj -> gmap string obj -> @DecodeOptions Q ->
    result (list (list (@SpanHypothesis Q))) :=
  fun _ _ _ _ => Ok outputs.

Definition options : @DecodeOptions Q :=
  {| flat_ner := true; threshold := (1 # 2)%Q; multi_label := false |}.

Definition raw_batch : gmap string obj :=
  {[ "tokens" := OTokens [["Alice"; "met"; "Bob"]];
     "seq_length" := OTensor (cpu_tensor [3]%Z);
     start_key := OOffsets [[0; 6; 10]%Z];
     end_key := OOffsets [[5; 9; 13]%Z] ]}.

Definition model_input : gmap string obj :=
  {[ "input_ids" := OTensor (cpu_tensor [101; 7; 8; 9; 102]%Z);
     "span_idx" := ONone;
     "span_mask" := ONone;
     "text_lengths" := OTensor (cpu_tensor [3]%Z) ]}.

(** A rank-4 tensor from its nested entries. *)
Definition tensor_3d (rows cols : nat) (planes : list (list (list Z))) : Torch.tensor Z :=
  Torch.Seq [rows; cols] (Padding.tensor_2d cols <$> planes).
Definition tensor_4d (b rows cols : nat) (blocks : list (list (list (list Z))))
  : Torch.tensor Z :=
  Torch.Seq [b; rows; cols] (tensor_3d rows cols <$> blocks).

Definition token_level_collator : Padding.DataCollatorWithPadding :=
  Padding.init (Some {| span_mode := "token_level" |}).

End Scenario.

(** ** Vocabulary of the further properties *)

Module Conventions.
Import Batch Model.


(** The position a Python list of length [n] reads for the index [i]. *)
Definition resolve (n : nat) (i : Z) : nat :=
  if (0 <=? i)%Z then Z.to_nat i else Z.to_nat (i + Z.of_nat n).

(** The interface contract of the words splitter on [text]: every triple
    lies in the text with its start before its end, and the triples follow
    one another without overlap. *)
Definition splitter_contract (text : string) (tokens : list (string * Z * Z)) : Prop :=
  (forall j tok, tokens !! j = Some tok ->
     (0 <= tok.1.2 <= tok.2)%Z /\ (tok.2 <= Z.of_nat (String.length text))%Z)
  /\ (forall j j' tok tok', j < j' ->
        tokens !! j = Some tok -> tokens !! j' = Some tok' ->
        (tok.2 <= tok'.1.2)%Z).

(** The raw examples [prepare_model_inputs] hands to the strategy. *)
Definition inference_examples (splitter : WordsSplitter) (texts : list string)
  : list RawExample :=
  map (fun tk => {| tokenized_text := tk |})
      (map (map (fun tse => tse.1.1)) (map splitter texts)).

(** The raw batch of the strategy with the two offset collections
    [prepare_model_inputs] attaches. *)
Definition with_offsets (splitter : WordsSplitter) (texts : list string)
    (raw_batch : gmap string obj) : gmap string obj :=
  <[end_key := OOffsets (map (map (fun tse => tse.2)) (map splitter texts))]>
    (<[start_key := OOffsets (map (map (fun tse => tse.1.2)) (map splitter texts))]>
       raw_batch).

End Conventions.

(** ** Further concrete pipelines *)

Module Cases.
Import Batch Model.

(** A strategy whose raw batch lacks [seq_length]. *)
Definition bare_processor : Processor :=
  {| words_splitter := Scenario.splitter;
     collate_raw_batch := fun input_x labels =>
       Ok {[ "tokens" := OTokens (tokenized_text <$> input_x) ]};
     collate_fn := fun raw_batch prepare_labels =>
       Ok {[ "input_ids" := OTensor (Scenario.cpu_tensor [101; 7; 8; 9; 102]%Z) ]} |}.

Definition bare_collator : DataCollator :=
  {| dc_config := Scenario.span_config; dc_data_processor := bare_processor |}.

Definition bare_gliner : GLiNER :=
  {| config := Scenario.span_config;
     model := BaseModel (Scenario.encoder Scenario.span_config true);
     data_processor := bare_processor;
     onnx_model := true |}.

(** The scenario's pipeline with the [onnx_model] flag cleared by hand. *)
Definition torch_gliner : GLiNER :=
  {| config := Scenario.span_config;
     model := BaseModel (Scenario.encoder Scenario.span_config true);
     data_processor := Scenario.processor Scenario.span_config tt Scenario.splitter;
     onnx_model := false |}.

(** The model inputs of the scenario after the transfer to the encoder's
    device. *)
Definition moved_model_input : gmap string obj :=
  {[ "input_ids" := OTensor (to (CUDA 0) (Scenario.cpu_tensor [101; 7; 8; 9; 102]%Z));
     "span_idx" := ONone;
     "span_mask" := ONone;
     "text_lengths" := OTensor (to (CUDA 0) (Scenario.cpu_tensor [3]%Z)) ]}.

End Cases.

(** ** Reasoning about the result monad *)

Lemma bind_Ok {T U} (m : result T) (f : T -> result U) (u : U) :
  m ≫= f = Ok u <-> exists t, m = Ok t /\ f t = Ok u.
Proof.
  destruct m as [t|e]; simpl; split.
  - eauto.
  - by intros (? & [= <-] & ?).
  - done.
  - by intros (? & [=] & _).
Qed.

Lemma bind_Ok_l {T U} (x : T) (f : T -> result U) : Ok x ≫= f = f x.
Proof. done. Qed.

Lemma fmap_Ok {T U} (m : result T) (f : T -> U) (u : U) :
  f <$> m = Ok u <-> exists t, m = Ok t /\ u = f t.
Proof.
  destruct m as [t|e]; simpl; split.
  - intros [= <-]; eauto.
  - by intros (? & [= <-] & ->).
  - done.
  - by intros (? & [=] & _).
Qed.

Section ResultLemmas.
Context {T U : Type}.

Lemma mapM_Ok (f : T -> result U) (l : list T) (k : list U) :
  mapM f l = Ok k <-> Forall2 (fun x y => f x = Ok y) l k.
Proof.
  revert k; induction l as [|x l IH]; intros k; simpl.
  - split; [intros [= <-]; constructor | by inversion 1].
  - split.
    + intros (y & Hy & (k' & Hk' & [= <-])%bind_Ok)%bind_Ok.
      constructor; [done | by apply IH].
    + inversion 1 as [|? y ? k' Hy Hk']; subst.
      apply bind_Ok; exists y; split; [done|].
      apply bind_Ok; exists k'; split; [by apply IH | done].
Qed.

Lemma mapM_Ok_map (f : T -> result U) (g : T -> U) (l : list T) :
  Forall (fun x => f x = Ok (g x)) l -> mapM f l = Ok (map g l).
Proof.
  intros H. apply mapM_Ok. induction H; constructor; auto.
Qed.

Lemma mapM_Raise (f : T -> result U) (l : list T) (e : exn) :
  mapM f l = Raise e -> Exists (fun x => f x = Raise e) l.
Proof.
  induction l as [|x l IH]; simpl; [done|].
  destruct (f x) as [y|e'] eqn:Hx; simpl.
  - destruct (mapM f l) as [k|e'']; simpl; [done|].
    intros [= ->]. right. by apply IH.
  - intros [= ->]. by left.
Qed.

End ResultLemmas.

Lemma getitem_nat_Ok {T} (l : list T) (i : nat) (x : T) :
  getitem_nat l i = Ok x <-> l !! i = Some x.
Proof. unfold getitem_nat. destruct (l !! i); split; congruence. Qed.

Lemma getitem_nat_Raise {T} (l : list T) (i : nat) :
  length l <= i -> getitem_nat l i = Raise IndexError.
Proof. intros H. unfold getitem_nat. by rewrite lookup_ge_None_2. Qed.

Lemma getitem_in_bounds {T} (l : list T) (i : Z) :
  (0 <= i < Z.of_nat (length l))%Z ->
  exists x, l !! Z.to_nat i = Some x /\ getitem l i = Ok x.
Proof.
  intros [H0 H1]. unfold getitem.
  destruct (Z.leb_spec 0 i); [|lia].
  destruct (lookup_lt_is_Some_2 l (Z.to_nat i)) as [x Hx]; [lia|].
  exists x. split; [done|]. by apply getitem_nat_Ok.
Qed.

Lemma getitem_out_of_range {T} (l : list T) (i : Z) :
  (Z.of_nat (length l) <= i \/ i < - Z.of_nat (length l))%Z ->
  getitem l i = Raise IndexError.
Proof.
  intros H. unfold getitem.
  destruct (Z.leb_spec 0 i).
  - apply getitem_nat_Raise. lia.
  - destruct (Z.leb_spec 0 (i + Z.of_nat (length l))); [|done].
    lia.
Qed.

Lemma getitem_cases {T} (l : list T) (i : Z) :
  is_Ok (getitem l i) \/ getitem l i = Raise IndexError.
Proof.
  unfold getitem, getitem_nat.
  repeat case_match; unfold is_Ok; eauto.
Qed.

(** ** The padding engine: structure of a call *)

Section CallFacts.
Import Torch Padding.
Context {A : Type} (zero : A).

#[local] Abbreviation value := (value A).

Lemma dict_find_keys {V} (d : dict V) (k : string) (v : V) :
  dict_find d k = Some v -> k ∈ keys d.
Proof.
  induction d as [|[k' v'] d IH]; simpl; [done|].
  destruct (String.eqb_spec k' k) as [->|Hne].
  - intros _. unfold keys. simpl. left.
  - intros H. unfold keys. simpl. right. by apply IH.
Qed.

Lemma for_each_insert_Ok (f : string -> result value) (ks : list string)
    (m0 out : gmap string value) :
  for_each (fun key padded => v ← f key; Ok (<[key := v]> padded)) ks m0 = Ok out ->
  (forall k, k ∈ ks -> exists v, f k = Ok v /\ out !! k = Some v)
  /\ (forall k, k ∉ ks -> out !! k = m0 !! k).
Proof.
  revert m0. induction ks as [|k0 ks IH]; intros m0; simpl.
  - intros [= <-]. split; [by intros k ?%elem_of_nil | done].
  - intros (m1 & (v0 & Hv0 & [= <-])%bind_Ok & Hrest)%bind_Ok.
    destruct (IH _ Hrest) as [Hin Hout]. split.
    + intros k Hk. destruct (decide (k ∈ ks)) as [Hks|Hks]; [by apply Hin|].
      apply elem_of_cons in Hk as [->|Hk]; [|done].
      exists v0. split; [done|]. rewrite Hout by done. apply lookup_insert_eq.
    + intros k Hk. apply not_elem_of_cons in Hk as [Hne Hk].
      rewrite Hout by done. by apply lookup_insert_ne.
Qed.

Lemma for_each_insert_total (f : string -> result value) (ks : list string)
    (m0 : gmap string value) :
  Forall (fun k => is_Ok (f k)) ks ->
  is_Ok (for_each (fun key padded => v ← f key; Ok (<[key := v]> padded)) ks m0).
Proof.
  intros H. revert m0. induction H as [|k ks [v Hv] _ IH]; intros m0; simpl.
  - by eexists.
  - rewrite Hv. simpl. apply IH.
Qed.

(** A call that returns has, under every key of the first example, the
    value [pad_key] computes for that key, and no other key. *)
Lemma call_Ok (self : DataCollatorWithPadding) (batch : list (dict value))
    (out : gmap string value) :
  call zero self batch = Ok out ->
  exists first, head batch = Some first
    /\ (forall k, k ∈ keys first ->
          exists v, pad_key zero self batch k = Ok v /\ out !! k = Some v)
    /\ (forall k, k ∉ keys first -> out !! k = None).
Proof.
  destruct batch as [|first rest]; [done|]. unfold call.
  intros [Hin Hout]%for_each_insert_Ok. exists first.
  split; [done|]. split; [done|].
  intros k Hk. rewrite Hout by done.
  apply not_elem_of_list_to_map_1. rewrite <- list_fmap_compose.
  by rewrite (list_fmap_ext _ id (keys first)), list_fmap_id.
Qed.

(** A call returns as soon as every key of the first example is padded. *)
Lemma call_total (self : DataCollatorWithPadding) (batch : list (dict value))
    (first : dict value) :
  head batch = Some first ->
  Forall (fun k => is_Ok (pad_key zero self batch k)) (keys first) ->
  is_Ok (call zero self batch).
Proof.
  destruct batch as [|? rest]; [done|]. intros [= ->] H.
  by apply for_each_insert_total.
Qed.

Lemma call_lookup (self : DataCollatorWithPadding) (batch : list (dict value))
    (out : gmap string value) (first : dict value) (k : string) (v w : value) :
  head batch = Some first ->
  dict_find first k = Some w ->
  pad_key zero self batch k = Ok v ->
  call zero self batch = Ok out ->
  out !! k = Some v.
Proof.
  intros Hhd Hk Hv (first' & Hhd' & Hin & _)%call_Ok.
  assert (first' = first) as -> by congruence.
  destruct (Hin k) as (v' & Hv' & ->); [by eapply dict_find_keys|].
  congruence.
Qed.

End CallFacts.

(** ** The padding engine: collecting and dispatching *)

Section DispatchFacts.
Import Torch Padding.
Context {A : Type} (zero : A).

#[local] Abbreviation tensor := (tensor A).
#[local] Abbreviation value := (value A).

Lemma collect_key_tensors (key : string) (batch : list (dict value))
    (ts : list tensor) :
  Forall2 (holds_squeezed key) batch ts ->
  collect_key key batch = Ok (VTensor <$> ts).
Proof.
  intros H. apply mapM_Ok. apply Forall2_fmap_r.
  eapply Forall2_impl; [exact H|].
  intros item t (t' & Hfind & <-). unfold dict_getitem. by rewrite Hfind.
Qed.

Lemma expect_tensor_all (ts : list tensor) :
  mapM expect_tensor (VTensor <$> ts) = Ok ts.
Proof. apply mapM_Ok. apply Forall2_fmap_l. by apply Forall_Forall2_diag, Forall_true. Qed.

Lemma pad_key_tensors (self : DataCollatorWithPadding) (key : string)
    (batch : list (dict value)) (ts : list tensor) :
  Forall2 (holds_squeezed key) batch ts ->
  pad_key zero self batch key = pad_key_data zero self key (VTensor <$> ts).
Proof. intros H. unfold pad_key. by rewrite (collect_key_tensors _ _ _ H). Qed.

(** A value without a [squeeze] method under a key of the first example
    stops the collection of that key. *)
Lemma pad_key_no_squeeze (self : DataCollatorWithPadding) (key : string)
    (first : dict value) (rest : list (dict value)) (v : value) :
  dict_find first key = Some v ->
  (forall t, v <> VTensor t) ->
  pad_key zero self (first :: rest) key = Raise AttributeError.
Proof.
  intros Hfind Hv. unfold pad_key, collect_key, dict_getitem. simpl.
  rewrite Hfind. simpl. destruct v; simpl; try done. by destruct (Hv t).
Qed.

Lemma shape_at_0_tensor_1d (row : list A) :
  shape_at 0 (tensor_1d row) = Ok (length row).
Proof. unfold shape_at, tensor_1d. simpl. by rewrite length_fmap. Qed.

(** [pad_sequence] on flat sequences: every row is extended with the fill
    value up to the longest one. *)
Lemma pad_sequence_rows (rows : list (list A)) :
  rows <> [] ->
  let m := max_list (length <$> rows) in
  pad_sequence zero (tensor_1d <$> rows)
  = Ok (tensor_2d m ((fun row => row ++ replicate (m - length row) zero) <$> rows)).
Proof.
  intros Hne m. unfold pad_sequence.
  destruct rows as [|row0 rows']; [done|].
  remember (row0 :: rows') as rows eqn:Hrows.
  assert (getitem_nat (tensor_1d <$> rows) 0 = Ok (tensor_1d row0)) as ->
    by (by subst rows).
  rewrite bind_Ok_l.
  rewrite (mapM_Ok_map _ (fun t => length (items t))), bind_Ok_l.
  2:{ apply Forall_fmap, Forall_true. intros row. done. }
  assert (max_list (map (fun t : tensor => length (items t)) (tensor_1d <$> rows)) = m) as ->.
  { unfold m. f_equal. rewrite <- list_fmap_compose. apply list_fmap_ext.
    intros i row _. simpl. by rewrite length_fmap. }
  change (tail (shape (tensor_1d row0))) with (@nil nat).
  rewrite (mapM_Ok_map _
             (fun t => Seq [] (items t ++ replicate (m - length (items t)) (Scalar zero)))),
    bind_Ok_l.
  2:{ apply Forall_fmap, Forall_true. intros row. done. }
  f_equal. unfold tensor_2d. f_equal.
  change (map ?f ?l) with (f <$> l).
  rewrite <- !list_fmap_compose. apply list_fmap_ext.
  intros i row _. simpl. unfold tensor_1d.
  by rewrite fmap_app, fmap_replicate, length_fmap.
Qed.

Lemma pad_key_data_rank1 (self : DataCollatorWithPadding) (key : string)
    (rows : list (list A)) :
  rows <> [] ->
  pad_key_data zero self key (VTensor <$> (tensor_1d <$> rows))
  = VTensor <$> pad_sequence zero (tensor_1d <$> rows).
Proof.
  intros Hne. destruct rows as [|row0 rows']; [done|].
  unfold pad_key_data.
  change (getitem_nat _ 0) with (Ok (VTensor (tensor_1d row0))).
  simpl mbind at 1. cbv beta iota.
  destruct (decide (dim (tensor_1d row0) = 1)) as [_|Hd]; [|by destruct Hd].
  by rewrite expect_tensor_all.
Qed.

End DispatchFacts.

(** ** The padding engine on batches that are already uniform *)

Section UniformFacts.
Import Torch Padding.
Context {A : Type} (zero : A).

#[local] Abbreviation tensor := (tensor A).
#[local] Abbreviation value := (value A).

Lemma max_list_const {T} (n : nat) (l : list T) :
  l <> [] -> max_list (map (fun _ => n) l) = n.
Proof.
  induction l as [|x l IH]; [done|]. intros _. simpl.
  destruct l as [|y l]; simpl in *; [lia|]. rewrite IH by done. lia.
Qed.

Lemma pad_last_0 (t : tensor) : pad_last zero 0 t = t.
Proof.
  destruct t as [x|inner l]; [done|].
  destruct inner; simpl; [by rewrite app_nil_r | done].
Qed.

Lemma pad_last2_0 (t : tensor) : dim t = 2 -> pad_last2 zero 0 0 t = t.
Proof.
  destruct t as [x|inner l]; [done|].
  destruct inner as [|c [|? ?]]; try done. intros _. simpl.
  rewrite Nat.add_0_r, app_nil_r. f_equal.
  rewrite <- (map_id l) at 2. apply map_ext. intros r. apply pad_last_0.
Qed.

Lemma stack_uniform (s : list nat) (ts : list tensor) :
  ts <> [] -> Forall (fun t => shape t = s) ts -> stack ts = Ok (Seq s ts).
Proof.
  intros Hne Hs. destruct ts as [|t0 ts']; [done|]. unfold stack.
  assert (shape t0 = s) as -> by (by inversion Hs).
  rewrite (proj2 (forallb_forall _ _)); [done|].
  intros t Ht. apply bool_decide_eq_true.
  rewrite Forall_forall in Hs. apply Hs. by apply list_elem_of_In.
Qed.

Lemma pad_sequence_uniform (n : nat) (ts : list tensor) :
  ts <> [] -> Forall (fun t => shape t = [n]) ts ->
  pad_sequence zero ts = Ok (Seq [n] ts).
Proof.
  intros Hne Hs. unfold pad_sequence.
  destruct ts as [|t0 ts']; [done|].
  remember (t0 :: ts') as ts eqn:Hts.
  assert (getitem_nat ts 0 = Ok t0) as -> by (by subst ts).
  rewrite bind_Ok_l.
  assert (shape t0 = [n]) as -> by (subst ts; by inversion Hs).
  rewrite (mapM_Ok_map _ (fun _ => n)), bind_Ok_l.
  2:{ eapply Forall_impl; [exact Hs|]. intros t Ht. unfold shape_at. by rewrite Ht. }
  rewrite max_list_const by done. simpl tail.
  rewrite (mapM_Ok_map _ id), bind_Ok_l; [by rewrite map_id|].
  eapply Forall_impl; [exact Hs|]. intros t Ht.
  destruct t as [x|inner l]; [done|]. simpl in Ht. injection Ht as Hl ->.
  simpl. by rewrite Hl, Nat.sub_diag, app_nil_r.
Qed.

Lemma pad_2d_tensor_uniform (r c : nat) (ts : list tensor) :
  ts <> [] -> Forall (fun t => shape t = [r; c]) ts ->
  pad_2d_tensor zero ts = Ok (Seq [r; c] ts).
Proof.
  intros Hne Hs. unfold pad_2d_tensor.
  destruct ts as [|t0 ts']; [done|].
  remember (t0 :: ts') as ts eqn:Hts.
  rewrite (mapM_Ok_map (shape_at 0) (fun _ => r)), bind_Ok_l.
  2:{ eapply Forall_impl; [exact Hs|]. intros t Ht. unfold shape_at. by rewrite Ht. }
  rewrite (mapM_Ok_map (shape_at 1) (fun _ => c)), bind_Ok_l.
  2:{ eapply Forall_impl; [exact Hs|]. intros t Ht. unfold shape_at. by rewrite Ht. }
  rewrite !max_list_const by done.
  rewrite (mapM_Ok_map _ id), bind_Ok_l.
  - rewrite map_id. by apply stack_uniform.
  - eapply Forall_impl; [exact Hs|]. intros t Ht. rewrite Ht. simpl.
    rewrite !Nat.sub_diag. unfold F_pad, dim. rewrite Ht. simpl.
    rewrite pad_last2_0; [done|]. unfold dim. by rewrite Ht.
Qed.

Lemma pad_key_data_uniform (self : DataCollatorWithPadding) (key : string)
    (s : list nat) (ts : list tensor) :
  ts <> [] -> Forall (fun t => shape t = s) ts ->
  length s = 1 \/ length s = 2 ->
  pad_key_data zero self key (VTensor <$> ts) = Ok (VTensor (Seq s ts)).
Proof.
  intros Hne Hs Hrank. unfold pad_key_data.
  destruct ts as [|t0 ts']; [done|].
  remember (t0 :: ts') as ts eqn:Hts.
  assert (getitem_nat (VTensor <$> ts) 0 = Ok (VTensor t0)) as -> by (by subst ts).
  rewrite bind_Ok_l.
  assert (dim t0 = length s) as Hd.
  { subst ts. inversion Hs as [|? ? H0 _]. unfold dim. by rewrite H0. }
  rewrite expect_tensor_all, bind_Ok_l.
  destruct Hrank as [H1|H2].
  - destruct (decide (dim t0 = 1)) as [_|Hn]; [|lia].
    destruct s as [|n [|? ?]]; try done.
    by rewrite (pad_sequence_uniform n).
  - destruct (decide (dim t0 = 1)) as [Hn|_]; [lia|].
    destruct (decide (dim t0 = 2)) as [_|Hn]; [|lia].
    destruct s as [|r [|c [|? ?]]]; try done.
    by rewrite bind_Ok_l, (pad_2d_tensor_uniform r c).
Qed.

End UniformFacts.

(** ** Properties of the padding engine *)

Section PaddingProperties.
Import Torch Padding.
Context {A : Type} (zero : A).

#[local] Abbreviation tensor := (tensor A).
#[local] Abbreviation value := (value A).

(** C7.  A call on the empty batch raises [ValueError("Batch cannot be
    empty")]: the check is the first statement of [__call__], so nothing is
    padded or inspected and no dictionary is returned, whatever the
    configuration. *)
Theorem empty_batch_rejected (self : DataCollatorWithPadding) :
  call zero self [] = Raise (ValueError "Batch cannot be empty").
Proof. reflexivity. Qed.

(** C8, as the code has it.  When the values stored under [key] are, after
    [squeeze(0)], flat sequences [rows] (rank 1), the engine returns for
    that key a rank-2 tensor with one row per example; every row has the
    length of the longest sequence, starts with the example's own entries
    and continues with the fill value only.  A call that returns carries
    this tensor under [key]. *)
Theorem rank1_rows_right_padded (self : DataCollatorWithPadding)
    (batch : list (dict value)) (key : string) (rows : list (list A)) :
  batch <> [] ->
  Forall2 (fun item row => holds_squeezed key item (tensor_1d row)) batch rows ->
  let m := max_list (length <$> rows) in
  exists out_rows,
    pad_key zero self batch key = Ok (VTensor (tensor_2d m out_rows))
    /\ (forall out, call zero self batch = Ok out ->
          out !! key = Some (VTensor (tensor_2d m out_rows)))
    /\ length out_rows = length batch
    /\ forall i row, rows !! i = Some row ->
         exists out_row, out_rows !! i = Some out_row
           /\ length out_row = m
           /\ take (length row) out_row = row
           /\ drop (length row) out_row = replicate (m - length row) zero.
Proof.
  intros Hne Hrows m.
  assert (rows <> []) as Hrne.
  { intros ->. apply Forall2_nil_inv_r in Hrows. done. }
  exists ((fun row => row ++ replicate (m - length row) zero) <$> rows).
  assert (pad_key zero self batch key
          = Ok (VTensor (tensor_2d m
                  ((fun row => row ++ replicate (m - length row) zero) <$> rows)))) as Hkey.
  { rewrite (pad_key_tensors zero self key batch (tensor_1d <$> rows)).
    - rewrite pad_key_data_rank1 by done. by rewrite pad_sequence_rows.
    - by apply Forall2_fmap_r. }
  split; [done|]. split; [|split].
  - intros out Hout. destruct batch as [|first rest]; [done|].
    inversion Hrows as [|? row0 ? ? (t' & Hfind & _) _]; subst.
    by eapply (call_lookup zero self (first :: rest)).
  - rewrite length_fmap. symmetry. by eapply Forall2_length.
  - intros i row Hi. exists (row ++ replicate (m - length row) zero).
    rewrite list_lookup_fmap, Hi. split; [done|].
    assert (length row <= m) as Hle.
    { apply max_list_elem_of_le, list_elem_of_fmap. exists row.
      split; [done|]. by eapply list_elem_of_lookup_2. }
    rewrite length_app, length_replicate, take_app_length, drop_app_length.
    repeat split; lia.
Qed.

(** C9, as the code has it.  When the values stored under [key] have, after
    [squeeze(0)], one common shape of rank 1 or 2, the engine returns for
    that key exactly these tensors laid along a new leading axis: it is the
    result of [torch.stack] on them and no element is changed. *)
Theorem uniform_batch_is_stacked (self : DataCollatorWithPadding)
    (batch : list (dict value)) (key : string) (s : list nat) (ts : list tensor) :
  batch <> [] ->
  Forall2 (holds_squeezed key) batch ts ->
  Forall (fun t => shape t = s) ts ->
  length s = 1 \/ length s = 2 ->
  pad_key zero self batch key = Ok (VTensor (Seq s ts))
  /\ stack ts = Ok (Seq s ts)
  /\ forall out, call zero self batch = Ok out ->
       out !! key = Some (VTensor (Seq s ts)).
Proof.
  intros Hne Hts Hs Hrank.
  assert (ts <> []) as Htne.
  { intros ->. apply Forall2_nil_inv_r in Hts. done. }
  assert (pad_key zero self batch key = Ok (VTensor (Seq s ts))) as Hkey.
  { rewrite (pad_key_tensors zero self key batch ts) by done.
    by apply pad_key_data_uniform. }
  split; [done|]. split; [by apply stack_uniform|].
  intros out Hout. destruct batch as [|first rest]; [done|].
  inversion Hts as [|? t0 ? ? (t' & Hfind & _) _]; subst.
  by eapply (call_lookup zero self (first :: rest)).
Qed.

(** C10, as the code has it.  The dispatch sees the squeezed values: when
    the stored tensors are [ts] under a leading axis of size 1, the engine
    treats the key as [ts] would be treated by the dispatch itself; and a
    batch that stores [ts] directly is padded the same way provided no
    tensor of [ts] has itself a leading axis of size 1. *)
Theorem leading_axis_squeezed_before_dispatch (self : DataCollatorWithPadding)
    (key : string) (wrapped plain : list (dict value)) (ts : list tensor) :
  Forall2 (fun item t => dict_find item key = Some (VTensor (unsqueeze0 t))) wrapped ts ->
  Forall2 (fun item t => dict_find item key = Some (VTensor t)) plain ts ->
  pad_key zero self wrapped key = pad_key_data zero self key (VTensor <$> ts)
  /\ (Forall (fun t => head (shape t) <> Some 1) ts ->
      pad_key zero self plain key = pad_key zero self wrapped key)
  /\ (forall rows, rows <> [] -> ts = tensor_1d <$> rows ->
      let m := max_list (length <$> rows) in
      pad_key zero self wrapped key
      = Ok (VTensor (tensor_2d m
              ((fun row => row ++ replicate (m - length row) zero) <$> rows)))).
Proof.
  intros Hw Hp.
  assert (pad_key zero self wrapped key
          = pad_key_data zero self key (VTensor <$> ts)) as Hwrapped.
  { apply pad_key_tensors. eapply Forall2_impl; [exact Hw|].
    intros item t Hfind. by exists (unsqueeze0 t). }
  split; [done|]. split.
  - intros Hlead. rewrite Hwrapped.
    apply pad_key_tensors.
    apply Forall2_same_length_lookup. split; [by eapply Forall2_length|].
    intros i item t Hitem Ht. exists t. split.
    + exact (Forall2_lookup_lr _ _ _ _ _ _ Hp Hitem Ht).
    + rewrite Forall_forall in Hlead.
      specialize (Hlead t (list_elem_of_lookup_2 _ _ _ Ht)).
      destruct t as [x|inner [|t1 [|t2 l]]]; try done.
  - intros rows Hne -> m. rewrite Hwrapped.
    rewrite pad_key_data_rank1 by done. by rewrite pad_sequence_rows.
Qed.

End PaddingProperties.

(** ** The padding engine on concrete batches *)

Section PaddingExamples.
Import Torch Padding.

(** The scenario of the specification: [[1,2,3]] and [[1,2]] give
    [[[1,2,3],[1,2,0]]]; the second example is stored with a leading axis of
    size 1. *)
Example pad_two_rank1_examples :
  pad_key 0%Z (init None)
    [ [("input_ids", VTensor (tensor_1d [1; 2; 3]%Z))];
      [("input_ids", VTensor (unsqueeze0 (tensor_1d [1; 2]%Z)))] ] "input_ids"
  = Ok (VTensor (tensor_2d 3 [[1; 2; 3]; [1; 2; 0]]%Z)).
Proof. reflexivity. Qed.

Lemma rank1_rows_right_padded_witness :
  let batch := [ [("input_ids", VTensor (tensor_1d [1; 2; 3]%Z))];
                 [("input_ids", VTensor (unsqueeze0 (tensor_1d [1; 2]%Z)))] ] in
  let rows := [[1; 2; 3]; [1; 2]]%Z in
  batch <> []
  /\ Forall2 (fun item row => holds_squeezed "input_ids" item (tensor_1d row)) batch rows
  /\ exists out_rows,
       pad_key 0%Z (init None) batch "input_ids" = Ok (VTensor (tensor_2d 3 out_rows))
       /\ (forall out, call 0%Z (init None) batch = Ok out ->
             out !! "input_ids" = Some (VTensor (tensor_2d 3 out_rows)))
       /\ length out_rows = length batch
       /\ forall i row, rows !! i = Some row ->
            exists out_row, out_rows !! i = Some out_row
              /\ length out_row = 3
              /\ take (length row) out_row = row
              /\ drop (length row) out_row = replicate (3 - length row) 0%Z.
Proof.
  intros batch rows.
  assert (batch <> []) as H1 by done.
  assert (Forall2 (fun item row => holds_squeezed "input_ids" item (tensor_1d row))
            batch rows) as H2.
  { repeat constructor; eexists; split; reflexivity. }
  split; [exact H1|]. split; [exact H2|].
  exact (rank1_rows_right_padded 0%Z (init None) batch "input_ids" rows H1 H2).
Defined.

(** C8 as stated fails on a stored rank-1 tensor with a single entry:
    [squeeze(0)] turns it into a 0-d tensor, which no branch accepts. *)
Lemma single_entry_rank1_rejected :
  let batch := [ [("input_ids", VTensor (tensor_1d [7]%Z))] ] in
  batch <> []
  /\ Forall2 (fun item row => dict_find item "input_ids" = Some (VTensor (tensor_1d row)))
       batch [[7]%Z]
  /\ pad_key 0%Z (init None) batch "input_ids" = Raise (unsupported_dims "input_ids")
  /\ call 0%Z (init None) batch = Raise (unsupported_dims "input_ids").
Proof. repeat split; try done. by repeat constructor. Qed.

Lemma uniform_batch_is_stacked_witness :
  let t1 := tensor_2d 2 [[1; 2]; [3; 4]]%Z in
  let t2 := tensor_2d 2 [[5; 6]; [7; 8]]%Z in
  let batch := [ [("span_idx", VTensor t1)]; [("span_idx", VTensor (unsqueeze0 t2))] ] in
  batch <> []
  /\ Forall2 (holds_squeezed "span_idx") batch [t1; t2]
  /\ Forall (fun t => shape t = [2; 2]) [t1; t2]
  /\ (length [2; 2] = 1 \/ length [2; 2] = 2)
  /\ pad_key 0%Z (init None) batch "span_idx" = Ok (VTensor (Seq [2; 2] [t1; t2]))
  /\ stack [t1; t2] = Ok (Seq [2; 2] [t1; t2])
  /\ forall out, call 0%Z (init None) batch = Ok out ->
       out !! "span_idx" = Some (VTensor (Seq [2; 2] [t1; t2])).
Proof.
  intros t1 t2 batch.
  assert (batch <> []) as H1 by done.
  assert (Forall2 (holds_squeezed "span_idx") batch [t1; t2]) as H2.
  { repeat constructor; eexists; split; reflexivity. }
  assert (Forall (fun t => shape t = [2; 2]) [t1; t2]) as H3 by (by repeat constructor).
  assert (length [2; 2] = 1 \/ length [2; 2] = 2) as H4 by (by right).
  split; [exact H1|]. split; [exact H2|]. split; [exact H3|]. split; [exact H4|].
  exact (uniform_batch_is_stacked 0%Z (init None) batch "span_idx" [2; 2] [t1; t2]
           H1 H2 H3 H4).
Defined.

(** C9 as stated fails in two ways.  Equal-shape tensors of rank 3 are
    rejected; and equal-shape tensors of shape [[1, 2]] come back as a
    tensor of shape [[2, 2]], not as their stack of shape [[2, 1, 2]]. *)
Lemma uniform_batch_not_always_stacked :
  let cube := Seq [1; 1] [tensor_2d 1 [[1]%Z]; tensor_2d 1 [[2]%Z]] in
  let row1 := tensor_2d 2 [[1; 2]%Z] in
  let row2 := tensor_2d 2 [[3; 4]%Z] in
  (shape cube = [2; 1; 1]
   /\ pad_key 0%Z (init None)
        [ [("x", VTensor cube)]; [("x", VTensor cube)] ] "x"
      = Raise (unsupported_dims "x")
   /\ call 0%Z (init None)
        [ [("x", VTensor cube)]; [("x", VTensor cube)] ]
      = Raise (unsupported_dims "x"))
  /\ (shape row1 = [1; 2] /\ shape row2 = [1; 2]
      /\ stack [row1; row2] = Ok (Seq [1; 2] [row1; row2])
      /\ pad_key 0%Z (init None)
           [ [("x", VTensor row1)]; [("x", VTensor row2)] ] "x"
         = Ok (VTensor (tensor_2d 2 [[1; 2]; [3; 4]]%Z))
      /\ tensor_2d 2 [[1; 2]; [3; 4]]%Z <> Seq [1; 2] [row1; row2]).
Proof. repeat split; done. Qed.

Lemma leading_axis_squeezed_before_dispatch_witness :
  let ts := [tensor_1d [1; 2; 3]%Z; tensor_1d [4; 5]%Z] in
  let wrapped := [ [("input_ids", VTensor (unsqueeze0 (tensor_1d [1; 2; 3]%Z)))];
                   [("input_ids", VTensor (unsqueeze0 (tensor_1d [4; 5]%Z)))] ] in
  let plain := [ [("input_ids", VTensor (tensor_1d [1; 2; 3]%Z))];
                 [("input_ids", VTensor (tensor_1d [4; 5]%Z))] ] in
  Forall2 (fun item t => dict_find item "input_ids" = Some (VTensor (unsqueeze0 t)))
    wrapped ts
  /\ Forall2 (fun item t => dict_find item "input_ids" = Some (VTensor t)) plain ts
  /\ Forall (fun t => head (shape t) <> Some 1) ts
  /\ pad_key 0%Z (init None) plain "input_ids"
     = pad_key 0%Z (init None) wrapped "input_ids".
Proof.
  intros ts wrapped plain.
  assert (Forall2 (fun item t => dict_find item "input_ids" = Some (VTensor (unsqueeze0 t)))
            wrapped ts) as H1 by (by repeat constructor).
  assert (Forall2 (fun item t => dict_find item "input_ids" = Some (VTensor t)) plain ts)
    as H2 by (by repeat constructor).
  assert (Forall (fun t => head (shape t) <> Some 1) ts) as H3 by (by repeat constructor).
  split; [exact H1|]. split; [exact H2|]. split; [exact H3|].
  exact (proj1 (proj2 (leading_axis_squeezed_before_dispatch 0%Z (init None)
                         "input_ids" wrapped plain ts H1 H2)) H3).
Defined.

(** C10 as stated fails for [n = 1]: tensors of shape [[1, 1]] are padded as
    rows of length 1, tensors of shape [[1]] are squeezed to rank 0 and
    rejected. *)
Lemma shape_1_1_not_padded_as_shape_1 :
  let wrapped := [ [("input_ids", VTensor (unsqueeze0 (tensor_1d [5]%Z)))] ] in
  let plain := [ [("input_ids", VTensor (tensor_1d [5]%Z))] ] in
  shape (unsqueeze0 (tensor_1d [5]%Z)) = [1; 1]
  /\ shape (tensor_1d [5]%Z) = [1]
  /\ pad_key 0%Z (init None) wrapped "input_ids" = Ok (VTensor (tensor_2d 1 [[5]%Z]))
  /\ pad_key 0%Z (init None) plain "input_ids" = Raise (unsupported_dims "input_ids")
  /\ call 0%Z (init None) plain = Raise (unsupported_dims "input_ids").
Proof. repeat split; done. Qed.

End PaddingExamples.

(** ** List and scalar features *)

Section NonTensorFacts.
Import Torch Padding.
Context {A : Type} (zero : A).

#[local] Abbreviation value := (value A).

(** Even on collected data the list branch and the scalar branch end in
    the lookup of [self.device]. *)
Lemma non_tensor_branches_raise (self : DataCollatorWithPadding) (key : string)
    (key_data : list value) (v : value) :
  head key_data = Some v ->
  (forall t, v <> VTensor t) ->
  raises (pad_key_data zero self key key_data).
Proof.
  intros Hhd Hv. destruct key_data as [|v' rest]; [done|].
  injection Hhd as ->. unfold pad_key_data.
  change (getitem_nat (v :: rest) 0) with (Ok v). rewrite bind_Ok_l.
  destruct v as [t|l|x|s|].
  - by destruct (Hv t).
  - destruct (mapM expect_list (VList l :: rest)) as [seqs|e]; by eexists.
  - destruct (mapM expect_num (VNum x :: rest)) as [xs|e]; by eexists.
  - by eexists.
  - by eexists.
Qed.

(** A call whose first example holds a list or a number never returns. *)
Lemma call_non_tensor_raises (self : DataCollatorWithPadding) (key : string)
    (first : dict value) (rest : list (dict value)) (v : value) :
  dict_find first key = Some v ->
  (forall t, v <> VTensor t) ->
  pad_key zero self (first :: rest) key = Raise AttributeError
  /\ raises (call zero self (first :: rest)).
Proof.
  intros Hfind Hv.
  assert (pad_key zero self (first :: rest) key = Raise AttributeError) as Hkey
    by (by eapply pad_key_no_squeeze).
  split; [done|].
  destruct (call zero self (first :: rest)) as [out|e] eqn:Hcall; [|by eexists].
  apply call_Ok in Hcall as (first' & [= <-] & Hin & _).
  destruct (Hin key) as (v' & Hv' & _); [by eapply dict_find_keys|]. congruence.
Qed.

End NonTensorFacts.

(** C4.  The engine has a branch that right-pads lists with zeros and a
    branch that turns numbers into a 1-D tensor, but neither can return:
    [item[key].squeeze(0)] is applied to every value first and a list or a
    number has no such method, and both branches end in [self.device], which
    [__init__] never assigns.  On a batch with a ragged list feature and a
    scalar feature the call raises [AttributeError]. *)
Theorem list_and_scalar_features_raise :
  let batch := [ [("weights", Padding.VList [1; 2]%Z); ("count", Padding.VNum 3%Z)];
                 [("weights", Padding.VList [3]%Z); ("count", Padding.VNum 4%Z)] ] in
  Padding.call 0%Z (Padding.init None) batch = Raise AttributeError
  /\ Padding.pad_key 0%Z (Padding.init None) batch "weights" = Raise AttributeError
  /\ Padding.pad_key 0%Z (Padding.init None) batch "count" = Raise AttributeError
  /\ Padding.pad_key_data 0%Z (Padding.init None) "weights"
       [Padding.VList [1; 2]%Z; Padding.VList [3]%Z] = Raise AttributeError
  /\ Padding.pad_key_data 0%Z (Padding.init None) "count"
       [Padding.VNum 3%Z; Padding.VNum 4%Z] = Raise AttributeError.
Proof. repeat split; reflexivity. Qed.

(** ** Shapes and elements under padding and concatenation *)

Section ShapeFacts.
Import Torch.
Context {A : Type} (zero : A).

#[local] Abbreviation tensor := (tensor A).

Lemma has_shape_Seq (n : nat) (s inner : list nat) (l : list tensor) :
  has_shape (n :: s) (Seq inner l) = true
  <-> length l = n /\ inner = s /\ Forall (fun x => has_shape s x = true) l.
Proof.
  simpl. rewrite !andb_true_iff, !bool_decide_eq_true, forallb_forall, Forall_forall.
  setoid_rewrite <- list_elem_of_In. tauto.
Qed.

Lemma has_shape_inv (n : nat) (s : list nat) (t : tensor) :
  has_shape (n :: s) t = true ->
  exists l, t = Seq s l /\ length l = n /\ Forall (fun x => has_shape s x = true) l.
Proof.
  destruct t as [x|inner l]; [done|].
  intros (Hl & -> & Hall)%has_shape_Seq. by exists l.
Qed.

Lemma has_shape_shape (s : list nat) (t : tensor) :
  has_shape s t = true -> shape t = s.
Proof.
  destruct s as [|n s].
  - by destruct t.
  - intros (l & -> & <- & _)%has_shape_inv. done.
Qed.

Lemma has_shape_full (s : list nat) : has_shape s (full zero s) = true.
Proof.
  induction s as [|n s IH]; [done|].
  apply has_shape_Seq. rewrite length_replicate.
  split; [done|]. split; [done|]. by apply Forall_replicate.
Qed.

Lemma tget_full (s idx : list nat) :
  Forall2 lt idx s -> tget idx (full zero s) = Some zero.
Proof.
  intros H. induction H as [|i n idx s Hlt _ IH]; [done|].
  simpl. by rewrite lookup_replicate_2.
Qed.

Lemma pad_shape2_app (right bottom r c : nat) (pre : list nat) :
  pad_shape2 right bottom (pre ++ [r; c]) = pre ++ [r + bottom; c + right].
Proof.
  unfold pad_shape2. rewrite reverse_app. simpl.
  change (reverse [r; c]) with [c; r]. simpl. by rewrite reverse_involutive.
Qed.

Lemma pad_last2_Seq (right bottom : nat) (inner : list nat) (l : list tensor) :
  2 <= length inner ->
  pad_last2 zero right bottom (Seq inner l)
  = Seq (pad_shape2 right bottom inner) (map (pad_last2 zero right bottom) l).
Proof. destruct inner as [|a [|b inner]]; simpl; [lia|lia|done]. Qed.

Lemma pad_last_has_shape (right c : nat) (row : tensor) :
  has_shape [c] row = true -> has_shape [c + right] (pad_last zero right row) = true.
Proof.
  intros (l & -> & <- & Hall)%has_shape_inv. simpl pad_last.
  apply has_shape_Seq. rewrite length_app, length_replicate.
  split; [done|]. split; [done|].
  apply Forall_app. split; [done|]. by apply Forall_replicate.
Qed.

Lemma pad_last_tget (right c q : nat) (row : tensor) :
  has_shape [c] row = true -> q < c + right ->
  tget [q] (pad_last zero right row)
  = if (q <? c)%nat then tget [q] row else Some zero.
Proof.
  intros (l & -> & <- & Hall)%has_shape_inv Hq. simpl.
  destruct (Nat.ltb_spec q (length l)).
  - by rewrite lookup_app_l.
  - rewrite lookup_app_r by done. rewrite lookup_replicate_2 by lia. done.
Qed.

Lemma pad_last2_has_shape (right bottom r c : nat) (pre : list nat) (t : tensor) :
  has_shape (pre ++ [r; c]) t = true ->
  has_shape (pre ++ [r + bottom; c + right]) (pad_last2 zero right bottom t) = true.
Proof.
  revert t. induction pre as [|n pre IH]; intros t.
  - intros (rows & -> & <- & Hall)%has_shape_inv. simpl.
    apply has_shape_Seq. rewrite length_app, length_map, length_replicate.
    split; [done|]. split; [done|].
    apply Forall_app. split.
    + apply Forall_map. eapply Forall_impl; [exact Hall|].
      intros row. apply pad_last_has_shape.
    + apply Forall_replicate. apply (has_shape_full [c + right]).
  - intros (l & -> & <- & Hall)%has_shape_inv.
    rewrite pad_last2_Seq by (rewrite length_app; simpl; lia).
    rewrite pad_shape2_app. apply has_shape_Seq. rewrite length_map.
    split; [done|]. split; [done|].
    apply Forall_map. eapply Forall_impl; [exact Hall|]. exact IH.
Qed.

Lemma pad_last2_tget (right bottom r c p q : nat) (pre idx : list nat) (t : tensor) :
  has_shape (pre ++ [r; c]) t = true ->
  Forall2 lt idx pre -> p < r + bottom -> q < c + right ->
  tget (idx ++ [p; q]) (pad_last2 zero right bottom t)
  = if ((p <? r) && (q <? c))%nat then tget (idx ++ [p; q]) t else Some zero.
Proof.
  intros Ht Hidx Hp Hq. revert t Ht.
  induction Hidx as [|i n idx pre Hi _ IH]; intros t.
  - intros (rows & -> & <- & Hall)%has_shape_inv.
    cbn [app pad_last2 tget].
    destruct (Nat.ltb_spec p (length rows)) as [Hlt|Hge]; cbn [andb].
    + rewrite lookup_app_l by (by rewrite length_map).
      change (map ?f ?l) with (f <$> l). rewrite list_lookup_fmap.
      destruct (lookup_lt_is_Some_2 rows p Hlt) as [row Hrow].
      rewrite Hrow. cbn [fmap option_fmap option_map mbind option_bind].
      apply pad_last_tget; [|done].
      rewrite Forall_forall in Hall. apply Hall. by eapply list_elem_of_lookup_2.
    + rewrite lookup_app_r by (by rewrite length_map).
      rewrite lookup_replicate_2 by (rewrite length_map; lia).
      cbn [mbind option_bind].
      apply (tget_full [c + right] [q]). by repeat constructor.
  - intros (l & -> & <- & Hall)%has_shape_inv.
    rewrite pad_last2_Seq by (rewrite length_app; simpl; lia).
    cbn [app tget]. change (map ?f ?l) with (f <$> l). rewrite list_lookup_fmap.
    destruct (lookup_lt_is_Some_2 l i Hi) as [t' Ht'].
    rewrite Ht'. cbn [fmap option_fmap option_map mbind option_bind].
    apply IH. rewrite Forall_forall in Hall. apply Hall.
    by eapply list_elem_of_lookup_2.
Qed.

End ShapeFacts.

Section CatFacts.
Import Torch.
Context {A : Type} (zero : A).

#[local] Abbreviation tensor := (tensor A).

Lemma tget_cons (i : nat) (idx : list nat) (t : tensor) :
  tget (i :: idx) t = items t !! i ≫= tget idx.
Proof. by destruct t. Qed.

Lemma length_flat_map_sum {T U} (f : T -> list U) (ts : list T) :
  length (flat_map f ts) = sum_list (map (fun t => length (f t)) ts).
Proof.
  induction ts as [|t ts IH]; [done|]. simpl. by rewrite length_app, IH.
Qed.

Lemma flat_map_lookup_offset {T U} (f : T -> list U) (ts : list T)
    (i j : nat) (t : T) :
  ts !! i = Some t -> j < length (f t) ->
  flat_map f ts !! (sum_list (map (fun t => length (f t)) (take i ts)) + j) = f t !! j.
Proof.
  revert i. induction ts as [|t0 ts IH]; intros i; [done|].
  destruct i as [|i]; simpl.
  - intros [= ->] Hj. by rewrite lookup_app_l.
  - intros Hi Hj. rewrite lookup_app_r by lia.
    rewrite <- (IH i Hi Hj). f_equal. lia.
Qed.

Lemma cat1_compatible_Ok (k : nat) (rest : list nat) (ts : list tensor)
    (bs : list nat) :
  ts <> [] -> cat1_compatible k rest ts bs ->
  cat1 zero ts
  = Ok (Seq (sum_list bs :: rest) (map (cat1_slice zero rest ts) (seq 0 k))).
Proof.
  intros Hne Hc. unfold cat1.
  destruct ts as [|t0 ts']; [done|].
  remember (t0 :: ts') as ts eqn:Hts.
  assert (exists b0, shape t0 = k :: b0 :: rest) as [b0 ->].
  { subst ts. inversion Hc as [|? b0 ? ? H0 _]; subst.
    exists b0. by apply has_shape_shape. }
  assert (mapM (shape_at 1) ts = Ok bs) as ->.
  { apply mapM_Ok. eapply Forall2_impl; [exact Hc|].
    intros t b Ht. unfold shape_at. by rewrite (has_shape_shape _ _ Ht). }
  rewrite bind_Ok_l.
  rewrite (proj2 (forallb_forall _ _)); [done|].
  intros t Ht%list_elem_of_In. apply bool_decide_eq_true.
  apply list_elem_of_lookup in Ht as [i Hi].
  destruct (Forall2_lookup_l _ _ _ _ _ Hc Hi) as (b & _ & Hb).
  by rewrite (has_shape_shape _ _ Hb).
Qed.

Lemma slice_of_compatible (k b a : nat) (rest : list nat) (t : tensor) :
  has_shape (k :: b :: rest) t = true -> a < k ->
  let sl := items (default (Scalar zero) (items t !! a)) in
  items t !! a = Some (Seq rest sl)
  /\ length sl = b
  /\ Forall (fun x => has_shape rest x = true) sl.
Proof.
  intros (l & -> & <- & Hall)%has_shape_inv Ha. simpl.
  destruct (lookup_lt_is_Some_2 l a Ha) as [s Hs]. rewrite Hs. simpl.
  rewrite Forall_forall in Hall.
  destruct (has_shape_inv _ _ _ (Hall s (list_elem_of_lookup_2 _ _ _ Hs)))
    as (l' & -> & Hlen & Hall').
  done.
Qed.

Lemma cat1_widths (k a : nat) (rest : list nat) (ts : list tensor) (bs : list nat) :
  cat1_compatible k rest ts bs -> a < k ->
  map (fun t => length (items (default (Scalar zero) (items t !! a)))) ts = bs.
Proof.
  intros Hc Ha. induction Hc as [|t b ts bs Ht _ IH]; [done|]. simpl.
  destruct (slice_of_compatible _ _ _ _ _ Ht Ha) as (_ & -> & _). by rewrite IH.
Qed.

Lemma cat1_has_shape (k : nat) (rest : list nat) (ts : list tensor) (bs : list nat) :
  cat1_compatible k rest ts bs ->
  has_shape (k :: sum_list bs :: rest)
    (Seq (sum_list bs :: rest) (map (cat1_slice zero rest ts) (seq 0 k))) = true.
Proof.
  intros Hc. apply has_shape_Seq. rewrite length_map, length_seq.
  split; [done|]. split; [done|].
  apply Forall_map, Forall_forall. intros a [_ Ha]%elem_of_seq. simpl in Ha.
  unfold cat1_slice. apply has_shape_Seq.
  rewrite length_flat_map_sum, (cat1_widths k a rest ts bs) by done.
  split; [done|]. split; [done|].
  apply Forall_forall. intros x Hx%list_elem_of_In.
  apply in_flat_map in Hx as (t & Ht%list_elem_of_In & Hx%list_elem_of_In).
  apply list_elem_of_lookup in Ht as [i Hi].
  destruct (Forall2_lookup_l _ _ _ _ _ Hc Hi) as (b & _ & Hb).
  destruct (slice_of_compatible _ _ _ _ _ Hb Ha) as (_ & _ & Hall).
  rewrite Forall_forall in Hall. by apply Hall.
Qed.

Lemma cat1_tget (k a i j b : nat) (rest idx : list nat) (ts : list tensor)
    (bs : list nat) (t : tensor) :
  cat1_compatible k rest ts bs ->
  ts !! i = Some t -> bs !! i = Some b -> a < k -> j < b ->
  tget (a :: sum_list (take i bs) + j :: idx)
    (Seq (sum_list bs :: rest) (map (cat1_slice zero rest ts) (seq 0 k)))
  = tget (a :: j :: idx) t.
Proof.
  intros Hc Hi Hb Ha Hj.
  assert (has_shape (k :: b :: rest) t = true) as Ht
    by exact (Forall2_lookup_lr _ _ _ _ _ _ Hc Hi Hb).
  destruct (slice_of_compatible _ _ _ _ _ Ht Ha) as (Hsl & Hlen & _).
  rewrite (tget_cons a). simpl items.
  change (map ?f ?l) with (f <$> l). rewrite list_lookup_fmap.
  rewrite lookup_seq_lt by done. simpl fmap. simpl mbind. cbv beta.
  rewrite <- (cat1_widths k a rest ts bs) by done.
  change (map ?f ?l) with (f <$> l). rewrite <- fmap_take.
  rewrite (flat_map_lookup_offset _ ts i j t) by (done || lia).
  rewrite (tget_cons a (j :: idx) t), Hsl. simpl mbind. cbv beta.
  reflexivity.
Qed.

End CatFacts.

(** ** Token-level labels *)

Section TokenLabelFacts.
Import Torch Padding.
Context {A : Type} (zero : A).

#[local] Abbreviation tensor := (tensor A).
#[local] Abbreviation value := (value A).

Lemma labels_like_shape (k : nat) (t : tensor) :
  labels_like k t -> shape t = [k; size 1 t; size 2 t; size 3 t].
Proof.
  intros (b & s & c & Ht). unfold size. by rewrite (has_shape_shape _ _ Ht).
Qed.

Lemma labels_like_has_shape (k : nat) (t : tensor) :
  labels_like k t -> has_shape [k; size 1 t; size 2 t; size 3 t] t = true.
Proof.
  intros (b & s & c & Ht). unfold size. by rewrite (has_shape_shape _ _ Ht).
Qed.

Lemma size_le_max (i : nat) (ts : list tensor) (t : tensor) :
  t ∈ ts -> size i t <= max_list (size i <$> ts).
Proof. intros Ht. apply max_list_elem_of_le, list_elem_of_fmap. by exists t. Qed.

Lemma pad_token_labels_Ok (k : nat) (ts : list tensor) :
  ts <> [] -> Forall (labels_like k) ts ->
  let max_s := max_list (size 2 <$> ts) in
  let max_c := max_list (size 3 <$> ts) in
  let padded :=
    map (fun t => pad_last2 zero (max_c - size 3 t) (max_s - size 2 t) t) ts in
  cat1_compatible k [max_s; max_c] padded (size 1 <$> ts)
  /\ pad_token_labels zero ts
     = Ok (Seq [sum_list (size 1 <$> ts); max_s; max_c]
             (map (cat1_slice zero [max_s; max_c] padded) (seq 0 k))).
Proof.
  intros Hne Hts max_s max_c padded.
  assert (cat1_compatible k [max_s; max_c] padded (size 1 <$> ts)) as Hc.
  { unfold cat1_compatible, padded. change (map ?f ?l) with (f <$> l).
    apply Forall2_fmap, Forall_Forall2_diag.
    rewrite Forall_forall in Hts. apply Forall_forall. intros t Ht.
    pose proof (labels_like_has_shape k t (Hts t Ht)) as Hs.
    pose proof (size_le_max 2 ts t Ht). pose proof (size_le_max 3 ts t Ht).
    apply (pad_last2_has_shape zero (max_c - size 3 t) (max_s - size 2 t)
             (size 2 t) (size 3 t) [k; size 1 t]) in Hs.
    simpl in Hs. fold max_s max_c in H, H0.
    by replace (size 2 t + (max_s - size 2 t)) with max_s in Hs by lia;
       replace (size 3 t + (max_c - size 3 t)) with max_c in Hs by lia. }
  split; [done|].
  unfold pad_token_labels. destruct ts as [|t0 ts']; [done|].
  remember (t0 :: ts') as ts eqn:Heq.
  rewrite (mapM_Ok_map (shape_at 2) (size 2)), bind_Ok_l.
  2:{ eapply Forall_impl; [exact Hts|]. intros t Ht%labels_like_shape.
      unfold shape_at. by rewrite Ht. }
  rewrite (mapM_Ok_map (shape_at 3) (size 3)), bind_Ok_l.
  2:{ eapply Forall_impl; [exact Hts|]. intros t Ht%labels_like_shape.
      unfold shape_at. by rewrite Ht. }
  rewrite (mapM_Ok_map _
             (fun t => pad_last2 zero (max_c - size 3 t) (max_s - size 2 t) t)),
    bind_Ok_l.
  2:{ eapply Forall_impl; [exact Hts|]. intros t Ht%labels_like_shape.
      unfold shape_at, F_pad, dim. rewrite Ht. done. }
  apply (cat1_compatible_Ok zero k [max_s; max_c] padded (size 1 <$> ts)); [|done].
  unfold padded. by subst ts.
Qed.

End TokenLabelFacts.

Section TokenLabelProperties.
Import Torch Padding.
Context {A : Type} (zero : A).

#[local] Abbreviation tensor := (tensor A).
#[local] Abbreviation value := (value A).

Lemma squeeze0_labels_like (k : nat) (t : tensor) :
  labels_like k t -> k <> 1 -> squeeze0 t = t.
Proof.
  intros (b & s & c & (l & -> & Hl & _)%has_shape_inv) Hk.
  destruct l as [|x [|y l]]; simpl in *; done || lia.
Qed.

Lemma pad_key_data_labels (self : DataCollatorWithPadding) (cfg : GLiNERConfig)
    (k : nat) (ts : list tensor) :
  config self = Some cfg -> span_mode cfg = "token_level" ->
  ts <> [] -> Forall (labels_like k) ts ->
  pad_key_data zero self "labels" (VTensor <$> ts)
  = VTensor <$> pad_token_labels zero ts.
Proof.
  intros Hcfg Hmode Hne Hts. unfold pad_key_data.
  destruct ts as [|t0 ts']; [done|].
  remember (t0 :: ts') as ts eqn:Heq.
  assert (getitem_nat (VTensor <$> ts) 0 = Ok (VTensor t0)) as -> by (by subst ts).
  rewrite bind_Ok_l.
  assert (dim t0 = 4) as Hd.
  { subst ts. inversion Hts as [|? ? H0 _]. unfold dim.
    by rewrite (labels_like_shape _ _ H0). }
  destruct (decide (dim t0 = 1)) as [?|_]; [lia|].
  destruct (decide (dim t0 = 2)) as [?|_]; [lia|].
  unfold config_span_mode. rewrite Hcfg, Hmode. simpl.
  by rewrite expect_tensor_all.
Qed.

(** C5, as the code has it.  Under token-level mode, when the values stored
    under ["labels"] are rank-4 tensors of shape [[k, batch_sub, seq_len,
    num_classes]] with one common [k] other than 1, the engine returns one
    tensor of shape [[k, sum of batch_sub, max seq_len, max num_classes]]:
    along axis 1 the examples follow one another, each keeping its entries
    at its own positions, and every position beyond an example's own
    [seq_len] or [num_classes] holds the fill value. *)
Theorem token_labels_padded_and_concatenated (self : DataCollatorWithPadding)
    (cfg : GLiNERConfig) (batch : list (dict value)) (ts : list tensor) (k : nat) :
  config self = Some cfg -> span_mode cfg = "token_level" ->
  batch <> [] ->
  Forall2 (fun item t => dict_find item "labels" = Some (VTensor t)) batch ts ->
  Forall (labels_like k) ts ->
  k <> 1 ->
  let max_s := max_list (size 2 <$> ts) in
  let max_c := max_list (size 3 <$> ts) in
  let bs := size 1 <$> ts in
  exists out,
    pad_key zero self batch "labels" = Ok (VTensor out)
    /\ (forall o, call zero self batch = Ok o -> o !! "labels" = Some (VTensor out))
    /\ has_shape [k; sum_list bs; max_s; max_c] out = true
    /\ forall i t, ts !! i = Some t ->
         forall a j p q, a < k -> j < size 1 t -> p < max_s -> q < max_c ->
           tget [a; sum_list (take i bs) + j; p; q] out
           = if ((p <? size 2 t) && (q <? size 3 t))%nat
             then tget [a; j; p; q] t else Some zero.
Proof.
  intros Hcfg Hmode Hne Hbatch Hts Hk max_s max_c bs.
  assert (ts <> []) as Htne.
  { intros ->. apply Forall2_nil_inv_r in Hbatch. done. }
  destruct (pad_token_labels_Ok zero k ts Htne Hts) as [Hc Hpad].
  fold max_s max_c bs in Hc, Hpad.
  set (padded := map (fun t => pad_last2 zero (max_c - size 3 t) (max_s - size 2 t) t) ts)
    in Hc, Hpad.
  set (out := Seq [sum_list bs; max_s; max_c]
                (map (cat1_slice zero [max_s; max_c] padded) (seq 0 k))) in Hpad.
  exists out.
  assert (pad_key zero self batch "labels" = Ok (VTensor out)) as Hkey.
  { rewrite (pad_key_tensors zero self "labels" batch ts).
    - rewrite (pad_key_data_labels self cfg k) by done. by rewrite Hpad.
    - apply Forall2_same_length_lookup. split; [by eapply Forall2_length|].
      intros i item t Hitem Ht. exists t. split.
      + exact (Forall2_lookup_lr _ _ _ _ _ _ Hbatch Hitem Ht).
      + rewrite Forall_forall in Hts.
        apply (squeeze0_labels_like k); [|done].
        by eapply Hts, list_elem_of_lookup_2. }
  split; [done|]. split; [|split].
  - intros o Ho. destruct batch as [|first rest]; [done|].
    inversion Hbatch as [|? t0 ? ? Hfind _]; subst.
    by eapply (call_lookup zero self (first :: rest)).
  - by apply (cat1_has_shape zero k [max_s; max_c] padded bs).
  - intros i t Hi a j p q Ha Hj Hp Hq.
    assert (labels_like k t) as Ht.
    { rewrite Forall_forall in Hts. by eapply Hts, list_elem_of_lookup_2. }
    assert (t ∈ ts) as Hin by (by eapply list_elem_of_lookup_2).
    pose proof (size_le_max 2 ts t Hin) as Hs2.
    pose proof (size_le_max 3 ts t Hin) as Hs3.
    fold max_s in Hs2. fold max_c in Hs3.
    unfold out.
    rewrite (cat1_tget zero k a i j (size 1 t) [max_s; max_c] [p; q] padded bs
               (pad_last2 zero (max_c - size 3 t) (max_s - size 2 t) t)); try done.
    + apply (pad_last2_tget zero (max_c - size 3 t) (max_s - size 2 t)
               (size 2 t) (size 3 t) p q [k; size 1 t] [a; j] t).
      * by apply labels_like_has_shape.
      * by repeat constructor.
      * lia.
      * lia.
    + unfold padded. change (map ?f ?l) with (f <$> l).
      by rewrite list_lookup_fmap, Hi.
    + unfold bs. by rewrite list_lookup_fmap, Hi.
Qed.

End TokenLabelProperties.

Section TokenLabelExamples.
Import Torch Padding Scenario.

(** C5 as stated fails: a label tensor of shape [[1, 1, 1, 2]] is squeezed to
    rank 3 before the dispatch, and [pad_token_labels] then asks for a
    fourth axis. *)
Lemma leading_one_token_labels_rejected :
  let labels := tensor_4d 1 1 2 [[[[1; 0]]]]%Z in
  let batch := [ [("labels", VTensor labels)] ] in
  shape labels = [1; 1; 1; 2]
  /\ labels_like 1 labels
  /\ pad_key 0%Z token_level_collator batch "labels" = Raise IndexError
  /\ call 0%Z token_level_collator batch = Raise IndexError.
Proof. repeat split; try done. by exists 1, 1, 2. Qed.

Lemma token_labels_padded_and_concatenated_witness :
  let t1 := tensor_4d 1 1 2 [[[[5; 6]]]; [[[7; 8]]]]%Z in
  let t2 := tensor_4d 2 2 1 [[[[1]; [2]]; [[3]; [4]]]; [[[9]; [9]]; [[9]; [9]]]]%Z in
  let batch := [ [("labels", VTensor t1)]; [("labels", VTensor t2)] ] in
  Padding.config token_level_collator = Some {| span_mode := "token_level" |}
  /\ batch <> []
  /\ Forall2 (fun item t => dict_find item "labels" = Some (VTensor t)) batch [t1; t2]
  /\ Forall (labels_like 2) [t1; t2]
  /\ 2 <> 1
  /\ exists out,
       pad_key 0%Z token_level_collator batch "labels" = Ok (VTensor out)
       /\ (forall o, call 0%Z token_level_collator batch = Ok o ->
             o !! "labels" = Some (VTensor out))
       /\ has_shape [2; 3; 2; 2] out = true
       /\ forall i t, [t1; t2] !! i = Some t ->
            forall a j p q, a < 2 -> j < size 1 t -> p < 2 -> q < 2 ->
              tget [a; sum_list (take i [1; 2]) + j; p; q] out
              = if ((p <? size 2 t) && (q <? size 3 t))%nat
                then tget [a; j; p; q] t else Some 0%Z.
Proof.
  intros t1 t2 batch.
  assert (Padding.config token_level_collator = Some {| span_mode := "token_level" |})
    as H1 by done.
  assert (batch <> []) as H2 by done.
  assert (Forall2 (fun item t => dict_find item "labels" = Some (VTensor t))
            batch [t1; t2]) as H3 by (by repeat constructor).
  assert (Forall (labels_like 2) [t1; t2]) as H4.
  { repeat constructor; [by exists 1, 1, 2 | by exists 2, 2, 1]. }
  assert (2 <> 1) as H5 by done.
  split; [exact H1|]. split; [exact H2|]. split; [exact H3|].
  split; [exact H4|]. split; [exact H5|].
  exact (token_labels_padded_and_concatenated 0%Z token_level_collator
           {| span_mode := "token_level" |} batch [t1; t2] 2
           H1 eq_refl H2 H3 H4 H5).
Defined.

End TokenLabelExamples.

(** ** The dispatcher's merge *)

Section MergeFacts.
Import Batch.

Lemma merge_batch_keys_Ok (model_input raw_batch : gmap string obj) (lengths : obj) :
  raw_batch !! "seq_length" = Some lengths ->
  merge_batch_keys model_input raw_batch
  = Ok (<["text_lengths" := lengths]>
          (<["span_mask" := get_or_None raw_batch "span_mask"]>
             (<["span_idx" := get_or_None raw_batch "span_idx"]> model_input))).
Proof. intros H. unfold merge_batch_keys, getitem_key. by rewrite H. Qed.

Lemma merge_batch_keys_KeyError (model_input raw_batch : gmap string obj) :
  raw_batch !! "seq_length" = None ->
  merge_batch_keys model_input raw_batch = Raise (KeyError "seq_length").
Proof. intros H. unfold merge_batch_keys, getitem_key. by rewrite H. Qed.

(** C3, as the code has it.  Whenever the strategy returns a raw batch with
    its [seq_length] and a collated output, the dispatcher returns that
    output with three keys set from the raw batch: [span_idx] and
    [span_mask] to the raw batch's entry or to [None] when the raw batch has
    none, [text_lengths] to the raw batch's [seq_length].  The three keys
    are assigned whether or not the collated output already had them; every
    other key keeps the collated value. *)
Theorem dispatcher_sets_batch_keys (self : DataCollator)
    (input_x : list RawExample) (raw_batch model_input : gmap string obj)
    (lengths : obj) :
  collate_raw_batch (dc_data_processor self) input_x None = Ok raw_batch ->
  collate_fn (dc_data_processor self) raw_batch false = Ok model_input ->
  raw_batch !! "seq_length" = Some lengths ->
  exists out,
    DataCollator_call self input_x = Ok out
    /\ out !! "span_idx" = Some (default ONone (raw_batch !! "span_idx"))
    /\ out !! "span_mask" = Some (default ONone (raw_batch !! "span_mask"))
    /\ out !! "text_lengths" = Some lengths
    /\ forall k, k <> "span_idx" -> k <> "span_mask" -> k <> "text_lengths" ->
         out !! k = model_input !! k.
Proof.
  intros Hraw Hfn Hlen. eexists. split.
  - unfold DataCollator_call. rewrite Hraw, bind_Ok_l, Hfn, bind_Ok_l.
    by apply merge_batch_keys_Ok.
  - split; [|split; [|split]].
    + rewrite lookup_insert_ne, lookup_insert_ne, lookup_insert_eq by done.
      unfold get_or_None. by destruct (raw_batch !! "span_idx").
    + rewrite lookup_insert_ne, lookup_insert_eq by done.
      unfold get_or_None. by destruct (raw_batch !! "span_mask").
    + by rewrite lookup_insert_eq.
    + intros k H1 H2 H3. by rewrite !lookup_insert_ne.
Qed.

End MergeFacts.

(** ** Entity reconstruction *)

Section ReconstructionFacts.
Import Batch Model.
Context {Score : Type}.

#[local] Abbreviation SpanHypothesis := (@SpanHypothesis Score).
#[local] Abbreviation Entity := (@Entity Score).

(** Between offsets that lie in the text in increasing order, the slice is
    the substring that starts at the first and stops before the second. *)
Lemma slice_substring (text : string) (a b : Z) :
  (0 <= a <= b)%Z -> (b <= Z.of_nat (String.length text))%Z ->
  slice text a b = substring (Z.to_nat a) (Z.to_nat (b - a)) text.
Proof.
  intros Hab Hb. unfold slice, slice_bound.
  destruct (Z.ltb_spec a 0); [lia|]. destruct (Z.ltb_spec b 0); [lia|].
  rewrite !Z.min_l by lia. f_equal. lia.
Qed.

Lemma mapM_total {T U} (f : T -> result U) (l : list T) :
  Forall (fun x => is_Ok (f x)) l -> is_Ok (mapM f l).
Proof.
  induction 1 as [|x l [y Hy] _ [k Hk]]; [by eexists|].
  exists (y :: k). simpl. by rewrite Hy, bind_Ok_l, Hk.
Qed.

(** What an emitted entity is made of. *)
Lemma reconstruct_entity_Ok (texts : list string) (i : nat) (starts ends : list Z)
    (h : SpanHypothesis) (entity : Entity) :
  reconstruct_entity texts i starts ends h = Ok entity <->
  exists start_char end_char text,
    getitem starts (start_token_idx h) = Ok start_char
    /\ getitem ends (end_token_idx h) = Ok end_char
    /\ texts !! i = Some text
    /\ entity = {| e_start := start_char; e_end := end_char;
                   e_text := slice text start_char end_char;
                   e_label := ent_type h; e_score := ent_score h |}.
Proof.
  unfold reconstruct_entity. split.
  - intros (sc & Hs & (ec & He & Hrest)%bind_Ok)%bind_Ok.
    rewrite Hs, He, !bind_Ok_l in Hrest.
    apply bind_Ok in Hrest as (text & Ht%getitem_nat_Ok & [= <-]).
    by exists sc, ec, text.
  - intros (sc & ec & text & Hs & He & Ht%getitem_nat_Ok & ->).
    by rewrite Hs, He, !bind_Ok_l, Ht.
Qed.

Lemma reconstruct_entity_cases (texts : list string) (i : nat) (starts ends : list Z)
    (h : SpanHypothesis) :
  is_Ok (reconstruct_entity texts i starts ends h)
  \/ reconstruct_entity texts i starts ends h = Raise IndexError.
Proof.
  unfold reconstruct_entity.
  destruct (getitem_cases starts (start_token_idx h)) as [[sc ->]| ->]; [|by right].
  destruct (getitem_cases ends (end_token_idx h)) as [[ec ->]| ->]; [|by right].
  rewrite !bind_Ok_l. unfold getitem_nat.
  destruct (texts !! i); [left; by eexists | by right].
Qed.

Lemma offsets_at_Ok (raw_batch : gmap string obj) (key : string)
    (all : list (list Z)) (i : nat) (offsets : list Z) :
  raw_batch !! key = Some (OOffsets all) ->
  offsets_at raw_batch key i = Ok offsets <-> all !! i = Some offsets.
Proof.
  intros H. unfold offsets_at, getitem_key. rewrite H, bind_Ok_l.
  apply getitem_nat_Ok.
Qed.

Lemma offsets_at_cases (raw_batch : gmap string obj) (key : string)
    (all : list (list Z)) (i : nat) :
  raw_batch !! key = Some (OOffsets all) ->
  is_Ok (offsets_at raw_batch key i) \/ offsets_at raw_batch key i = Raise IndexError.
Proof.
  intros H. unfold offsets_at, getitem_key, getitem_nat. rewrite H, bind_Ok_l.
  destruct (all !! i); [left; by eexists | by right].
Qed.

(** The reconstruction loop returns exactly when every text has its two
    offset arrays and every hypothesis resolves; then the entities stand
    at the positions of their hypotheses. *)
Lemma reconstruct_entities_Ok (texts : list string) (raw_batch : gmap string obj)
    (all_start all_end : list (list Z)) (outputs : list (list SpanHypothesis))
    (all_entities : list (list Entity)) :
  raw_batch !! start_key = Some (OOffsets all_start) ->
  raw_batch !! end_key = Some (OOffsets all_end) ->
  reconstruct_entities texts raw_batch outputs = Ok all_entities <->
  length all_entities = length outputs
  /\ forall i output, outputs !! i = Some output ->
       exists starts ends entities,
         all_start !! i = Some starts /\ all_end !! i = Some ends
         /\ all_entities !! i = Some entities
         /\ Forall2 (fun h entity =>
                       reconstruct_entity texts i starts ends h = Ok entity)
              output entities.
Proof.
  intros Hs He. unfold reconstruct_entities. rewrite mapM_Ok.
  rewrite Forall2_same_length_lookup, length_imap. split.
  - intros [Hlen Hall]. split; [done|]. intros i output Hi.
    destruct (lookup_lt_is_Some_2 all_entities i) as [entities Hent].
    { rewrite <- Hlen. by eapply lookup_lt_Some. }
    specialize (Hall i (i, output) entities).
    rewrite list_lookup_imap, Hi in Hall. specialize (Hall eq_refl Hent).
    simpl in Hall.
    apply bind_Ok in Hall as (starts & Hst & (ends & Hen & Hmap)%bind_Ok).
    exists starts, ends, entities.
    rewrite (offsets_at_Ok _ _ _ _ _ Hs) in Hst.
    rewrite (offsets_at_Ok _ _ _ _ _ He) in Hen.
    by rewrite <- mapM_Ok.
  - intros [Hlen Hall]. split; [done|]. intros i [i' output] entities Hio Hent.
    rewrite list_lookup_imap in Hio.
    destruct (outputs !! i) as [output'|] eqn:Hi; [|done].
    injection Hio as <- <-.
    destruct (Hall i output' Hi) as (starts & ends & entities' & Hst & Hen & Hent' & Hmap).
    assert (entities' = entities) as -> by congruence.
    simpl.
    rewrite (proj2 (offsets_at_Ok _ _ _ _ _ Hs) Hst), bind_Ok_l.
    rewrite (proj2 (offsets_at_Ok _ _ _ _ _ He) Hen), bind_Ok_l.
    by apply mapM_Ok.
Qed.

(** The only way the loop fails is an [IndexError]. *)
Lemma reconstruct_entities_cases (texts : list string) (raw_batch : gmap string obj)
    (all_start all_end : list (list Z)) (outputs : list (list SpanHypothesis)) :
  raw_batch !! start_key = Some (OOffsets all_start) ->
  raw_batch !! end_key = Some (OOffsets all_end) ->
  is_Ok (reconstruct_entities texts raw_batch outputs)
  \/ reconstruct_entities texts raw_batch outputs = Raise IndexError.
Proof.
  intros Hs He.
  destruct (reconstruct_entities texts raw_batch outputs) as [v|e] eqn:Hr;
    [left; by eexists|right].
  apply mapM_Raise, Exists_exists in Hr as ([i output] & _ & Hr). simpl in Hr.
  destruct (offsets_at_cases raw_batch start_key all_start i Hs) as [[starts Hst]|Hst];
    rewrite Hst in Hr; [|simpl in Hr; congruence].
  destruct (offsets_at_cases raw_batch end_key all_end i He) as [[ends Hen]|Hen];
    rewrite Hen in Hr; [|simpl in Hr; congruence].
  rewrite !bind_Ok_l in Hr.
  apply mapM_Raise, Exists_exists in Hr as (h & _ & Hr).
  destruct (reconstruct_entity_cases texts i starts ends h) as [[v Hv]|Hv]; congruence.
Qed.

End ReconstructionFacts.

Section PipelineFacts.
Import Batch Model.
Context {Score : Type}.
Context (decode_output :
           model_t -> gmap string obj -> gmap string obj -> @DecodeOptions Score ->
           result (list (list (@SpanHypothesis Score)))).

#[local] Abbreviation SpanHypothesis := (@SpanHypothesis Score).
#[local] Abbreviation Entity := (@Entity Score).

(** The raw batch [prepare_model_inputs] returns holds, per text, the start
    and the end offsets of the tokens the words splitter produced. *)
Lemma prepare_model_inputs_offsets (self : GLiNER) (texts labels : list string)
    (model_input raw_batch : gmap string obj) :
  prepare_model_inputs self texts labels = Ok (model_input, raw_batch) ->
  let split := map (words_splitter (data_processor self)) texts in
  raw_batch !! start_key = Some (OOffsets (map (map (fun tse => tse.1.2)) split))
  /\ raw_batch !! end_key = Some (OOffsets (map (map (fun tse => tse.2)) split)).
Proof.
  unfold prepare_model_inputs.
  intros (raw0 & _ & (mi0 & _ & (mi1 & _ & (mi2 & _ & [= _ <-])%bind_Ok)%bind_Ok)%bind_Ok)%bind_Ok.
  split.
  - by rewrite lookup_insert_ne, lookup_insert_eq.
  - by rewrite lookup_insert_eq.
Qed.

Lemma batch_predict_entities_unfold (self : GLiNER) (texts labels : list string)
    (opts : DecodeOptions) (model_input raw_batch : gmap string obj)
    (outputs : list (list SpanHypothesis)) :
  prepare_model_inputs self texts labels = Ok (model_input, raw_batch) ->
  decode_output (model self) model_input raw_batch opts = Ok outputs ->
  batch_predict_entities decode_output self texts labels opts
  = reconstruct_entities texts raw_batch outputs.
Proof.
  intros Hp Hd. unfold batch_predict_entities.
  by rewrite Hp, bind_Ok_l, Hd, bind_Ok_l.
Qed.

Lemma split_offsets_lookup {T} (f : string * Z * Z -> T) (splitter : WordsSplitter)
    (texts : list string) (i : nat) (text : string) :
  texts !! i = Some text ->
  map (map f) (map splitter texts) !! i = Some (map f (splitter text)).
Proof.
  intros H. change (map ?g ?l) with (g <$> l).
  by rewrite !list_lookup_fmap, H.
Qed.

End PipelineFacts.

Section ReconstructionProperties.
Import Batch Model.
Context {Score : Type}.
Context (decode_output :
           model_t -> gmap string obj -> gmap string obj -> @DecodeOptions Score ->
           result (list (list (@SpanHypothesis Score)))).

#[local] Abbreviation SpanHypothesis := (@SpanHypothesis Score).
#[local] Abbreviation Entity := (@Entity Score).

(** The loop returns when the decoder gives at most one hypothesis list per
    text and every index is inside the token sequence of its text. *)
Lemma batch_predict_entities_total (self : GLiNER)
    (texts labels : list string) (opts : DecodeOptions)
    (model_input raw_batch : gmap string obj)
    (outputs : list (list SpanHypothesis)) :
  prepare_model_inputs self texts labels = Ok (model_input, raw_batch) ->
  decode_output (model self) model_input raw_batch opts = Ok outputs ->
  length outputs <= length texts ->
  (forall i text output h,
     texts !! i = Some text -> outputs !! i = Some output -> h ∈ output ->
     let n := Z.of_nat (length (words_splitter (data_processor self) text)) in
     (0 <= start_token_idx h < n)%Z /\ (0 <= end_token_idx h < n)%Z) ->
  is_Ok (batch_predict_entities decode_output self texts labels opts).
Proof.
  intros Hprep Hdec Hlen Hbounds.
  destruct (prepare_model_inputs_offsets self texts labels _ _ Hprep) as [Hs He].
  set (tokens_of := words_splitter (data_processor self)) in *.
  rewrite (batch_predict_entities_unfold decode_output self texts labels opts _ _ _ Hprep Hdec).
  unfold reconstruct_entities. apply mapM_total, Forall_forall.
  intros [i' output] Hin. apply list_elem_of_lookup in Hin as [i Hi].
  rewrite list_lookup_imap in Hi.
  destruct (outputs !! i) as [output'|] eqn:Hout; [|done].
  injection Hi as <- <-.
  destruct (lookup_lt_is_Some_2 texts i) as [text Htext].
  { apply lookup_lt_Some in Hout. lia. }
  rewrite (proj2 (offsets_at_Ok _ _ _ _ _ Hs)
             (split_offsets_lookup _ tokens_of texts i text Htext)), bind_Ok_l.
  rewrite (proj2 (offsets_at_Ok _ _ _ _ _ He)
             (split_offsets_lookup _ tokens_of texts i text Htext)), bind_Ok_l.
  apply mapM_total, Forall_forall. intros h Hh.
  destruct (Hbounds i text output' h Htext Hout Hh) as [Hsb Heb].
  destruct (getitem_in_bounds (map (fun tse => tse.1.2) (tokens_of text))
              (start_token_idx h)) as (sc & _ & Hsc); [by rewrite length_map|].
  destruct (getitem_in_bounds (map (fun tse => tse.2) (tokens_of text))
              (end_token_idx h)) as (ec & _ & Hec); [by rewrite length_map|].
  eexists. apply reconstruct_entity_Ok. by exists sc, ec, text.
Qed.

(** C1.  [batch_predict_entities] returns whenever the decoder gives at most
    one hypothesis list per text and every hypothesis has its two token
    indices inside the token sequence of its text.  In every call that
    returns there is one entity list per hypothesis list, and a hypothesis
    with both indices inside the token sequence has its entity at its own
    position: the start is the start offset of the token at
    [start_token_idx], the end is the end offset of the token at
    [end_token_idx], the text is the slice of the input text between these
    two offsets (the substring itself when the offsets lie in the text in
    order), and label and score are those of the hypothesis. *)
Theorem entities_carry_character_offsets (self : GLiNER)
    (texts labels : list string) (opts : DecodeOptions)
    (model_input raw_batch : gmap string obj)
    (outputs : list (list SpanHypothesis)) :
  prepare_model_inputs self texts labels = Ok (model_input, raw_batch) ->
  decode_output (model self) model_input raw_batch opts = Ok outputs ->
  (length outputs <= length texts ->
   (forall i text output h,
      texts !! i = Some text -> outputs !! i = Some output -> h ∈ output ->
      let n := Z.of_nat (length (words_splitter (data_processor self) text)) in
      (0 <= start_token_idx h < n)%Z /\ (0 <= end_token_idx h < n)%Z) ->
   is_Ok (batch_predict_entities decode_output self texts labels opts))
  /\ forall all_entities,
       batch_predict_entities decode_output self texts labels opts = Ok all_entities ->
       length all_entities = length outputs
       /\ forall i j text output h,
            texts !! i = Some text -> outputs !! i = Some output ->
            output !! j = Some h ->
            let tokens := words_splitter (data_processor self) text in
            (0 <= start_token_idx h < Z.of_nat (length tokens))%Z ->
            (0 <= end_token_idx h < Z.of_nat (length tokens))%Z ->
            exists first_token last_token entities,
              let start_char := first_token.1.2 in
              let end_char := last_token.2 in
              tokens !! Z.to_nat (start_token_idx h) = Some first_token
              /\ tokens !! Z.to_nat (end_token_idx h) = Some last_token
              /\ all_entities !! i = Some entities
              /\ length entities = length output
              /\ entities !! j
                 = Some {| e_start := start_char; e_end := end_char;
                           e_text := slice text start_char end_char;
                           e_label := ent_type h; e_score := ent_score h |}
              /\ ((0 <= start_char <= end_char)%Z ->
                  (end_char <= Z.of_nat (String.length text))%Z ->
                  slice text start_char end_char
                  = substring (Z.to_nat start_char)
                      (Z.to_nat (end_char - start_char)) text).
Proof.
  intros Hprep Hdec. split.
  { intros Hlen Hbounds. by eapply batch_predict_entities_total. }
  intros all_entities Hall.
  destruct (prepare_model_inputs_offsets self texts labels _ _ Hprep) as [Hs He].
  rewrite (batch_predict_entities_unfold decode_output self texts labels opts _ _ _ Hprep Hdec)
    in Hall.
  apply (reconstruct_entities_Ok texts raw_batch _ _ outputs all_entities Hs He)
    in Hall as [Hlen' Hall].
  split; [done|].
  intros i j text output h Htext Hout Hh tokens Hsb Heb.
  destruct (Hall i output Hout) as (starts & ends & entities & Hst & Hen & Hent & Hmap).
  rewrite (split_offsets_lookup _ _ texts i text Htext) in Hst.
  rewrite (split_offsets_lookup _ _ texts i text Htext) in Hen.
  injection Hst as <-. injection Hen as <-.
  destruct (Forall2_lookup_l _ _ _ _ _ Hmap Hh) as (entity & Hj & Hentity).
  apply reconstruct_entity_Ok in Hentity
    as (sc & ec & text' & Hsc & Hec & Htext' & ->).
  assert (text' = text) as -> by congruence.
  fold tokens in Hsc, Hec. clearbody tokens.
  destruct (getitem_in_bounds (map (fun tse => tse.1.2) tokens) (start_token_idx h))
    as (sc' & Hsl & Hsc'); [by rewrite length_map|].
  destruct (getitem_in_bounds (map (fun tse => tse.2) tokens) (end_token_idx h))
    as (ec' & Hel & Hec'); [by rewrite length_map|].
  assert (sc' = sc) as -> by congruence. assert (ec' = ec) as -> by congruence.
  change (map ?f ?l) with (f <$> l) in Hsl, Hel.
  rewrite list_lookup_fmap in Hsl, Hel.
  destruct (tokens !! Z.to_nat (start_token_idx h)) as [first_token|] eqn:Hft; [|done].
  destruct (tokens !! Z.to_nat (end_token_idx h)) as [last_token|] eqn:Hlt; [|done].
  injection Hsl as <-. injection Hel as <-.
  exists first_token, last_token, entities. simpl.
  split; [done|]. split; [done|]. split; [done|].
  split; [symmetry; by eapply Forall2_length|].
  split; [done|]. apply slice_substring.
Qed.

(** C6, as the code has it.  A hypothesis whose start or end index is at
    least the number of tokens of its text, or below minus that number,
    makes [batch_predict_entities] raise [IndexError]: no entity list is
    returned for any text of the batch. *)
Theorem index_beyond_tokens_is_fatal (self : GLiNER)
    (texts labels : list string) (opts : DecodeOptions)
    (model_input raw_batch : gmap string obj)
    (outputs : list (list SpanHypothesis))
    (i : nat) (text : string) (output : list SpanHypothesis) (h : SpanHypothesis) :
  prepare_model_inputs self texts labels = Ok (model_input, raw_batch) ->
  decode_output (model self) model_input raw_batch opts = Ok outputs ->
  texts !! i = Some text -> outputs !! i = Some output -> h ∈ output ->
  let n := Z.of_nat (length (words_splitter (data_processor self) text)) in
  (n <= start_token_idx h \/ start_token_idx h < - n
   \/ n <= end_token_idx h \/ end_token_idx h < - n)%Z ->
  batch_predict_entities decode_output self texts labels opts = Raise IndexError.
Proof.
  intros Hprep Hdec Htext Hout Hh n Hrange.
  destruct (prepare_model_inputs_offsets self texts labels _ _ Hprep) as [Hs He].
  rewrite (batch_predict_entities_unfold decode_output self texts labels opts _ _ _ Hprep Hdec).
  destruct (reconstruct_entities_cases texts raw_batch _ _ outputs Hs He)
    as [[all_entities Hall]|Hraise]; [|done].
  exfalso.
  apply (reconstruct_entities_Ok texts raw_batch _ _ outputs all_entities Hs He)
    in Hall as [_ Hall].
  destruct (Hall i output Hout) as (starts & ends & entities & Hst & Hen & _ & Hmap).
  rewrite (split_offsets_lookup _ _ texts i text Htext) in Hst.
  rewrite (split_offsets_lookup _ _ texts i text Htext) in Hen.
  injection Hst as <-. injection Hen as <-.
  apply list_elem_of_lookup in Hh as [j Hj].
  destruct (Forall2_lookup_l _ _ _ _ _ Hmap Hj) as (entity & _ & Hentity).
  apply reconstruct_entity_Ok in Hentity as (sc & ec & _ & Hsc & Hec & _).
  destruct Hrange as [Hr|[Hr|[Hr|Hr]]].
  - rewrite getitem_out_of_range in Hsc; [done|]. rewrite length_map. by left.
  - rewrite getitem_out_of_range in Hsc; [done|]. rewrite length_map. by right.
  - rewrite getitem_out_of_range in Hec; [done|]. rewrite length_map. by left.
  - rewrite getitem_out_of_range in Hec; [done|]. rewrite length_map. by right.
Qed.

End ReconstructionProperties.

(** ** The inference path on the scenario *)

Section PipelineExamples.
Import Batch Model Scenario.

Lemma scenario_prepare :
  prepare_model_inputs gliner ["Alice met Bob"] ["PERSON"]
  = Ok (model_input, raw_batch).
Proof. vm_compute. reflexivity. Qed.

(** The two hypotheses of the specification's scenario. *)
Example alice_and_bob :
  batch_predict_entities
    (decoder [[hyp 0 0 "PERSON" (95 # 100); hyp 2 2 "PERSON" (88 # 100)]])
    gliner ["Alice met Bob"] ["PERSON"] options
  = Ok [[ {| e_start := 0; e_end := 5; e_text := "Alice";
             e_label := "PERSON"; e_score := (95 # 100)%Q |};
          {| e_start := 10; e_end := 13; e_text := "Bob";
             e_label := "PERSON"; e_score := (88 # 100)%Q |} ]].
Proof. vm_compute. reflexivity. Qed.

Lemma entities_carry_character_offsets_witness :
  let texts := ["Alice met Bob"] in
  let outputs := [[hyp 0 0 "PERSON" (95 # 100); hyp 2 2 "PERSON" (88 # 100)]] in
  let run := batch_predict_entities (decoder outputs) gliner texts ["PERSON"] options in
  prepare_model_inputs gliner texts ["PERSON"] = Ok (model_input, raw_batch)
  /\ decoder outputs (model gliner) model_input raw_batch options = Ok outputs
  /\ (length outputs <= length texts ->
      (forall i text output h,
         texts !! i = Some text -> outputs !! i = Some output -> h ∈ output ->
         let n := Z.of_nat (length (words_splitter (data_processor gliner) text)) in
         (0 <= start_token_idx h < n)%Z /\ (0 <= end_token_idx h < n)%Z) ->
      is_Ok run)
  /\ forall all_entities,
       run = Ok all_entities ->
       length all_entities = length outputs
       /\ forall i j text output h,
            texts !! i = Some text -> outputs !! i = Some output ->
            output !! j = Some h ->
            let tokens := words_splitter (data_processor gliner) text in
            (0 <= start_token_idx h < Z.of_nat (length tokens))%Z ->
            (0 <= end_token_idx h < Z.of_nat (length tokens))%Z ->
            exists first_token last_token entities,
              let start_char := first_token.1.2 in
              let end_char := last_token.2 in
              tokens !! Z.to_nat (start_token_idx h) = Some first_token
              /\ tokens !! Z.to_nat (end_token_idx h) = Some last_token
              /\ all_entities !! i = Some entities
              /\ length entities = length output
              /\ entities !! j
                 = Some {| e_start := start_char; e_end := end_char;
                           e_text := slice text start_char end_char;
                           e_label := ent_type h; e_score := ent_score h |}
              /\ ((0 <= start_char <= end_char)%Z ->
                  (end_char <= Z.of_nat (String.length text))%Z ->
                  slice text start_char end_char
                  = substring (Z.to_nat start_char)
                      (Z.to_nat (end_char - start_char)) text).
Proof.
  intros texts outputs run.
  assert (prepare_model_inputs gliner texts ["PERSON"] = Ok (model_input, raw_batch))
    as H1 by (vm_compute; reflexivity).
  assert (decoder outputs (model gliner) model_input raw_batch options = Ok outputs)
    as H2 by reflexivity.
  split; [exact H1|]. split; [exact H2|].
  exact (entities_carry_character_offsets (decoder outputs) gliner texts ["PERSON"]
           options model_input raw_batch outputs H1 H2).
Defined.

Lemma index_beyond_tokens_is_fatal_witness :
  let texts := ["Alice met Bob"] in
  let h := hyp 0 3 "PERSON" (9 # 10) in
  let outputs := [[h]] in
  prepare_model_inputs gliner texts ["PERSON"] = Ok (model_input, raw_batch)
  /\ decoder outputs (model gliner) model_input raw_batch options = Ok outputs
  /\ texts !! 0 = Some "Alice met Bob"
  /\ outputs !! 0 = Some [h]
  /\ h ∈ [h]
  /\ (3 <= start_token_idx h \/ start_token_idx h < - 3
      \/ 3 <= end_token_idx h \/ end_token_idx h < - 3)%Z
  /\ batch_predict_entities (decoder outputs) gliner texts ["PERSON"] options
     = Raise IndexError.
Proof.
  intros texts h outputs.
  assert (prepare_model_inputs gliner texts ["PERSON"] = Ok (model_input, raw_batch))
    as H1 by (vm_compute; reflexivity).
  assert (decoder outputs (model gliner) model_input raw_batch options = Ok outputs)
    as H2 by reflexivity.
  assert (texts !! 0 = Some "Alice met Bob") as H3 by reflexivity.
  assert (outputs !! 0 = Some [h]) as H4 by reflexivity.
  assert (h ∈ [h]) as H5 by (by left).
  assert (3 <= start_token_idx h \/ start_token_idx h < - 3
          \/ 3 <= end_token_idx h \/ end_token_idx h < - 3)%Z as H6.
  { right. right. left. simpl. lia. }
  split; [exact H1|]. split; [exact H2|]. split; [exact H3|]. split; [exact H4|].
  split; [exact H5|]. split; [exact H6|].
  exact (index_beyond_tokens_is_fatal (decoder outputs) gliner texts ["PERSON"]
           options model_input raw_batch outputs 0 "Alice met Bob" [h] h
           H1 H2 H3 H4 H5 H6).
Defined.

(** C6 as stated fails on a negative index: [-1] lies outside the bounds
    [0 .. 2] of the offset map, yet the list lookup counts it from the end
    and an entity comes out, with the start of the last token, the end of
    the first and an empty text. *)
Lemma negative_index_yields_entity :
  let h := hyp (-1) 0 "PERSON" (9 # 10) in
  length (splitter "Alice met Bob") = 3
  /\ (start_token_idx h < 0)%Z
  /\ batch_predict_entities (decoder [[h]]) gliner ["Alice met Bob"] ["PERSON"] options
     = Ok [[ {| e_start := 10; e_end := 5; e_text := "";
                e_label := "PERSON"; e_score := (9 # 10)%Q |} ]].
Proof. repeat split; vm_compute; reflexivity. Qed.

Lemma dispatcher_sets_batch_keys_witness :
  let input_x := [ {| tokenized_text := ["Alice"; "met"; "Bob"] |} ] in
  let raw := {[ "tokens" := OTokens [["Alice"; "met"; "Bob"]];
                "seq_length" := OTensor (cpu_tensor [3]%Z) ]} : gmap string obj in
  let collated := {[ "input_ids" := OTensor (cpu_tensor [101; 7; 8; 9; 102]%Z);
                     "span_idx" := OTensor (cpu_tensor [0; 0]%Z) ]} : gmap string obj in
  collate_raw_batch (dc_data_processor collator) input_x None = Ok raw
  /\ collate_fn (dc_data_processor collator) raw false = Ok collated
  /\ raw !! "seq_length" = Some (OTensor (cpu_tensor [3]%Z))
  /\ exists out,
       DataCollator_call collator input_x = Ok out
       /\ out !! "span_idx" = Some (default ONone (raw !! "span_idx"))
       /\ out !! "span_mask" = Some (default ONone (raw !! "span_mask"))
       /\ out !! "text_lengths" = Some (OTensor (cpu_tensor [3]%Z))
       /\ forall k, k <> "span_idx" -> k <> "span_mask" -> k <> "text_lengths" ->
            out !! k = collated !! k.
Proof.
  intros input_x raw collated.
  assert (collate_raw_batch (dc_data_processor collator) input_x None = Ok raw)
    as H1 by reflexivity.
  assert (collate_fn (dc_data_processor collator) raw false = Ok collated)
    as H2 by reflexivity.
  assert (raw !! "seq_length" = Some (OTensor (cpu_tensor [3]%Z))) as H3 by reflexivity.
  split; [exact H1|]. split; [exact H2|]. split; [exact H3|].
  exact (dispatcher_sets_batch_keys collator input_x raw collated _ H1 H2 H3).
Defined.

(** C3 as stated fails on its last part: the collated output already has a
    [span_idx], the raw batch has none, and the dispatcher returns
    [span_idx] as [None]. *)
Lemma collated_span_idx_overwritten :
  let input_x := [ {| tokenized_text := ["Alice"; "met"; "Bob"] |} ] in
  exists raw collated out,
    collate_raw_batch (dc_data_processor collator) input_x None = Ok raw
    /\ collate_fn (dc_data_processor collator) raw false = Ok collated
    /\ DataCollator_call collator input_x = Ok out
    /\ raw !! "span_idx" = None
    /\ collated !! "span_idx" = Some (OTensor (cpu_tensor [0; 0]%Z))
    /\ out !! "span_idx" = Some ONone.
Proof. intros input_x. do 3 eexists. repeat split; reflexivity. Qed.

End PipelineExamples.

(** ** Device placement *)

Section TransferFacts.
Import Batch Model.
Context {Tokenizer : Type}.
Context (TokenProcessor SpanProcessor :
           GLiNERConfig -> Tokenizer -> WordsSplitter -> Processor).
Context (TokenModel SpanModel : GLiNERConfig -> bool -> nn_module).

(** Both branches of the test on [BaseORTModel] in [__init__] store
    [True]. *)
Lemma onnx_model_always_set (config : GLiNERConfig) (model : option model_t)
    (tokenizer : Tokenizer) (splitter : WordsSplitter) (from_pretrained : bool) :
  onnx_model (GLiNER_init TokenProcessor SpanProcessor TokenModel SpanModel
                config model tokenizer splitter from_pretrained) = true.
Proof. unfold GLiNER_init. simpl. by destruct (is_BaseORTModel _). Qed.

(** Hence the transfer step never runs on a constructed [GLiNER]. *)
Lemma transfer_skipped (config : GLiNERConfig) (model : option model_t)
    (tokenizer : Tokenizer) (splitter : WordsSplitter) (from_pretrained : bool)
    (model_input : gmap string obj) :
  transfer (GLiNER_init TokenProcessor SpanProcessor TokenModel SpanModel
              config model tokenizer splitter from_pretrained) model_input
  = Ok model_input.
Proof. unfold transfer. by rewrite onnx_model_always_set. Qed.

(** With the flag cleared the step does move every tensor to the encoder's
    device and leaves every other entry as it is. *)
Lemma transfer_moves_tensors (self : GLiNER) (m : nn_module)
    (model_input : gmap string obj) :
  onnx_model self = false -> model self = BaseModel m ->
  exists moved,
    transfer self model_input = Ok moved
    /\ forall k,
         moved !! k
         = match model_input !! k with
           | Some (OTensor t) => Some (OTensor (to (parameters_device m) t))
           | other => other
           end.
Proof.
  intros Hflag Hmodel. exists (move_entry (parameters_device m) <$> model_input).
  split.
  - unfold transfer. by rewrite Hflag, Hmodel.
  - intros k. rewrite lookup_fmap. by destruct (model_input !! k) as [[]|].
Qed.

End TransferFacts.

(** C2.  A [GLiNER] built around a torch encoder on an accelerator still has
    [onnx_model] set, because [__init__] stores [True] on both sides of its
    test; [prepare_model_inputs] therefore skips the transfer and returns
    the model inputs where the strategy put them, here on the host. *)
Theorem tensors_stay_on_host_for_torch_model :
  Model.is_BaseORTModel (Model.model Scenario.gliner) = false
  /\ Model.model_device (Model.model Scenario.gliner) = Ok (Batch.CUDA 0)
  /\ Model.onnx_model Scenario.gliner = true
  /\ Model.prepare_model_inputs Scenario.gliner ["Alice met Bob"] ["PERSON"]
     = Ok (Scenario.model_input, Scenario.raw_batch)
  /\ Scenario.model_input !! "input_ids"
     = Some (Batch.OTensor {| Batch.payload := Padding.tensor_1d [101; 7; 8; 9; 102]%Z;
                              Batch.on := Batch.CPU |}).
Proof. repeat split; vm_compute; reflexivity. Qed.

(** ** Further properties of the padding engine *)

Section TableProperties.
Import Torch Padding.
Context {A : Type} (zero : A).

#[local] Abbreviation tensor := (tensor A).
#[local] Abbreviation value := (value A).

Lemma table_shape (t : tensor) :
  (exists r c, has_shape [r; c] t = true) ->
  shape t = [size 0 t; size 1 t] /\ has_shape [size 0 t; size 1 t] t = true.
Proof.
  intros (r & c & Ht). unfold size.
  rewrite (has_shape_shape _ _ Ht). by split.
Qed.

Lemma pad_2d_tensor_tables (ts : list tensor) :
  ts <> [] -> Forall (fun t => exists r c, has_shape [r; c] t = true) ts ->
  let max_rows := max_list (size 0 <$> ts) in
  let max_cols := max_list (size 1 <$> ts) in
  pad_2d_tensor zero ts
  = Ok (Seq [max_rows; max_cols]
          ((fun t => pad_last2 zero (max_cols - size 1 t) (max_rows - size 0 t) t)
             <$> ts))
  /\ Forall (fun t => has_shape [max_rows; max_cols]
                        (pad_last2 zero (max_cols - size 1 t) (max_rows - size 0 t) t)
                      = true) ts.
Proof.
  intros Hne Hts max_rows max_cols.
  assert (Forall (fun t => has_shape [max_rows; max_cols]
                     (pad_last2 zero (max_cols - size 1 t) (max_rows - size 0 t) t)
                   = true) ts) as Hpadded.
  { rewrite Forall_forall in Hts. apply Forall_forall. intros t Ht.
    destruct (table_shape t (Hts t Ht)) as [_ Hs].
    pose proof (size_le_max 0 ts t Ht) as H0. pose proof (size_le_max 1 ts t Ht) as H1.
    fold max_rows in H0. fold max_cols in H1.
    apply (pad_last2_has_shape zero (max_cols - size 1 t) (max_rows - size 0 t)
             (size 0 t) (size 1 t) []) in Hs.
    simpl in Hs.
    by replace (size 0 t + (max_rows - size 0 t)) with max_rows in Hs by lia;
       replace (size 1 t + (max_cols - size 1 t)) with max_cols in Hs by lia. }
  split; [|done].
  unfold pad_2d_tensor. destruct ts as [|t0 ts']; [done|].
  remember (t0 :: ts') as ts eqn:Heq.
  rewrite (mapM_Ok_map (shape_at 0) (size 0)), bind_Ok_l.
  2:{ eapply Forall_impl; [exact Hts|]. intros t [Ht _]%table_shape.
      unfold shape_at. by rewrite Ht. }
  rewrite (mapM_Ok_map (shape_at 1) (size 1)), bind_Ok_l.
  2:{ eapply Forall_impl; [exact Hts|]. intros t [Ht _]%table_shape.
      unfold shape_at. by rewrite Ht. }
  rewrite (mapM_Ok_map _
             (fun t => pad_last2 zero (max_cols - size 1 t) (max_rows - size 0 t) t)),
    bind_Ok_l.
  2:{ eapply Forall_impl; [exact Hts|]. intros t [Ht _]%table_shape.
      rewrite Ht. simpl. unfold F_pad, dim. by rewrite Ht. }
  change (map ?f ?l) with (f <$> l).
  apply stack_uniform.
  - subst ts. done.
  - apply Forall_fmap. eapply Forall_impl; [exact Hpadded|].
    intros t Ht. by apply has_shape_shape.
Qed.

(** X1.  When the values stored under [key] are, after [squeeze(0)],
    well-formed rank-2 tensors, the engine returns for that key a tensor of
    shape [[batch, max_rows, max_cols]]; example [i] keeps its entries in
    the [[:rows, :cols]] corner of slice [i], and every other position of
    the slice holds the fill value. *)
Theorem rank2_tables_padded (self : DataCollatorWithPadding)
    (batch : list (dict value)) (key : string) (ts : list tensor) :
  batch <> [] ->
  Forall2 (holds_squeezed key) batch ts ->
  Forall (fun t => exists r c, has_shape [r; c] t = true) ts ->
  let max_rows := max_list (size 0 <$> ts) in
  let max_cols := max_list (size 1 <$> ts) in
  exists out,
    pad_key zero self batch key = Ok (VTensor out)
    /\ (forall o, call zero self batch = Ok o -> o !! key = Some (VTensor out))
    /\ has_shape [length batch; max_rows; max_cols] out = true
    /\ forall i t, ts !! i = Some t ->
         forall p q, p < max_rows -> q < max_cols ->
           tget [i; p; q] out
           = if ((p <? size 0 t) && (q <? size 1 t))%nat
             then tget [p; q] t else Some zero.
Proof.
  intros Hne Hbatch Hts max_rows max_cols.
  assert (ts <> []) as Htne.
  { intros ->. apply Forall2_nil_inv_r in Hbatch. done. }
  destruct (pad_2d_tensor_tables ts Htne Hts) as [Hpad Hpadded].
  fold max_rows max_cols in Hpad, Hpadded.
  set (padded := (fun t => pad_last2 zero (max_cols - size 1 t) (max_rows - size 0 t) t)
                   <$> ts) in Hpad.
  exists (Seq [max_rows; max_cols] padded).
  assert (pad_key zero self batch key = Ok (VTensor (Seq [max_rows; max_cols] padded)))
    as Hkey.
  { rewrite (pad_key_tensors zero self key batch ts) by done.
    unfold pad_key_data. destruct ts as [|t0 ts']; [done|].
    change (getitem_nat (VTensor <$> t0 :: ts') 0) with (Ok (VTensor t0 : value)).
    rewrite bind_Ok_l.
    assert (dim t0 = 2) as Hd.
    { inversion Hts as [|? ? [H0 _]%table_shape _]. unfold dim. by rewrite H0. }
    destruct (decide (dim t0 = 1)) as [?|_]; [lia|].
    destruct (decide (dim t0 = 2)) as [_|?]; [|lia].
    by rewrite expect_tensor_all, bind_Ok_l, Hpad. }
  split; [done|]. split; [|split].
  - intros o Ho. destruct batch as [|first rest]; [done|].
    inversion Hbatch as [|? t0 ? ? (t' & Hfind & _) _]; subst.
    by eapply (call_lookup zero self (first :: rest)).
  - apply has_shape_Seq. unfold padded. rewrite length_fmap.
    split; [symmetry; by eapply Forall2_length|]. split; [done|].
    by apply Forall_fmap.
  - intros i t Hi p q Hp Hq.
    assert (t ∈ ts) as Hin by (by eapply list_elem_of_lookup_2).
    pose proof (size_le_max 0 ts t Hin) as H0. pose proof (size_le_max 1 ts t Hin) as H1.
    fold max_rows in H0. fold max_cols in H1.
    rewrite tget_cons. simpl items. unfold padded.
    rewrite list_lookup_fmap, Hi. simpl.
    rewrite Forall_forall in Hts. destruct (table_shape t (Hts t Hin)) as [_ Hs].
    apply (pad_last2_tget zero (max_cols - size 1 t) (max_rows - size 0 t)
             (size 0 t) (size 1 t) p q [] [] t Hs); [constructor|lia|lia].
Qed.

End TableProperties.


Lemma fmap_Raise {T U} (m : result T) (f : T -> U) (e : exn) :
  f <$> m = Raise e <-> m = Raise e.
Proof. destruct m; simpl; split; congruence. Qed.

Lemma mapM_Raise_in {T U} (P : exn -> Prop) (f : T -> result U) (l : list T) (e : exn) :
  (forall x e', x ∈ l -> f x = Raise e' -> P e') -> mapM f l = Raise e -> P e.
Proof.
  intros HP (x & Hx & Hfx)%mapM_Raise%Exists_exists. by eapply HP.
Qed.

(** A raising element after elements that return makes the traversal raise
    the same exception. *)
Lemma mapM_Raise_at {T U} (f : T -> result U) (pre post : list T) (x : T) (e : exn) :
  Forall (fun y => is_Ok (f y)) pre -> f x = Raise e ->
  mapM f (pre ++ x :: post) = Raise e.
Proof.
  intros Hpre Hx. induction Hpre as [|y pre [v Hv] _ IH]; simpl.
  - by rewrite Hx.
  - by rewrite Hv, bind_Ok_l, IH.
Qed.

Ltac raise_in H :=
  match type of H with
  | mapM _ _ = Raise ?e =>
      pattern e; eapply mapM_Raise_in; [cbv beta | exact H]
  end.

Section FailureFacts.
Import Torch Padding Conventions.
Context {A : Type} (zero : A).

#[local] Abbreviation tensor := (tensor A).
#[local] Abbreviation value := (value A).

Lemma shape_at_cases (i : nat) (t : tensor) :
  (exists n, shape_at i t = Ok n /\ i < dim t)
  \/ (shape_at i t = Raise IndexError /\ dim t <= i).
Proof.
  unfold shape_at, getitem_nat, dim.
  destruct (shape t !! i) as [n|] eqn:Hi.
  - left. exists n. split; [done|]. by eapply lookup_lt_Some.
  - right. split; [done|]. by apply lookup_ge_None.
Qed.

Lemma shape_at_Raise (i : nat) (t : tensor) (e : exn) :
  shape_at i t = Raise e -> e = IndexError.
Proof. destruct (shape_at_cases i t) as [(n & -> & _)|[-> _]]; congruence. Qed.

Lemma collect_key_Ok_inv (key : string) (batch : list (dict value))
    (key_data : list value) :
  collect_key key batch = Ok key_data ->
  exists ts, key_data = VTensor <$> ts /\ Forall2 (holds_squeezed key) batch ts.
Proof.
  unfold collect_key. rewrite mapM_Ok. intros H.
  induction H as [|item v batch kd Hv _ (ts & -> & IH)].
  - by exists [].
  - apply bind_Ok in Hv as (v0 & Hfind & Hsq).
    unfold dict_getitem in Hfind. destruct (dict_find item key) as [v1|] eqn:Hd; [|done].
    injection Hfind as ->. destruct v0 as [t| | | |]; try done.
    injection Hsq as <-. exists (squeeze0 t :: ts). split; [done|].
    constructor; [by exists t | done].
Qed.








End FailureFacts.

Section CallProperties.
Import Torch Padding Conventions.
Context {A : Type} (zero : A).

#[local] Abbreviation tensor := (tensor A).
#[local] Abbreviation value := (value A).

Lemma pad_key_data_tensors_cons (self : DataCollatorWithPadding) (key : string)
    (t0 : tensor) (ts : list tensor) :
  pad_key_data zero self key (VTensor <$> t0 :: ts)
  = if decide (dim t0 = 1) then VTensor <$> pad_sequence zero (t0 :: ts)
    else if decide (dim t0 = 2) then VTensor <$> pad_2d_tensor zero (t0 :: ts)
    else if String.eqb key "labels" then
      mode ← config_span_mode self;
      if String.eqb mode "token_level"
      then VTensor <$> pad_token_labels zero (t0 :: ts)
      else Raise (unsupported_dims key)
    else Raise (unsupported_dims key).
Proof.
  unfold pad_key_data.
  change (getitem_nat (VTensor <$> t0 :: ts) 0) with (Ok (VTensor t0 : value)).
  rewrite bind_Ok_l. cbv beta iota.
  rewrite (expect_tensor_all (t0 :: ts)), !bind_Ok_l.
  reflexivity.
Qed.

Lemma pad_key_Ok_tensor (self : DataCollatorWithPadding) (batch : list (dict value))
    (key : string) (v : value) :
  pad_key zero self batch key = Ok v -> exists t, v = VTensor t.
Proof.
  unfold pad_key.
  intros (kd & (ts & -> & _)%collect_key_Ok_inv & Hv)%bind_Ok.
  destruct ts as [|t0 ts]; [done|].
  rewrite pad_key_data_tensors_cons in Hv.
  repeat case_decide.
  - apply fmap_Ok in Hv as (t & _ & ->). by exists t.
  - apply fmap_Ok in Hv as (t & _ & ->). by exists t.
  - destruct (String.eqb key "labels"); [|done].
    apply bind_Ok in Hv as (mode & _ & Hv).
    destruct (String.eqb mode "token_level"); [|done].
    apply fmap_Ok in Hv as (t & _ & ->). by exists t.
Qed.



Lemma for_each_insert_Raise_at (f : string -> result value) (pre post : list string)
    (k : string) (m0 : gmap string value) (e : exn) :
  Forall (fun k' => is_Ok (f k')) pre -> f k = Raise e ->
  for_each (fun key padded => v ← f key; Ok (<[key := v]> padded))
    (pre ++ k :: post) m0 = Raise e.
Proof.
  intros Hpre Hk. revert m0.
  induction Hpre as [|k' pre [v Hv] _ IH]; intros m0; simpl.
  - by rewrite Hk.
  - rewrite Hv. simpl. apply IH.
Qed.

(** X2.  A call that returns has exactly the keys of the first example, and
    every value it returns is a tensor: keys that only later examples carry
    are dropped, and no entry keeps the empty list it starts with. *)
Theorem call_returns_one_tensor_per_key (self : DataCollatorWithPadding)
    (batch : list (dict value)) (out : gmap string value) :
  call zero self batch = Ok out ->
  exists first,
    head batch = Some first
    /\ (forall k, is_Some (out !! k) <-> k ∈ keys first)
    /\ forall k v, out !! k = Some v -> exists t, v = VTensor t.
Proof.
  intros (first & Hhd & Hin & Hout)%call_Ok. exists first.
  split; [done|]. split.
  - intros k. split.
    + intros [v Hv]. destruct (decide (k ∈ keys first)) as [?|Hk]; [done|].
      rewrite (Hout k Hk) in Hv. done.
    + intros (v & _ & Hv)%Hin. by exists v.
  - intros k v Hv. destruct (decide (k ∈ keys first)) as [Hk|Hk].
    + destruct (Hin k Hk) as (v' & Hkey & Hv').
      assert (v' = v) as -> by congruence. by eapply pad_key_Ok_tensor.
    + rewrite (Hout k Hk) in Hv. done.
Qed.

(** X3.  The keys are padded in the order of the first example, and the
    call raises the exception of the first key that fails: a later key is
    not looked at. *)
Theorem first_failing_key_decides (self : DataCollatorWithPadding)
    (batch : list (dict value)) (first : dict value)
    (pre post : list string) (key : string) (e : exn) :
  head batch = Some first ->
  keys first = pre ++ key :: post ->
  Forall (fun k => is_Ok (pad_key zero self batch k)) pre ->
  pad_key zero self batch key = Raise e ->
  call zero self batch = Raise e.
Proof.
  intros Hhd Hkeys Hpre Hkey. destruct batch as [|first' rest]; [done|].
  injection Hhd as ->. unfold call. rewrite Hkeys.
  by apply for_each_insert_Raise_at.
Qed.


End CallProperties.

Section KeyFailureProperties.
Import Torch Padding Conventions.
Context {A : Type} (zero : A).

#[local] Abbreviation tensor := (tensor A).
#[local] Abbreviation value := (value A).

Lemma call_needs_every_key (self : DataCollatorWithPadding)
    (batch : list (dict value)) (first : dict value) (key : string) (e : exn) :
  head batch = Some first -> key ∈ keys first ->
  pad_key zero self batch key = Raise e ->
  raises (call zero self batch).
Proof.
  intros Hhd Hk Hkey.
  destruct (call zero self batch) as [out|e'] eqn:Hcall; [|by eexists].
  apply call_Ok in Hcall as (first' & Hhd' & Hin & _).
  assert (first' = first) as -> by congruence.
  destruct (Hin key Hk) as (v & Hv & _). congruence.
Qed.

(** X4.  When an example lacks a key under which every example before it
    holds a tensor, padding that key raises [KeyError(key)]; if the key is
    one of the first example's keys, the call does not return. *)
Theorem missing_key_raises_KeyError (self : DataCollatorWithPadding)
    (pre post : list (dict value)) (item : dict value) (key : string) :
  Forall (fun it => exists t, dict_find it key = Some (VTensor t)) pre ->
  dict_find item key = None ->
  pad_key zero self (pre ++ item :: post) key = Raise (KeyError key)
  /\ forall first, head (pre ++ item :: post) = Some first -> key ∈ keys first ->
       raises (call zero self (pre ++ item :: post)).
Proof.
  intros Hpre Hitem.
  assert (pad_key zero self (pre ++ item :: post) key = Raise (KeyError key)) as Hkey.
  { unfold pad_key, collect_key. rewrite (mapM_Raise_at _ pre post item (KeyError key)).
    - done.
    - eapply Forall_impl; [exact Hpre|]. intros it (t & Ht).
      unfold dict_getitem. rewrite Ht. by eexists.
    - unfold dict_getitem. by rewrite Hitem. }
  split; [done|]. intros first Hhd Hk. by eapply call_needs_every_key.
Qed.


(** X6.  A collator built without a configuration (the default) cannot
    judge a ["labels"] value of another rank than 1 or 2: reading
    [self.config.span_mode] raises [AttributeError] before any [TypeError]
    is reached. *)
Theorem labels_without_config_raise (self : DataCollatorWithPadding)
    (batch : list (dict value)) (t0 : tensor) (ts : list tensor) :
  config self = None ->
  Forall2 (holds_squeezed "labels") batch (t0 :: ts) ->
  dim t0 <> 1 -> dim t0 <> 2 ->
  pad_key zero self batch "labels" = Raise AttributeError.
Proof.
  intros Hcfg Hts H1 H2.
  rewrite (pad_key_tensors zero self "labels" batch (t0 :: ts) Hts).
  rewrite pad_key_data_tensors_cons.
  destruct (decide (dim t0 = 1)) as [?|_]; [done|].
  destruct (decide (dim t0 = 2)) as [?|_]; [done|].
  unfold config_span_mode. by rewrite Hcfg.
Qed.

(** X7.  When the first example's value has two axes after [squeeze(0)] but
    another example's value has fewer (as a stored [[1, n]] tensor among
    [[m, n]] tensors has), padding the key raises [IndexError]: the maxima
    over [shape[0]] and [shape[1]] are taken before any tensor is padded. *)
Theorem lower_rank_among_tables_raises (self : DataCollatorWithPadding)
    (batch : list (dict value)) (key : string) (t0 : tensor) (ts : list tensor) :
  Forall2 (holds_squeezed key) batch (t0 :: ts) ->
  dim t0 = 2 ->
  Exists (fun t => dim t < 2) ts ->
  pad_key zero self batch key = Raise IndexError.
Proof.
  intros Hts Hd Hlow.
  rewrite (pad_key_tensors zero self key batch (t0 :: ts) Hts).
  rewrite pad_key_data_tensors_cons.
  destruct (decide (dim t0 = 1)) as [?|_]; [lia|].
  destruct (decide (dim t0 = 2)) as [_|?]; [|done].
  apply fmap_Raise. unfold pad_2d_tensor.
  destruct (mapM (shape_at 0) (t0 :: ts)) as [rows|e] eqn:Hrows.
  - rewrite bind_Ok_l.
    destruct (mapM (shape_at 1) (t0 :: ts)) as [cols|e] eqn:Hcols.
    + exfalso. apply mapM_Ok in Hcols.
      apply Exists_exists in Hlow as (t & Ht & Hdt).
      apply list_elem_of_lookup in Ht as [i Hi].
      assert ((t0 :: ts) !! S i = Some t) as Hi' by done.
      destruct (Forall2_lookup_l _ _ _ _ _ Hcols Hi') as (c & _ & Hc).
      destruct (shape_at_cases 1 t) as [(n & _ & Hn)|[Hr _]]; [lia|congruence].
    + simpl. f_equal. raise_in Hcols. intros t e' _. apply shape_at_Raise.
  - simpl. f_equal. raise_in Hrows. intros t e' _. apply shape_at_Raise.
Qed.

End KeyFailureProperties.

Section FurtherPaddingExamples.
Import Torch Padding Conventions.

Lemma rank2_tables_padded_witness :
  let t1 := tensor_2d 2 [[1; 2]; [3; 4]]%Z in
  let t2 := tensor_2d 1 [[5]; [6]; [7]]%Z in
  let batch := [ [("span_idx", VTensor t1)]; [("span_idx", VTensor (unsqueeze0 t2))] ] in
  batch <> []
  /\ Forall2 (holds_squeezed "span_idx") batch [t1; t2]
  /\ Forall (fun t => exists r c, has_shape [r; c] t = true) [t1; t2]
  /\ exists out,
       pad_key 0%Z (init None) batch "span_idx" = Ok (VTensor out)
       /\ (forall o, call 0%Z (init None) batch = Ok o ->
             o !! "span_idx" = Some (VTensor out))
       /\ has_shape [2; 3; 2] out = true
       /\ forall i t, [t1; t2] !! i = Some t ->
            forall p q, p < 3 -> q < 2 ->
              tget [i; p; q] out
              = if ((p <? size 0 t) && (q <? size 1 t))%nat
                then tget [p; q] t else Some 0%Z.
Proof.
  intros t1 t2 batch.
  assert (batch <> []) as H1 by done.
  assert (Forall2 (holds_squeezed "span_idx") batch [t1; t2]) as H2.
  { repeat constructor; eexists; split; reflexivity. }
  assert (Forall (fun t => exists r c, has_shape [r; c] t = true) [t1; t2]) as H3.
  { repeat constructor; [by exists 2, 2 | by exists 3, 1]. }
  split; [exact H1|]. split; [exact H2|]. split; [exact H3|].
  exact (rank2_tables_padded 0%Z (init None) batch "span_idx" [t1; t2] H1 H2 H3).
Defined.

Lemma call_returns_one_tensor_per_key_witness :
  let batch := [ [("input_ids", VTensor (tensor_1d [1; 2; 3]%Z))];
                 [("input_ids", VTensor (tensor_1d [1; 2]%Z));
                  ("extra", VTensor (tensor_1d [9; 9]%Z))] ] in
  let out : gmap string (value Z) :=
    {[ "input_ids" := VTensor (tensor_2d 3 [[1; 2; 3]; [1; 2; 0]]%Z) ]} in
  call 0%Z (init None) batch = Ok out
  /\ exists first,
       head batch = Some first
       /\ (forall k, is_Some (out !! k) <-> k ∈ keys first)
       /\ forall k v, out !! k = Some v -> exists t, v = VTensor t.
Proof.
  intros batch out.
  assert (call 0%Z (init None) batch = Ok out) as H1 by (vm_compute; reflexivity).
  split; [exact H1|].
  exact (call_returns_one_tensor_per_key 0%Z (init None) batch out H1).
Defined.

Lemma first_failing_key_decides_witness :
  let first := [("input_ids", VTensor (tensor_1d [1; 2]%Z));
                ("weights", VList [1; 2]%Z);
                ("cube", VTensor (full 0%Z [2; 2; 2]))] in
  let batch := [first] in
  head batch = Some first
  /\ keys first = ["input_ids"] ++ "weights" :: ["cube"]
  /\ Forall (fun k => is_Ok (pad_key 0%Z (init None) batch k)) ["input_ids"]
  /\ pad_key 0%Z (init None) batch "weights" = Raise AttributeError
  /\ call 0%Z (init None) batch = Raise AttributeError.
Proof.
  intros first batch.
  assert (head batch = Some first) as H1 by done.
  assert (keys first = ["input_ids"] ++ "weights" :: ["cube"]) as H2 by done.
  assert (Forall (fun k => is_Ok (pad_key 0%Z (init None) batch k)) ["input_ids"]) as H3.
  { repeat constructor. by eexists. }
  assert (pad_key 0%Z (init None) batch "weights" = Raise AttributeError) as H4 by done.
  split; [exact H1|]. split; [exact H2|]. split; [exact H3|]. split; [exact H4|].
  exact (first_failing_key_decides 0%Z (init None) batch first
           ["input_ids"] ["cube"] "weights" AttributeError H1 H2 H3 H4).
Defined.


Lemma missing_key_raises_KeyError_witness :
  let pre := [ [("input_ids", VTensor (tensor_1d [1; 2]%Z))] ] in
  let item : dict (value Z) := [("attention_mask", VTensor (tensor_1d [1; 1]%Z))] in
  let batch := pre ++ item :: [] in
  Forall (fun it => exists t, dict_find it "input_ids" = Some (VTensor t)) pre
  /\ dict_find item "input_ids" = None
  /\ pad_key 0%Z (init None) batch "input_ids" = Raise (KeyError "input_ids")
  /\ forall first, head batch = Some first -> "input_ids" ∈ keys first ->
       raises (call 0%Z (init None) batch).
Proof.
  intros pre item batch.
  assert (Forall (fun it => exists t, dict_find it "input_ids" = Some (VTensor t)) pre)
    as H1 by (repeat constructor; by eexists).
  assert (dict_find item "input_ids" = None) as H2 by done.
  split; [exact H1|]. split; [exact H2|].
  exact (missing_key_raises_KeyError 0%Z (init None) pre [] item "input_ids" H1 H2).
Defined.


Lemma labels_without_config_raise_witness :
  let cube := full 0%Z [2; 2; 2] in
  let batch := [ [("labels", VTensor cube)] ] in
  config (init None) = None
  /\ Forall2 (holds_squeezed "labels") batch [cube]
  /\ dim cube <> 1 /\ dim cube <> 2
  /\ pad_key 0%Z (init None) batch "labels" = Raise AttributeError.
Proof.
  intros cube batch.
  assert (config (init None) = None) as H0 by done.
  assert (Forall2 (holds_squeezed "labels") batch [cube]) as H1.
  { repeat constructor. by exists cube. }
  assert (dim cube <> 1) as H2 by done.
  assert (dim cube <> 2) as H3 by done.
  split; [exact H0|]. split; [exact H1|]. split; [exact H2|]. split; [exact H3|].
  exact (labels_without_config_raise 0%Z (init None) batch cube [] H0 H1 H2 H3).
Defined.

Lemma lower_rank_among_tables_raises_witness :
  let table := tensor_2d 2 [[7; 8]; [1; 2]]%Z in
  let row := tensor_1d [7; 8; 9]%Z in
  let batch := [ [("span_idx", VTensor table)];
                 [("span_idx", VTensor (unsqueeze0 row))] ] in
  Forall2 (holds_squeezed "span_idx") batch [table; row]
  /\ dim table = 2
  /\ Exists (fun t => dim t < 2) [row]
  /\ pad_key 0%Z (init None) batch "span_idx" = Raise IndexError.
Proof.
  intros table row batch.
  assert (Forall2 (holds_squeezed "span_idx") batch [table; row]) as H1.
  { repeat constructor; eexists; split; reflexivity. }
  assert (dim table = 2) as H2 by done.
  assert (Exists (fun t => dim t < 2) [row]) as H3 by (left; vm_compute; lia).
  split; [exact H1|]. split; [exact H2|]. split; [exact H3|].
  exact (lower_rank_among_tables_raises 0%Z (init None) batch "span_idx" table [row]
           H1 H2 H3).
Defined.

End FurtherPaddingExamples.

(** ** Further properties of the dispatcher and of the inference path *)

Section IndexFacts.

Lemma getitem_Ok {T} (l : list T) (i : Z) (x : T) :
  getitem l i = Ok x
  <-> (- Z.of_nat (length l) <= i < Z.of_nat (length l))%Z
      /\ l !! Conventions.resolve (length l) i = Some x.
Proof.
  unfold getitem, Conventions.resolve.
  destruct (Z.leb_spec 0 i) as [Hi|Hi].
  - rewrite getitem_nat_Ok. split.
    + intros H. split; [|done]. apply lookup_lt_Some in H. lia.
    + by intros [_ H].
  - destruct (Z.leb_spec 0 (i + Z.of_nat (length l))) as [Hn|Hn].
    + rewrite getitem_nat_Ok. split.
      * intros H. split; [lia|done].
      * by intros [_ H].
    + split; [done|]. intros [? _]. lia.
Qed.

Lemma substring_0 (n : nat) (s : string) : substring n 0 s = "".
Proof.
  revert s. induction n as [|n IH]; intros [|c s]; simpl; done.
Qed.

Lemma length_substring (n m : nat) (s : string) :
  n + m <= String.length s -> String.length (substring n m s) = m.
Proof.
  revert m s. induction n as [|n IH]; intros m s.
  - revert s. induction m as [|m IHm]; intros [|c s]; simpl; try done; try lia.
    intros H. rewrite IHm; [done|lia].
  - destruct s as [|c s]; simpl; [lia|]. intros H. apply IH. lia.
Qed.

(** A slice whose stop does not exceed its start is empty. *)
Lemma slice_empty (text : string) (a b : Z) :
  (0 <= b <= a)%Z -> slice text a b = "".
Proof.
  intros Hab. unfold slice, slice_bound.
  destruct (Z.ltb_spec a 0); [lia|]. destruct (Z.ltb_spec b 0); [lia|].
  replace (Z.to_nat (Z.min b _) - Z.to_nat (Z.min a _)) with 0 by lia.
  apply substring_0.
Qed.

End IndexFacts.

Section DispatcherProperties.
Import Batch Model Conventions.

(** X9.  The dispatcher tolerates a raw batch without [span_idx] and
    [span_mask] but not one without [seq_length]: the call then raises
    [KeyError("seq_length")] and the collated output is not returned. *)
Theorem dispatcher_needs_seq_length (self : DataCollator)
    (input_x : list RawExample) (raw_batch model_input : gmap string obj) :
  collate_raw_batch (dc_data_processor self) input_x None = Ok raw_batch ->
  collate_fn (dc_data_processor self) raw_batch false = Ok model_input ->
  raw_batch !! "seq_length" = None ->
  DataCollator_call self input_x = Raise (KeyError "seq_length").
Proof.
  intros Hraw Hfn Hlen. unfold DataCollator_call.
  rewrite Hraw, bind_Ok_l, Hfn, bind_Ok_l.
  by apply merge_batch_keys_KeyError.
Qed.

End DispatcherProperties.

Section InferenceFacts.
Import Batch Model Conventions.
Context {Score : Type}.
Context (decode_output :
           model_t -> gmap string obj -> gmap string obj -> @DecodeOptions Score ->
           result (list (list (@SpanHypothesis Score)))).

#[local] Abbreviation SpanHypothesis := (@SpanHypothesis Score).
#[local] Abbreviation Entity := (@Entity Score).

Lemma prepare_model_inputs_Ok_inv (self : GLiNER) (texts labels : list string)
    (model_input raw_batch : gmap string obj) :
  prepare_model_inputs self texts labels = Ok (model_input, raw_batch) ->
  exists raw0 collated merged,
    collate_raw_batch (data_processor self)
      (inference_examples (words_splitter (data_processor self)) texts)
      (Some labels) = Ok raw0
    /\ raw_batch = with_offsets (words_splitter (data_processor self)) texts raw0
    /\ collate_fn (data_processor self) raw_batch false = Ok collated
    /\ merge_batch_keys collated raw_batch = Ok merged
    /\ transfer self merged = Ok model_input.
Proof.
  unfold prepare_model_inputs.
  intros (raw0 & Hraw & (mi0 & Hfn & (mi1 & Hmerge & (mi2 & Htr & [= <- <-])%bind_Ok)%bind_Ok)%bind_Ok)%bind_Ok.
  by exists raw0, mi0, mi1.
Qed.

Lemma with_offsets_other (splitter : WordsSplitter) (texts : list string)
    (raw0 : gmap string obj) (k : string) :
  k <> start_key -> k <> end_key ->
  with_offsets splitter texts raw0 !! k = raw0 !! k.
Proof. intros H1 H2. unfold with_offsets. by rewrite !lookup_insert_ne. Qed.

(** What a call that returns holds for each hypothesis. *)
Lemma hypothesis_entity (self : GLiNER) (texts labels : list string)
    (opts : DecodeOptions) (model_input raw_batch : gmap string obj)
    (outputs : list (list SpanHypothesis)) (all_entities : list (list Entity)) :
  prepare_model_inputs self texts labels = Ok (model_input, raw_batch) ->
  decode_output (model self) model_input raw_batch opts = Ok outputs ->
  batch_predict_entities decode_output self texts labels opts = Ok all_entities ->
  length all_entities = length outputs
  /\ forall i output, outputs !! i = Some output ->
       exists text entities,
         texts !! i = Some text
         /\ all_entities !! i = Some entities
         /\ length entities = length output
         /\ forall j h, output !! j = Some h ->
              let tokens := words_splitter (data_processor self) text in
              let n := length tokens in
              exists first_token last_token,
                (- Z.of_nat n <= start_token_idx h < Z.of_nat n)%Z
                /\ (- Z.of_nat n <= end_token_idx h < Z.of_nat n)%Z
                /\ tokens !! resolve n (start_token_idx h) = Some first_token
                /\ tokens !! resolve n (end_token_idx h) = Some last_token
                /\ entities !! j
                   = Some {| e_start := first_token.1.2; e_end := last_token.2;
                             e_text := slice text first_token.1.2 last_token.2;
                             e_label := ent_type h; e_score := ent_score h |}.
Proof.
  intros Hprep Hdec Hall.
  destruct (prepare_model_inputs_offsets self texts labels _ _ Hprep) as [Hs He].
  rewrite (batch_predict_entities_unfold decode_output self texts labels opts _ _ _ Hprep Hdec)
    in Hall.
  apply (reconstruct_entities_Ok texts raw_batch _ _ outputs all_entities Hs He)
    in Hall as [Hlen Hall].
  split; [done|]. intros i output Hout.
  destruct (Hall i output Hout) as (starts & ends & entities & Hst & Hen & Hent & Hmap).
  change (map ?f ?l) with (f <$> l) in Hst, Hen.
  rewrite !list_lookup_fmap in Hst, Hen.
  destruct (texts !! i) as [text|] eqn:Htext; [|done].
  simpl in Hst, Hen. injection Hst as <-. injection Hen as <-.
  exists text, entities. split; [done|]. split; [done|].
  split; [symmetry; by eapply Forall2_length|].
  intros j h Hh tokens n.
  destruct (Forall2_lookup_l _ _ _ _ _ Hmap Hh) as (entity & Hj & Hentity).
  apply reconstruct_entity_Ok in Hentity
    as (sc & ec & text' & Hsc & Hec & Htext' & ->).
  assert (text' = text) as -> by congruence.
  apply getitem_Ok in Hsc as [Hsr Hsc]. apply getitem_Ok in Hec as [Her Hec].
  rewrite length_fmap in Hsr, Hsc, Her, Hec.
  rewrite list_lookup_fmap in Hsc, Hec.
  fold tokens in Hsr, Hsc, Her, Hec. fold n in Hsr, Hsc, Her, Hec.
  destruct (tokens !! resolve n (start_token_idx h)) as [first_token|]; [|done].
  destruct (tokens !! resolve n (end_token_idx h)) as [last_token|]; [|done].
  injection Hsc as <-. injection Hec as <-.
  by exists first_token, last_token.
Qed.

Lemma batch_predict_entities_cases (self : GLiNER)
    (texts labels : list string) (opts : DecodeOptions)
    (model_input raw_batch : gmap string obj) (outputs : list (list SpanHypothesis)) :
  prepare_model_inputs self texts labels = Ok (model_input, raw_batch) ->
  decode_output (model self) model_input raw_batch opts = Ok outputs ->
  is_Ok (batch_predict_entities decode_output self texts labels opts)
  \/ batch_predict_entities decode_output self texts labels opts = Raise IndexError.
Proof.
  intros Hprep Hdec.
  destruct (prepare_model_inputs_offsets self texts labels _ _ Hprep) as [Hs He].
  rewrite (batch_predict_entities_unfold decode_output self texts labels opts _ _ _ Hprep Hdec).
  by eapply reconstruct_entities_cases.
Qed.

Lemma surplus_lists_raise (self : GLiNER)
    (texts labels : list string) (opts : DecodeOptions)
    (model_input raw_batch : gmap string obj) (outputs : list (list SpanHypothesis)) :
  prepare_model_inputs self texts labels = Ok (model_input, raw_batch) ->
  decode_output (model self) model_input raw_batch opts = Ok outputs ->
  length texts < length outputs ->
  batch_predict_entities decode_output self texts labels opts = Raise IndexError.
Proof.
  intros Hprep Hdec Hlen.
  destruct (batch_predict_entities_cases self texts labels opts _ _ _ Hprep Hdec)
    as [[all_entities Hall]|Hr]; [|done].
  exfalso.
  destruct (hypothesis_entity self texts labels opts _ _ _ _ Hprep Hdec Hall)
    as [_ Hent].
  destruct (lookup_lt_is_Some_2 outputs (length texts) Hlen) as [output Hout].
  destruct (Hent _ _ Hout) as (text & _ & Htext & _).
  apply lookup_lt_Some in Htext. lia.
Qed.

Lemma bind_Ok_r {T} (m : result T) : m ≫= Ok = m.
Proof. by destruct m. Qed.

End InferenceFacts.

Section InferenceProperties.
Import Batch Model Conventions.
Context {Score : Type}.
Context (decode_output :
           model_t -> gmap string obj -> gmap string obj -> @DecodeOptions Score ->
           result (list (list (@SpanHypothesis Score)))).

#[local] Abbreviation SpanHypothesis := (@SpanHypothesis Score).
#[local] Abbreviation Entity := (@Entity Score).

(** X10.  When the strategy's raw batch lacks [seq_length], inference stops
    in [prepare_model_inputs] with [KeyError("seq_length")]: the encoder and
    the decoder are never run, whatever [span_idx] and [span_mask] are. *)
Theorem inference_needs_seq_length (self : GLiNER) (texts labels : list string)
    (opts : DecodeOptions) (raw0 collated : gmap string obj) :
  let splitter := words_splitter (data_processor self) in
  collate_raw_batch (data_processor self) (inference_examples splitter texts)
    (Some labels) = Ok raw0 ->
  raw0 !! "seq_length" = None ->
  collate_fn (data_processor self) (with_offsets splitter texts raw0) false
  = Ok collated ->
  prepare_model_inputs self texts labels = Raise (KeyError "seq_length")
  /\ batch_predict_entities decode_output self texts labels opts
     = Raise (KeyError "seq_length").
Proof.
  intros splitter Hraw Hlen Hfn.
  assert (prepare_model_inputs self texts labels = Raise (KeyError "seq_length")) as Hp.
  { unfold prepare_model_inputs. unfold inference_examples in Hraw.
    fold splitter. rewrite Hraw, bind_Ok_l.
    unfold with_offsets in Hfn. rewrite Hfn, bind_Ok_l.
    rewrite merge_batch_keys_KeyError; [done|].
    by rewrite !lookup_insert_ne. }
  split; [done|]. unfold batch_predict_entities. by rewrite Hp.
Qed.

(** X11.  The raw batch [prepare_model_inputs] returns is the strategy's raw
    batch with two entries set: one list of start offsets and one list of
    end offsets per text, in the order of the texts, each as long as the
    text's token sequence and holding at position [j] the offsets of token
    [j].  Entries of these names in the strategy's raw batch are replaced,
    all other entries are kept. *)
Theorem prepare_attaches_offset_maps (self : GLiNER) (texts labels : list string)
    (model_input raw_batch : gmap string obj) :
  prepare_model_inputs self texts labels = Ok (model_input, raw_batch) ->
  let splitter := words_splitter (data_processor self) in
  exists raw0 all_start all_end,
    collate_raw_batch (data_processor self) (inference_examples splitter texts)
      (Some labels) = Ok raw0
    /\ raw_batch !! start_key = Some (OOffsets all_start)
    /\ raw_batch !! end_key = Some (OOffsets all_end)
    /\ (forall k, k <> start_key -> k <> end_key -> raw_batch !! k = raw0 !! k)
    /\ length all_start = length texts
    /\ length all_end = length texts
    /\ forall i text, texts !! i = Some text ->
         exists starts ends,
           all_start !! i = Some starts /\ all_end !! i = Some ends
           /\ length starts = length (splitter text)
           /\ length ends = length (splitter text)
           /\ forall j tok, splitter text !! j = Some tok ->
                starts !! j = Some tok.1.2 /\ ends !! j = Some tok.2.
Proof.
  intros Hprep splitter.
  destruct (prepare_model_inputs_offsets self texts labels _ _ Hprep) as [Hs He].
  destruct (prepare_model_inputs_Ok_inv self texts labels _ _ Hprep)
    as (raw0 & _ & _ & Hraw & -> & _).
  fold splitter in Hs, He, Hraw.
  exists raw0, (map (map (fun tse => tse.1.2)) (map splitter texts)),
    (map (map (fun tse => tse.2)) (map splitter texts)).
  split; [done|]. split; [done|]. split; [done|].
  split; [intros k; apply with_offsets_other|].
  rewrite !length_map. split; [done|]. split; [done|].
  intros i text Htext.
  exists (map (fun tse => tse.1.2) (splitter text)), (map (fun tse => tse.2) (splitter text)).
  rewrite !(split_offsets_lookup _ splitter texts i text Htext), !length_map.
  repeat split; try done.
  - change (map ?f ?l) with (f <$> l). by rewrite list_lookup_fmap, H.
  - change (map ?f ?l) with (f <$> l). by rewrite list_lookup_fmap, H.
Qed.

(** X14.  Once the inputs are prepared and the decoder has returned, entity
    reconstruction either returns or raises [IndexError]; it raises nothing
    else. *)
Theorem reconstruction_fails_only_with_IndexError (self : GLiNER)
    (texts labels : list string) (opts : DecodeOptions)
    (model_input raw_batch : gmap string obj) (outputs : list (list SpanHypothesis)) :
  prepare_model_inputs self texts labels = Ok (model_input, raw_batch) ->
  decode_output (model self) model_input raw_batch opts = Ok outputs ->
  is_Ok (batch_predict_entities decode_output self texts labels opts)
  \/ batch_predict_entities decode_output self texts labels opts = Raise IndexError.
Proof. apply batch_predict_entities_cases. Qed.

(** X13.  When the decoder returns more hypothesis lists than there are
    texts, [batch_predict_entities] raises [IndexError], even if the surplus
    lists are empty: the offset maps of position [i] are fetched before the
    hypotheses of position [i] are looked at. *)
Theorem surplus_hypothesis_lists_raise (self : GLiNER)
    (texts labels : list string) (opts : DecodeOptions)
    (model_input raw_batch : gmap string obj) (outputs : list (list SpanHypothesis)) :
  prepare_model_inputs self texts labels = Ok (model_input, raw_batch) ->
  decode_output (model self) model_input raw_batch opts = Ok outputs ->
  length texts < length outputs ->
  batch_predict_entities decode_output self texts labels opts = Raise IndexError.
Proof. apply surplus_lists_raise. Qed.

(** X15.  In every call that returns, each hypothesis has its entity at its
    own position, hypothesis lists and entity lists have equal lengths, and
    the two token indices are read the way Python reads list indices: each
    lies between minus the number of tokens and that number, and a negative
    one counts from the last token. *)
Theorem entities_follow_python_indexing (self : GLiNER)
    (texts labels : list string) (opts : DecodeOptions)
    (model_input raw_batch : gmap string obj)
    (outputs : list (list SpanHypothesis)) (all_entities : list (list Entity)) :
  prepare_model_inputs self texts labels = Ok (model_input, raw_batch) ->
  decode_output (model self) model_input raw_batch opts = Ok outputs ->
  batch_predict_entities decode_output self texts labels opts = Ok all_entities ->
  length all_entities = length outputs
  /\ forall i output, outputs !! i = Some output ->
       exists text entities,
         texts !! i = Some text
         /\ all_entities !! i = Some entities
         /\ length entities = length output
         /\ forall j h, output !! j = Some h ->
              let tokens := words_splitter (data_processor self) text in
              let n := length tokens in
              exists first_token last_token,
                (- Z.of_nat n <= start_token_idx h < Z.of_nat n)%Z
                /\ (- Z.of_nat n <= end_token_idx h < Z.of_nat n)%Z
                /\ tokens !! resolve n (start_token_idx h) = Some first_token
                /\ tokens !! resolve n (end_token_idx h) = Some last_token
                /\ entities !! j
                   = Some {| e_start := first_token.1.2; e_end := last_token.2;
                             e_text := slice text first_token.1.2 last_token.2;
                             e_label := ent_type h; e_score := ent_score h |}.
Proof. apply hypothesis_entity. Qed.

(** X16.  Every entity of a call that returns is consistent with its own
    text: its [text] field is the slice of the input text between its own
    [start] and [end]; in particular an entity whose end does not exceed its
    start (a hypothesis whose end token lies before its start token) comes
    out with an empty text and is not rejected. *)
Theorem entity_text_is_own_slice (self : GLiNER)
    (texts labels : list string) (opts : DecodeOptions)
    (model_input raw_batch : gmap string obj)
    (outputs : list (list SpanHypothesis)) (all_entities : list (list Entity)) :
  prepare_model_inputs self texts labels = Ok (model_input, raw_batch) ->
  decode_output (model self) model_input raw_batch opts = Ok outputs ->
  batch_predict_entities decode_output self texts labels opts = Ok all_entities ->
  forall i text entities entity,
    texts !! i = Some text -> all_entities !! i = Some entities ->
    entity ∈ entities ->
    e_text entity = slice text (e_start entity) (e_end entity)
    /\ ((0 <= e_end entity <= e_start entity)%Z -> e_text entity = "").
Proof.
  intros Hprep Hdec Hall i text entities entity Htext Hents Hin.
  destruct (hypothesis_entity decode_output self texts labels opts _ _ _ _ Hprep Hdec Hall)
    as [Hlen Hent].
  destruct (lookup_lt_is_Some_2 outputs i) as [output Hout].
  { rewrite <- Hlen. by eapply lookup_lt_Some. }
  destruct (Hent i output Hout) as (text' & entities' & Htext' & Hents' & Hl & Hj).
  assert (text' = text) as -> by congruence.
  assert (entities' = entities) as -> by congruence.
  apply list_elem_of_lookup in Hin as [j Hentity].
  destruct (lookup_lt_is_Some_2 output j) as [h Hh].
  { rewrite <- Hl. by eapply lookup_lt_Some. }
  destruct (Hj j h Hh) as (first_token & last_token & _ & _ & _ & _ & Hrec).
  assert (entity = {| e_start := first_token.1.2; e_end := last_token.2;
                      e_text := slice text first_token.1.2 last_token.2;
                      e_label := ent_type h; e_score := ent_score h |}) as ->
    by congruence.
  simpl. split; [done|]. apply slice_empty.
Qed.

(** X17.  When the words splitter keeps its contract on a text (every token
    lies in the text with start before end, tokens in increasing order
    without overlap), a hypothesis of a returning call whose indices satisfy
    [0 <= start_token_idx <= end_token_idx < number of tokens] gives an
    entity that lies in the text, [0 <= start <= end <= len(text)], and whose
    text is the substring of exactly [end - start] characters at [start]. *)
Theorem entity_lies_in_text (self : GLiNER)
    (texts labels : list string) (opts : DecodeOptions)
    (model_input raw_batch : gmap string obj)
    (outputs : list (list SpanHypothesis)) (all_entities : list (list Entity))
    (i j : nat) (text : string) (output : list SpanHypothesis) (h : SpanHypothesis) :
  prepare_model_inputs self texts labels = Ok (model_input, raw_batch) ->
  decode_output (model self) model_input raw_batch opts = Ok outputs ->
  batch_predict_entities decode_output self texts labels opts = Ok all_entities ->
  texts !! i = Some text -> outputs !! i = Some output -> output !! j = Some h ->
  let tokens := words_splitter (data_processor self) text in
  splitter_contract text tokens ->
  (0 <= start_token_idx h <= end_token_idx h)%Z ->
  (end_token_idx h < Z.of_nat (length tokens))%Z ->
  exists entities entity,
    all_entities !! i = Some entities /\ entities !! j = Some entity
    /\ (0 <= e_start entity <= e_end entity)%Z
    /\ (e_end entity <= Z.of_nat (String.length text))%Z
    /\ e_text entity
       = substring (Z.to_nat (e_start entity))
           (Z.to_nat (e_end entity - e_start entity)) text
    /\ String.length (e_text entity) = Z.to_nat (e_end entity - e_start entity).
Proof.
  intros Hprep Hdec Hall Htext Hout Hh tokens [Hin Hord] Hse Hen.
  destruct (hypothesis_entity decode_output self texts labels opts _ _ _ _ Hprep Hdec Hall)
    as [_ Hent].
  destruct (Hent i output Hout) as (text' & entities & Htext' & Hents & _ & Hj).
  assert (text' = text) as -> by congruence.
  destruct (Hj j h Hh) as (first_token & last_token & _ & _ & Hft & Hlt & Hrec).
  fold tokens in Hft, Hlt.
  unfold resolve in Hft, Hlt.
  destruct (Z.leb_spec 0 (start_token_idx h)); [|lia].
  destruct (Z.leb_spec 0 (end_token_idx h)); [|lia].
  destruct (Hin _ _ Hft) as [Hf1 Hf2]. destruct (Hin _ _ Hlt) as [Hl1 Hl2].
  assert (first_token.1.2 <= last_token.2)%Z as Hspan.
  { destruct (decide (start_token_idx h = end_token_idx h)) as [Heq|Hne].
    - rewrite Heq in Hft. assert (first_token = last_token) as -> by congruence. lia.
    - assert (Z.to_nat (start_token_idx h) < Z.to_nat (end_token_idx h)) as Hlt' by lia.
      pose proof (Hord _ _ _ _ Hlt' Hft Hlt). lia. }
  eexists entities, _. split; [done|]. split; [exact Hrec|]. simpl.
  split; [lia|]. split; [lia|].
  rewrite slice_substring by lia. split; [done|].
  apply length_substring. lia.
Qed.

(** X18.  With the [onnx_model] flag cleared and a torch encoder,
    [prepare_model_inputs] returns every tensor of the model inputs on the
    encoder's device, and a [span_idx] or [span_mask] the raw batch does not
    have stays [None]. *)
Theorem cleared_flag_moves_tensors (self : GLiNER) (m : nn_module)
    (texts labels : list string) (model_input raw_batch : gmap string obj) :
  onnx_model self = false -> model self = BaseModel m ->
  prepare_model_inputs self texts labels = Ok (model_input, raw_batch) ->
  (forall k t, model_input !! k = Some (OTensor t) -> on t = parameters_device m)
  /\ (raw_batch !! "span_idx" = None -> model_input !! "span_idx" = Some ONone)
  /\ (raw_batch !! "span_mask" = None -> model_input !! "span_mask" = Some ONone).
Proof.
  intros Hflag Hmodel Hprep.
  destruct (prepare_model_inputs_Ok_inv self texts labels _ _ Hprep)
    as (raw0 & collated & merged & _ & _ & _ & Hmerge & Htr).
  destruct (transfer_moves_tensors self m merged Hflag Hmodel) as (moved & Hmoved & Hk).
  assert (moved = model_input) as -> by congruence.
  unfold merge_batch_keys in Hmerge.
  apply bind_Ok in Hmerge as (lengths & _ & [= <-]).
  split; [|split].
  - intros k t Ht. rewrite Hk in Ht.
    destruct (_ !! k) as [[| t' | | |]|]; try done. by injection Ht as <-.
  - intros Hnone. rewrite Hk. simpl.
    rewrite lookup_insert_ne, lookup_insert_ne, lookup_insert_eq by done.
    unfold get_or_None. by rewrite Hnone.
  - intros Hnone. rewrite Hk. simpl.
    rewrite lookup_insert_ne, lookup_insert_eq by done.
    unfold get_or_None. by rewrite Hnone.
Qed.

(** X12.  [predict_entities] returns only when the decoder returns exactly
    one hypothesis list for the single text: with none, or with more than
    one, it raises [IndexError]; with one, its result is the result of
    reconstructing that list on the text. *)
Theorem predict_entities_needs_one_list (self : GLiNER) (text : string)
    (labels : list string) (opts : DecodeOptions)
    (model_input raw_batch : gmap string obj) (outputs : list (list SpanHypothesis)) :
  prepare_model_inputs self [text] labels = Ok (model_input, raw_batch) ->
  decode_output (model self) model_input raw_batch opts = Ok outputs ->
  (length outputs <> 1 ->
   predict_entities decode_output self text labels opts = Raise IndexError)
  /\ forall output, outputs = [output] ->
       let tokens := words_splitter (data_processor self) text in
       predict_entities decode_output self text labels opts
       = mapM (reconstruct_entity [text] 0
                 (map (fun tse => tse.1.2) tokens) (map (fun tse => tse.2) tokens))
           output.
Proof.
  intros Hprep Hdec. unfold predict_entities. split.
  - intros Hlen. destruct outputs as [|output [|output' outputs]]; [|done|].
    + by rewrite (batch_predict_entities_unfold decode_output self [text] labels opts
                    _ _ _ Hprep Hdec).
    + rewrite (surplus_lists_raise decode_output self [text] labels opts _ _ _ Hprep Hdec);
        [done|]. simpl. lia.
  - intros output ->.
    destruct (prepare_model_inputs_offsets self [text] labels _ _ Hprep) as [Hs He].
    rewrite (batch_predict_entities_unfold decode_output self [text] labels opts
               _ _ _ Hprep Hdec).
    unfold reconstruct_entities. simpl.
    rewrite (proj2 (offsets_at_Ok _ _ _ 0 _ Hs) eq_refl), bind_Ok_l.
    rewrite (proj2 (offsets_at_Ok _ _ _ 0 _ He) eq_refl), bind_Ok_l.
    by destruct (mapM _ output).
Qed.

End InferenceProperties.

Section InferenceExamples.
Import Batch Model Conventions Scenario Cases.

Lemma dispatcher_needs_seq_length_witness :
  let input_x := [ {| tokenized_text := ["Alice"; "met"; "Bob"] |} ] in
  let raw := {[ "tokens" := OTokens [["Alice"; "met"; "Bob"]] ]} : gmap string obj in
  let collated :=
    {[ "input_ids" := OTensor (cpu_tensor [101; 7; 8; 9; 102]%Z) ]} : gmap string obj in
  collate_raw_batch (dc_data_processor bare_collator) input_x None = Ok raw
  /\ collate_fn (dc_data_processor bare_collator) raw false = Ok collated
  /\ raw !! "seq_length" = None
  /\ DataCollator_call bare_collator input_x = Raise (KeyError "seq_length").
Proof.
  intros input_x raw collated.
  assert (collate_raw_batch (dc_data_processor bare_collator) input_x None = Ok raw)
    as H1 by reflexivity.
  assert (collate_fn (dc_data_processor bare_collator) raw false = Ok collated)
    as H2 by reflexivity.
  assert (raw !! "seq_length" = None) as H3 by reflexivity.
  split; [exact H1|]. split; [exact H2|]. split; [exact H3|].
  exact (dispatcher_needs_seq_length bare_collator input_x raw collated H1 H2 H3).
Defined.

Lemma inference_needs_seq_length_witness :
  let texts := ["Alice met Bob"] in
  let raw0 := {[ "tokens" := OTokens [["Alice"; "met"; "Bob"]] ]} : gmap string obj in
  let collated :=
    {[ "input_ids" := OTensor (cpu_tensor [101; 7; 8; 9; 102]%Z) ]} : gmap string obj in
  collate_raw_batch (data_processor bare_gliner) (inference_examples splitter texts)
    (Some ["PERSON"]) = Ok raw0
  /\ raw0 !! "seq_length" = None
  /\ collate_fn (data_processor bare_gliner) (with_offsets splitter texts raw0) false
     = Ok collated
  /\ prepare_model_inputs bare_gliner texts ["PERSON"] = Raise (KeyError "seq_length")
  /\ batch_predict_entities (decoder [[hyp 0 0 "PERSON" (9 # 10)]]) bare_gliner
       texts ["PERSON"] options
     = Raise (KeyError "seq_length").
Proof.
  intros texts raw0 collated.
  assert (collate_raw_batch (data_processor bare_gliner)
            (inference_examples splitter texts) (Some ["PERSON"]) = Ok raw0)
    as H1 by reflexivity.
  assert (raw0 !! "seq_length" = None) as H2 by reflexivity.
  assert (collate_fn (data_processor bare_gliner) (with_offsets splitter texts raw0) false
          = Ok collated) as H3 by reflexivity.
  split; [exact H1|]. split; [exact H2|]. split; [exact H3|].
  exact (inference_needs_seq_length (decoder [[hyp 0 0 "PERSON" (9 # 10)]]) bare_gliner
           texts ["PERSON"] options raw0 collated H1 H2 H3).
Defined.

Lemma prepare_attaches_offset_maps_witness :
  let texts := ["Alice met Bob"] in
  prepare_model_inputs gliner texts ["PERSON"] = Ok (model_input, raw_batch)
  /\ exists raw0 all_start all_end,
       collate_raw_batch (data_processor gliner) (inference_examples splitter texts)
         (Some ["PERSON"]) = Ok raw0
       /\ raw_batch !! start_key = Some (OOffsets all_start)
       /\ raw_batch !! end_key = Some (OOffsets all_end)
       /\ (forall k, k <> start_key -> k <> end_key -> raw_batch !! k = raw0 !! k)
       /\ length all_start = length texts
       /\ length all_end = length texts
       /\ forall i text, texts !! i = Some text ->
            exists starts ends,
              all_start !! i = Some starts /\ all_end !! i = Some ends
              /\ length starts = length (splitter text)
              /\ length ends = length (splitter text)
              /\ forall j tok, splitter text !! j = Some tok ->
                   starts !! j = Some tok.1.2 /\ ends !! j = Some tok.2.
Proof.
  intros texts.
  assert (prepare_model_inputs gliner texts ["PERSON"] = Ok (model_input, raw_batch))
    as H1 by exact scenario_prepare.
  split; [exact H1|].
  exact (prepare_attaches_offset_maps gliner texts ["PERSON"] model_input raw_batch H1).
Defined.

Lemma predict_entities_needs_one_list_witness :
  let outputs := [[hyp 0 0 "PERSON" (95 # 100)]] in
  prepare_model_inputs gliner ["Alice met Bob"] ["PERSON"] = Ok (model_input, raw_batch)
  /\ decoder outputs (model gliner) model_input raw_batch options = Ok outputs
  /\ predict_entities (decoder outputs) gliner "Alice met Bob" ["PERSON"] options
     = Ok [ {| e_start := 0; e_end := 5; e_text := "Alice";
               e_label := "PERSON"; e_score := (95 # 100)%Q |} ].
Proof.
  intros outputs.
  assert (prepare_model_inputs gliner ["Alice met Bob"] ["PERSON"]
          = Ok (model_input, raw_batch)) as H1 by exact scenario_prepare.
  assert (decoder outputs (model gliner) model_input raw_batch options = Ok outputs)
    as H2 by reflexivity.
  split; [exact H1|]. split; [exact H2|].
  rewrite (proj2 (predict_entities_needs_one_list (decoder outputs) gliner
                    "Alice met Bob" ["PERSON"] options model_input raw_batch outputs
                    H1 H2) _ eq_refl).
  reflexivity.
Defined.

Lemma reconstruction_fails_only_with_IndexError_witness :
  let outputs := [[hyp 0 7 "PERSON" (95 # 100)]] in
  let run := batch_predict_entities (decoder outputs) gliner ["Alice met Bob"]
               ["PERSON"] options in
  prepare_model_inputs gliner ["Alice met Bob"] ["PERSON"] = Ok (model_input, raw_batch)
  /\ decoder outputs (model gliner) model_input raw_batch options = Ok outputs
  /\ (is_Ok run \/ run = Raise IndexError).
Proof.
  intros outputs run.
  assert (prepare_model_inputs gliner ["Alice met Bob"] ["PERSON"]
          = Ok (model_input, raw_batch)) as H1 by exact scenario_prepare.
  assert (decoder outputs (model gliner) model_input raw_batch options = Ok outputs)
    as H2 by reflexivity.
  split; [exact H1|]. split; [exact H2|].
  exact (reconstruction_fails_only_with_IndexError (decoder outputs) gliner
           ["Alice met Bob"] ["PERSON"] options model_input raw_batch outputs H1 H2).
Defined.

Lemma surplus_hypothesis_lists_raise_witness :
  let texts := ["Alice met Bob"] in
  let outputs : list (list (@SpanHypothesis Q)) := [[]; []] in
  prepare_model_inputs gliner texts ["PERSON"] = Ok (model_input, raw_batch)
  /\ decoder outputs (model gliner) model_input raw_batch options = Ok outputs
  /\ length texts < length outputs
  /\ batch_predict_entities (decoder outputs) gliner texts ["PERSON"] options
     = Raise IndexError.
Proof.
  intros texts outputs.
  assert (prepare_model_inputs gliner texts ["PERSON"] = Ok (model_input, raw_batch))
    as H1 by exact scenario_prepare.
  assert (decoder outputs (model gliner) model_input raw_batch options = Ok outputs)
    as H2 by reflexivity.
  assert (length texts < length outputs) as H3 by (simpl; lia).
  split; [exact H1|]. split; [exact H2|]. split; [exact H3|].
  exact (surplus_hypothesis_lists_raise (decoder outputs) gliner texts ["PERSON"]
           options model_input raw_batch outputs H1 H2 H3).
Defined.

(** The entities of the run the next three witnesses use: a hypothesis that
    names its tokens from the end, and one that spans the whole text. *)
Lemma reversed_and_full_run :
  batch_predict_entities
    (decoder [[hyp (-1) (-3) "PERSON" (9 # 10); hyp 0 2 "EVENT" (8 # 10)]])
    gliner ["Alice met Bob"] ["PERSON"] options
  = Ok [[ {| e_start := 10; e_end := 5; e_text := "";
             e_label := "PERSON"; e_score := (9 # 10)%Q |};
          {| e_start := 0; e_end := 13; e_text := "Alice met Bob";
             e_label := "EVENT"; e_score := (8 # 10)%Q |} ]].
Proof. vm_compute. reflexivity. Qed.

Lemma entities_follow_python_indexing_witness :
  let outputs := [[hyp (-1) (-3) "PERSON" (9 # 10); hyp 0 2 "EVENT" (8 # 10)]] in
  let all_entities :=
    [[ {| e_start := 10; e_end := 5; e_text := "";
          e_label := "PERSON"; e_score := (9 # 10)%Q |};
       {| e_start := 0; e_end := 13; e_text := "Alice met Bob";
          e_label := "EVENT"; e_score := (8 # 10)%Q |} ]]%Z in
  prepare_model_inputs gliner ["Alice met Bob"] ["PERSON"] = Ok (model_input, raw_batch)
  /\ decoder outputs (model gliner) model_input raw_batch options = Ok outputs
  /\ batch_predict_entities (decoder outputs) gliner ["Alice met Bob"] ["PERSON"] options
     = Ok all_entities
  /\ length all_entities = length outputs
  /\ forall i output, outputs !! i = Some output ->
       exists text entities,
         ["Alice met Bob"] !! i = Some text
         /\ all_entities !! i = Some entities
         /\ length entities = length output
         /\ forall j h, output !! j = Some h ->
              let tokens := words_splitter (data_processor gliner) text in
              let n := length tokens in
              exists first_token last_token,
                (- Z.of_nat n <= start_token_idx h < Z.of_nat n)%Z
                /\ (- Z.of_nat n <= end_token_idx h < Z.of_nat n)%Z
                /\ tokens !! resolve n (start_token_idx h) = Some first_token
                /\ tokens !! resolve n (end_token_idx h) = Some last_token
                /\ entities !! j
                   = Some {| e_start := first_token.1.2; e_end := last_token.2;
                             e_text := slice text first_token.1.2 last_token.2;
                             e_label := ent_type h; e_score := ent_score h |}.
Proof.
  intros outputs all_entities.
  assert (prepare_model_inputs gliner ["Alice met Bob"] ["PERSON"]
          = Ok (model_input, raw_batch)) as H1 by exact scenario_prepare.
  assert (decoder outputs (model gliner) model_input raw_batch options = Ok outputs)
    as H2 by reflexivity.
  assert (batch_predict_entities (decoder outputs) gliner ["Alice met Bob"] ["PERSON"]
            options = Ok all_entities) as H3 by exact reversed_and_full_run.
  split; [exact H1|]. split; [exact H2|]. split; [exact H3|].
  exact (entities_follow_python_indexing (decoder outputs) gliner ["Alice met Bob"]
           ["PERSON"] options model_input raw_batch outputs all_entities H1 H2 H3).
Defined.

Lemma entity_text_is_own_slice_witness :
  let outputs := [[hyp (-1) (-3) "PERSON" (9 # 10); hyp 0 2 "EVENT" (8 # 10)]] in
  let reversed := {| e_start := 10; e_end := 5; e_text := "";
                     e_label := "PERSON"; e_score := (9 # 10)%Q |}%Z in
  let full := {| e_start := 0; e_end := 13; e_text := "Alice met Bob";
                 e_label := "EVENT"; e_score := (8 # 10)%Q |}%Z in
  prepare_model_inputs gliner ["Alice met Bob"] ["PERSON"] = Ok (model_input, raw_batch)
  /\ decoder outputs (model gliner) model_input raw_batch options = Ok outputs
  /\ batch_predict_entities (decoder outputs) gliner ["Alice met Bob"] ["PERSON"] options
     = Ok [[reversed; full]]
  /\ e_text reversed = slice "Alice met Bob" (e_start reversed) (e_end reversed)
  /\ ((0 <= e_end reversed <= e_start reversed)%Z -> e_text reversed = "").
Proof.
  intros outputs reversed full.
  assert (prepare_model_inputs gliner ["Alice met Bob"] ["PERSON"]
          = Ok (model_input, raw_batch)) as H1 by exact scenario_prepare.
  assert (decoder outputs (model gliner) model_input raw_batch options = Ok outputs)
    as H2 by reflexivity.
  assert (batch_predict_entities (decoder outputs) gliner ["Alice met Bob"] ["PERSON"]
            options = Ok [[reversed; full]]) as H3 by exact reversed_and_full_run.
  assert (["Alice met Bob"] !! 0 = Some "Alice met Bob") as H4 by reflexivity.
  assert ([[reversed; full]] !! 0 = Some [reversed; full]) as H5 by reflexivity.
  assert (reversed ∈ [reversed; full]) as H6 by left.
  split; [exact H1|]. split; [exact H2|]. split; [exact H3|].
  exact (entity_text_is_own_slice (decoder outputs) gliner ["Alice met Bob"] ["PERSON"]
           options model_input raw_batch outputs [[reversed; full]] H1 H2 H3
           0 "Alice met Bob" [reversed; full] reversed H4 H5 H6).
Defined.

Lemma scenario_splitter_contract :
  splitter_contract "Alice met Bob" (splitter "Alice met Bob").
Proof.
  split.
  - intros [|[|[|j]]] tok Htok; try done; injection Htok as <-; vm_compute;
      repeat split; congruence.
  - intros [|[|[|j]]] [|[|[|j']]] tok tok' Hlt Htok Htok'; try done; try lia;
      injection Htok as <-; injection Htok' as <-; vm_compute; congruence.
Qed.

Lemma entity_lies_in_text_witness :
  let outputs := [[hyp (-1) (-3) "PERSON" (9 # 10); hyp 0 2 "EVENT" (8 # 10)]] in
  let h := hyp 0 2 "EVENT" (8 # 10) in
  let all_entities :=
    [[ {| e_start := 10; e_end := 5; e_text := "";
          e_label := "PERSON"; e_score := (9 # 10)%Q |};
       {| e_start := 0; e_end := 13; e_text := "Alice met Bob";
          e_label := "EVENT"; e_score := (8 # 10)%Q |} ]]%Z in
  let tokens := words_splitter (data_processor gliner) "Alice met Bob" in
  prepare_model_inputs gliner ["Alice met Bob"] ["PERSON"] = Ok (model_input, raw_batch)
  /\ decoder outputs (model gliner) model_input raw_batch options = Ok outputs
  /\ batch_predict_entities (decoder outputs) gliner ["Alice met Bob"] ["PERSON"] options
     = Ok all_entities
  /\ splitter_contract "Alice met Bob" tokens
  /\ (0 <= start_token_idx h <= end_token_idx h)%Z
  /\ (end_token_idx h < Z.of_nat (length tokens))%Z
  /\ exists entities entity,
       all_entities !! 0 = Some entities /\ entities !! 1 = Some entity
       /\ (0 <= e_start entity <= e_end entity)%Z
       /\ (e_end entity <= Z.of_nat (String.length "Alice met Bob"))%Z
       /\ e_text entity
          = substring (Z.to_nat (e_start entity))
              (Z.to_nat (e_end entity - e_start entity)) "Alice met Bob"
       /\ String.length (e_text entity) = Z.to_nat (e_end entity - e_start entity).
Proof.
  intros outputs h all_entities tokens.
  assert (prepare_model_inputs gliner ["Alice met Bob"] ["PERSON"]
          = Ok (model_input, raw_batch)) as H1 by exact scenario_prepare.
  assert (decoder outputs (model gliner) model_input raw_batch options = Ok outputs)
    as H2 by reflexivity.
  assert (batch_predict_entities (decoder outputs) gliner ["Alice met Bob"] ["PERSON"]
            options = Ok all_entities) as H3 by exact reversed_and_full_run.
  assert (splitter_contract "Alice met Bob" tokens) as H4
    by exact scenario_splitter_contract.
  assert (0 <= start_token_idx h <= end_token_idx h)%Z as H5 by (simpl; lia).
  assert (end_token_idx h < Z.of_nat (length tokens))%Z as H6 by (vm_compute; reflexivity).
  split; [exact H1|]. split; [exact H2|]. split; [exact H3|]. split; [exact H4|].
  split; [exact H5|]. split; [exact H6|].
  exact (entity_lies_in_text (decoder outputs) gliner ["Alice met Bob"] ["PERSON"]
           options model_input raw_batch outputs all_entities 0 1 "Alice met Bob"
           _ h H1 H2 H3 eq_refl eq_refl eq_refl H4 H5 H6).
Defined.

Lemma torch_prepare :
  prepare_model_inputs torch_gliner ["Alice met Bob"] ["PERSON"]
  = Ok (moved_model_input, raw_batch).
Proof. vm_cast_no_check (eq_refl (Ok (moved_model_input, raw_batch))). Qed.

Lemma cleared_flag_moves_tensors_witness :
  onnx_model torch_gliner = false
  /\ model torch_gliner = BaseModel (encoder span_config true)
  /\ prepare_model_inputs torch_gliner ["Alice met Bob"] ["PERSON"]
     = Ok (moved_model_input, raw_batch)
  /\ (forall k t, moved_model_input !! k = Some (OTensor t) ->
        on t = parameters_device (encoder span_config true))
  /\ (raw_batch !! "span_idx" = None -> moved_model_input !! "span_idx" = Some ONone)
  /\ (raw_batch !! "span_mask" = None -> moved_model_input !! "span_mask" = Some ONone).
Proof.
  assert (onnx_model torch_gliner = false) as H1 by reflexivity.
  assert (model torch_gliner = BaseModel (encoder span_config true)) as H2 by reflexivity.
  assert (prepare_model_inputs torch_gliner ["Alice met Bob"] ["PERSON"]
          = Ok (moved_model_input, raw_batch)) as H3 by exact torch_prepare.
  split; [exact H1|]. split; [exact H2|]. split; [exact H3|].
  exact (cleared_flag_moves_tensors torch_gliner (encoder span_config true)
           ["Alice met Bob"] ["PERSON"] moved_model_input raw_batch H1 H2 H3).
Defined.

End InferenceExamples.

Section MixedLabelProperties.
Import Torch Padding Conventions.
Context {A : Type} (zero : A).

#[local] Abbreviation tensor := (tensor A).
#[local] Abbreviation value := (value A).

Lemma rank4_shape (t : tensor) :
  (exists k, labels_like k t) ->
  shape t = [size 0 t; size 1 t; size 2 t; size 3 t]
  /\ has_shape [size 0 t; size 1 t; size 2 t; size 3 t] t = true.
Proof.
  intros (k & b & s & c & Ht). unfold size.
  rewrite (has_shape_shape _ _ Ht). by split.
Qed.

Lemma padded_label_shape (t : tensor) (right bottom : nat) :
  (exists k, labels_like k t) ->
  shape (pad_last2 zero right bottom t)
  = [size 0 t; size 1 t; size 2 t + bottom; size 3 t + right].
Proof.
  intros [_ Hs]%rank4_shape.
  apply (pad_last2_has_shape zero right bottom (size 2 t) (size 3 t)
           [size 0 t; size 1 t]) in Hs.
  by apply has_shape_shape in Hs.
Qed.

Lemma pad_token_labels_mixed (t0 : tensor) (ts : list tensor) :
  Forall (fun t => exists k, labels_like k t) (t0 :: ts) ->
  Exists (fun t => size 0 t <> size 0 t0) ts ->
  pad_token_labels zero (t0 :: ts) = Raise RuntimeError.
Proof.
  intros Hts Hdiff. unfold pad_token_labels. cbv beta iota.
  set (all := t0 :: ts) in *.
  rewrite (mapM_Ok_map (shape_at 2) (size 2)), bind_Ok_l.
  2:{ eapply Forall_impl; [exact Hts|]. intros t [Ht _]%rank4_shape.
      unfold shape_at. by rewrite Ht. }
  rewrite (mapM_Ok_map (shape_at 3) (size 3)), bind_Ok_l.
  2:{ eapply Forall_impl; [exact Hts|]. intros t [Ht _]%rank4_shape.
      unfold shape_at. by rewrite Ht. }
  set (max_s := max_list (map (size 2) all)).
  set (max_c := max_list (map (size 3) all)).
  rewrite (mapM_Ok_map _
             (fun t => pad_last2 zero (max_c - size 3 t) (max_s - size 2 t) t)),
    bind_Ok_l.
  2:{ eapply Forall_impl; [exact Hts|]. intros t [Ht _]%rank4_shape.
      unfold shape_at, F_pad, dim. rewrite Ht. done. }
  unfold cat1, all. cbn [map].
  rewrite (padded_label_shape t0) by (by inversion Hts).
  change (pad_last2 zero (max_c - size 3 t0) (max_s - size 2 t0) t0
          :: map ?f ts) with (map f all).
  rewrite (mapM_Ok_map (shape_at 1) (size 1)), bind_Ok_l.
  2:{ apply Forall_map. eapply Forall_impl; [exact Hts|]. intros t Ht. simpl.
      unfold shape_at, size. by rewrite (padded_label_shape t _ _ Ht). }
  match goal with |- (if ?b then _ else _) = _ => destruct b eqn:Hall end; [|done].
  exfalso. rewrite forallb_forall in Hall.
  apply Exists_exists in Hdiff as (t & Ht & Hne).
  specialize (Hall (pad_last2 zero (max_c - size 3 t) (max_s - size 2 t) t)).
  rewrite bool_decide_eq_true in Hall.
  destruct Hall as [Hhead _].
  - apply (in_map (fun t => pad_last2 zero (max_c - size 3 t) (max_s - size 2 t) t)).
    apply list_elem_of_In. by right.
  - rewrite padded_label_shape in Hhead.
    + simpl in Hhead. congruence.
    + rewrite Forall_forall in Hts. apply Hts. by right.
Qed.

(** X19.  Under token-level mode, when the ["labels"] values are, after
    [squeeze(0)], well-formed rank-4 tensors but one of them differs from
    the first in its leading size, padding the key raises [RuntimeError]:
    the padded tensors cannot be concatenated along axis 1. *)
Theorem mixed_leading_size_raises (self : DataCollatorWithPadding)
    (cfg : GLiNERConfig) (batch : list (dict value)) (t0 : tensor) (ts : list tensor) :
  config self = Some cfg -> span_mode cfg = "token_level" ->
  Forall2 (holds_squeezed "labels") batch (t0 :: ts) ->
  Forall (fun t => exists k, labels_like k t) (t0 :: ts) ->
  Exists (fun t => size 0 t <> size 0 t0) ts ->
  pad_key zero self batch "labels" = Raise RuntimeError.
Proof.
  intros Hcfg Hmode Hbatch Hts Hdiff.
  rewrite (pad_key_tensors zero self "labels" batch (t0 :: ts) Hbatch).
  rewrite pad_key_data_tensors_cons.
  assert (dim t0 = 4) as Hd.
  { inversion Hts as [|? ? [H0 _]%rank4_shape _]. unfold dim. by rewrite H0. }
  destruct (decide (dim t0 = 1)) as [?|_]; [lia|].
  destruct (decide (dim t0 = 2)) as [?|_]; [lia|].
  unfold config_span_mode. rewrite Hcfg, Hmode, bind_Ok_l.
  change (String.eqb "labels" "labels") with true.
  change (String.eqb "token_level" "token_level") with true. cbv iota.
  by rewrite pad_token_labels_mixed.
Qed.

End MixedLabelProperties.

Section MixedLabelExamples.
Import Torch Padding Conventions Scenario.

Lemma mixed_leading_size_raises_witness :
  let t0 := tensor_4d 1 1 2 [[[[5; 6]]]; [[[7; 8]]]]%Z in
  let t1 := tensor_4d 1 1 2 [[[[1; 2]]]; [[[3; 4]]]; [[[5; 6]]]]%Z in
  let batch := [ [("labels", VTensor t0)]; [("labels", VTensor t1)] ] in
  Padding.config token_level_collator = Some {| span_mode := "token_level" |}
  /\ Forall2 (holds_squeezed "labels") batch [t0; t1]
  /\ Forall (fun t => exists k, labels_like k t) [t0; t1]
  /\ Exists (fun t => size 0 t <> size 0 t0) [t1]
  /\ pad_key 0%Z token_level_collator batch "labels" = Raise RuntimeError.
Proof.
  intros t0 t1 batch.
  assert (Padding.config token_level_collator = Some {| span_mode := "token_level" |})
    as H1 by done.
  assert (Forall2 (holds_squeezed "labels") batch [t0; t1]) as H2.
  { repeat constructor; eexists; split; reflexivity. }
  assert (Forall (fun t => exists k, labels_like k t) [t0; t1]) as H3.
  { repeat constructor; [exists 2; by exists 1, 1, 2 | exists 3; by exists 1, 1, 2]. }
  assert (Exists (fun t => size 0 t <> size 0 t0) [t1]) as H4 by (by left).
  split; [exact H1|]. split; [exact H2|]. split; [exact H3|]. split; [exact H4|].
  exact (mixed_leading_size_raises 0%Z token_level_collator
           {| span_mode := "token_level" |} batch t0 [t1] H1 eq_refl H2 H3 H4).
Defined.

End MixedLabelExamples.
